(** * ClassicLib scan pipeline: a shallow embedding of
      [ClassicLib/ScanGame/ScanGameCore.py],
      [ClassicLib/ScanGame/AsyncScanGame.py] and
      [ClassicLib/PathValidator.py].

    Python [str] values are modelled as [string] (one [ascii] per byte of
    the UTF-8 text), [bytes] as [list byte], a Python [set] of strings
    as [gset string], and the insertion-ordered [dict] of issue sets as an
    association list.  [Py.lower] and [Py.upper] map the ASCII letters
    and leave every other byte alone: they are [str.lower] and
    [str.upper] on ASCII text.  Where a statement is about text in
    general, [str.lower] and [str.upper] are parameters [lower] and
    [upper] of which nothing is assumed.

    Everything a scan learns from the outside world is answered by a
    [World] record: the directory walk, the bytes and lines of files, the
    outcome of a move and the outcome of a run of the external tool.
    The archive scan and the log scan change nothing on the filesystem.
    The loose-file scan moves folders and files away while other tasks
    of the same wave read and move what is inside them, and is given
    twice.  In [ScanGameCore] every read and every move is answered by
    the filesystem as the walk saw it: this is the scan of a dry run and
    of every run in which no task finds its file or folder gone.  In
    [Live] a move changes what the tasks after it find.

    Concurrency is modelled by a [schedule], the order in which work
    items that run concurrently get done.  [asyncio.gather] stores each
    result at the index of its task; the tasks of the loose-file scan
    change the shared issue sets, and the filesystem, in the order of
    the schedule.  Calls to the message and logging functions are left
    out: they do not touch the report. *)

From Stdlib Require Import ZArith NArith Ascii String List Lia.
From Stdlib Require Import Strings.Byte DecimalString.
From stdpp Require Import base list strings gmap sets sorting.

#[global] Instance byte_eq_dec : EqDecision byte := Byte.byte_eq_dec.

(** ** Python string and bytes primitives *)

Module Py.

(** [str.lower] / [str.upper] on ASCII text: the ASCII letters are
    mapped, every other byte is left alone. *)
Definition lower_char (c : ascii) : ascii :=
  let n := N_of_ascii c in
  if ((65 <=? n) && (n <=? 90))%N then ascii_of_N (n + 32) else c.

Definition upper_char (c : ascii) : ascii :=
  let n := N_of_ascii c in
  if ((97 <=? n) && (n <=? 122))%N then ascii_of_N (n - 32) else c.

Fixpoint lower (s : string) : string :=
  match s with
  | EmptyString => EmptyString
  | String c s' => String (lower_char c) (lower s')
  end.

Fixpoint upper (s : string) : string :=
  match s with
  | EmptyString => EmptyString
  | String c s' => String (upper_char c) (upper s')
  end.

(** [s[n:]] for [0 <= n]. *)
Fixpoint drop (n : nat) (s : string) : string :=
  match n, s with
  | O, _ => s
  | S _, EmptyString => EmptyString
  | S k, String _ s' => drop k s'
  end.

(** [s.startswith(p)] *)
Definition startswith (p s : string) : bool := String.prefix p s.

(** [s.endswith(suf)] *)
Definition endswith (suf s : string) : bool :=
  (String.length suf <=? String.length s)%nat
  && String.eqb (drop (String.length s - String.length suf) s) suf.

(** [s.endswith((a, b))] with a tuple of suffixes. *)
Definition endswith_any (sufs : list string) (s : string) : bool :=
  existsb (fun suf => endswith suf s) sufs.

(** [sub in s] *)
Fixpoint contains (sub s : string) : bool :=
  String.prefix sub s ||
  match s with
  | EmptyString => false
  | String _ s' => contains sub s'
  end.

(** [s[-3:]] *)
Definition last3 (s : string) : string := drop (String.length s - 3) s.

(** [s[1:]] *)
Definition tail1 (s : string) : string := drop 1 s.

(** [sep.join(l)] *)
Fixpoint join (sep : string) (l : list string) : string :=
  match l with
  | [] => EmptyString
  | [x] => x
  | x :: l' => x +:+ sep +:+ join sep l'
  end.

(** [str.join] with the empty separator *)
Definition concat (l : list string) : string := fold_right String.append EmptyString l.

(** [s.split(sep, maxsplit)] for a non-empty separator: scan left to
    right, cut at each non-overlapping occurrence while cuts remain.
    [skip] counts the separator characters still to be dropped after a
    cut, [cur] is the current piece reversed, [left] the cuts still
    allowed ([None]: no limit). *)
Fixpoint split_go (sep : string) (left : option nat) (skip : nat)
    (cur : string) (s : string) : list string :=
  match s with
  | EmptyString => [String.rev cur]
  | String c s' =>
      match skip with
      | S k => split_go sep left k cur s'
      | O =>
          let cut := String.prefix sep s in
          match cut, left with
          | true, None =>
              String.rev cur :: split_go sep None (String.length sep - 1) EmptyString s'
          | true, Some (S m) =>
              String.rev cur :: split_go sep (Some m) (String.length sep - 1) EmptyString s'
          | _, _ => split_go sep left 0 (String c cur) s'
          end
      end
  end.

Definition split (sep : string) (s : string) : list string :=
  split_go sep None 0 EmptyString s.

Definition split_max (sep : string) (maxsplit : nat) (s : string) : list string :=
  split_go sep (Some maxsplit) 0 EmptyString s.

(** [s.rsplit(".", 1)[-1]]: what follows the last dot, or all of [s]. *)
Fixpoint after_last_dot_go (best : string) (s : string) : string :=
  match s with
  | EmptyString => best
  | String c s' =>
      if Ascii.eqb c "."%char then after_last_dot_go s' s'
      else after_last_dot_go best s'
  end.

Definition after_last_dot (s : string) : string := after_last_dot_go s s.

(** Whitespace of [str.split()] within ASCII: TAB, LF, VT, FF, CR,
    FS, GS, RS, US and the space. *)
Definition is_space (c : ascii) : bool :=
  let n := N_of_ascii c in
  (((9 <=? n) && (n <=? 13)) || ((28 <=? n) && (n <=? 32)))%N.

(** [s.split(maxsplit=n)]: whitespace-separated words; once [n] cuts
    are made the rest of the text (leading whitespace removed, if
    anything is left) is the last element.  [cur] is the word being
    read, reversed; [None] between words. *)
Fixpoint split_ws_go (left : nat) (cur : option string) (s : string)
    : list string :=
  match s with
  | EmptyString => match cur with Some w => [String.rev w] | None => [] end
  | String c s' =>
      match cur with
      | Some w =>
          if is_space c then String.rev w :: split_ws_go left None s'
          else split_ws_go left (Some (String c w)) s'
      | None =>
          if is_space c then split_ws_go left None s'
          else
            match left with
            | O => [s]
            | S m => split_ws_go m (Some (String c EmptyString)) s'
            end
      end
  end.

Definition split_ws_max (maxsplit : nat) (s : string) : list string :=
  split_ws_go maxsplit None s.

Definition is_digit (c : ascii) : bool :=
  let n := N_of_ascii c in ((48 <=? n) && (n <=? 57))%N.

(** [s.isdecimal()] on ASCII text: non-empty and digits only. *)
Fixpoint all_digits (s : string) : bool :=
  match s with
  | EmptyString => true
  | String c s' => is_digit c && all_digits s'
  end.

Definition isdecimal (s : string) : bool :=
  match s with EmptyString => false | _ => all_digits s end.

(** [int(s)] for a decimal [s]. *)
Fixpoint int_go (acc : N) (s : string) : N :=
  match s with
  | EmptyString => acc
  | String c s' => int_go (10 * acc + (N_of_ascii c - 48))%N s'
  end.

Definition int (s : string) : N := int_go 0%N s.

(** [str(n)] for a natural number. *)
Definition str_of_N (n : N) : string :=
  DecimalString.NilZero.string_of_uint (N.to_uint n).

Definition str_of_nat (n : nat) : string := str_of_N (N.of_nat n).

(** [repr(b)] of a [bytes] value, which is also [str(b)]. *)
Definition hex_digit (d : N) : ascii :=
  if (d <? 10)%N then ascii_of_N (48 + d) else ascii_of_N (87 + d).

Definition squote : ascii := ascii_of_N 39.
Definition dquote : ascii := ascii_of_N 34.
Definition backslash : ascii := ascii_of_N 92.

Definition has_byte (x : byte) (b : list byte) : bool := existsb (Byte.eqb x) b.

Definition bytes_quote (b : list byte) : ascii :=
  if has_byte x27 b && negb (has_byte x22 b) then dquote else squote.

Definition repr_byte (quote : ascii) (x : byte) : string :=
  let c := ascii_of_byte x in
  let n := Byte.to_N x in
  if Ascii.eqb c quote || Ascii.eqb c backslash then String backslash (String c EmptyString)
  else if (n =? 9)%N then String backslash "t"
  else if (n =? 10)%N then String backslash "n"
  else if (n =? 13)%N then String backslash "r"
  else if ((n <? 32) || (127 <=? n))%N
    then String backslash (String "x"%char
           (String (hex_digit (n / 16)) (String (hex_digit (n mod 16)) EmptyString)))
  else String c EmptyString.

Definition bytes_repr (b : list byte) : string :=
  let q := bytes_quote b in
  String "b"%char (String q (concat (map (repr_byte q) b) +:+ String q EmptyString)).

(** [struct.unpack("<I", b)[0]]: four bytes, least significant
    first; any other length is a [struct.error]. *)
Definition unpack_u32_le (b : list byte) : option N :=
  match b with
  | [b0; b1; b2; b3] =>
      Some (Byte.to_N b0 + 256 * Byte.to_N b1 + 65536 * Byte.to_N b2
            + 16777216 * Byte.to_N b3)%N
  | _ => None
  end.

(** A byte string literal. *)
Definition b (s : string) : list byte := String.list_byte_of_string s.

End Py.


(** ** Text constants *)

Definition nl : string := String (ascii_of_N 10) EmptyString.
Definition sep_char : string := String Py.backslash EmptyString.

(** ** Paths ([pathlib], Windows flavour, which the code's [Scripts\]
    test assumes).  A path is its anchor (drive and root, possibly empty)
    and the names below it. *)

Record Path := mkPath { anchor : string; names : list string }.

#[global] Instance Path_eq_dec : EqDecision Path.
Proof. solve_decision. Defined.

(** [p.parts] *)
Definition parts (p : Path) : list string :=
  (if decide (anchor p = EmptyString) then [] else [anchor p]) ++ names p.

(** [str(p)] *)
Definition path_str (p : Path) : string :=
  match anchor p, names p with
  | EmptyString, [] => "."
  | a, ns => a +:+ Py.join sep_char ns
  end.

(** [p / name], for a plain name *)
Definition joinpath (p : Path) (name : string) : Path :=
  mkPath (anchor p) (names p ++ [name]).

(** [p / rel], for a relative path *)
Definition joinrel (p rel : Path) : Path :=
  mkPath (anchor p) (names p ++ names rel).

(** [p.parent] *)
Definition parent (p : Path) : Path := mkPath (anchor p) (removelast (names p)).

(** [p.name] *)
Definition path_name (p : Path) : string := List.last (names p) EmptyString.

(** A path given relative to the mod folder; [(mod_path / rel).relative_to(mod_path)]
    is [rel] again. *)
Definition relative (ns : list string) : Path := mkPath EmptyString ns.

(** [name.rfind(".")] *)
Fixpoint rfind_dot_go (i : nat) (best : option nat) (s : string) : option nat :=
  match s with
  | EmptyString => best
  | String c s' =>
      rfind_dot_go (S i) (if Ascii.eqb c "."%char then Some i else best) s'
  end.

Definition rfind_dot (s : string) : option nat := rfind_dot_go 0 None s.

(** [p.suffix] of a path whose last component is [name] (Python 3.12,
    the first release with [Path.walk]): the text from the last dot on,
    unless that dot opens or closes the name. *)
Definition suffix (name : string) : string :=
  match rfind_dot name with
  | Some i =>
      if (0 <? i)%nat && (i <? String.length name - 1)%nat
      then Py.drop i name else EmptyString
  | None => EmptyString
  end.

(** ** The issue registry: [dict[str, set[str]]] in insertion order *)

Abbreviation issue_dict := (list (string * gset string)).

Definition new_issue_lists (keys : list string) : issue_dict :=
  map (fun k => (k, ∅)) keys.

(** [issue_lists[k]] *)
Fixpoint issues_get (k : string) (r : issue_dict) : gset string :=
  match r with
  | [] => ∅
  | (k', s) :: r' => if decide (k' = k) then s else issues_get k r'
  end.

(** [issue_lists[k].update(items)] *)
Definition issues_update (k : string) (items : gset string) (r : issue_dict)
    : issue_dict :=
  map (fun e => if decide (e.1 = k) then (e.1, e.2 ∪ items) else e) r.

(** [issue_lists[k].add(line)] *)
Definition issues_add (k line : string) (r : issue_dict) : issue_dict :=
  issues_update k {[ line ]} r.

(** [sorted(items)]: the elements of the set in increasing order.
    [String.le] compares character codes from the left; on UTF-8 text
    this is the code-point order Python sorts by. *)
Definition sorted (items : gset string) : list string :=
  merge_sort String.le (elements items).

(** The rendering loop shared by the scans:
<<
    for issue_type, items in issue_lists.items():
        if items and issue_type in issue_messages:
            message_list.extend(issue_messages[issue_type])
            message_list.extend(sorted(items))
>> *)
Definition render_step (issue_messages : gmap string (list string))
    (message_list : list string) (e : string * gset string) : list string :=
  if decide (e.2 = ∅) then message_list
  else match issue_messages !! e.1 with
       | Some template => (message_list ++ template) ++ sorted e.2
       | None => message_list
       end.

Definition render (issue_messages : gmap string (list string))
    (message_list : list string) (r : issue_dict) : list string :=
  foldl (render_step issue_messages) message_list r.

(** ** Issue templates *)

Inductive scan_mode := Unpacked | Archived.

Module Templates.

Definition tex_dims : list string :=
  [ nl +:+ "# ⚠️ DDS DIMENSIONS ARE NOT DIVISIBLE BY 2 ⚠️" +:+ nl;
    "▶️ Any mods that have texture files with incorrect dimensions" +:+ nl;
    "  are very likely to cause a *Texture (DDS) Crash*. For further details," +:+ nl;
    "  read the *How To Read Crash Logs.pdf* included with the CLASSIC exe." +:+ nl +:+ nl ].

Definition tex_frmt : list string :=
  [ nl +:+ "# ❓ TEXTURE FILES HAVE INCORRECT FORMAT, SHOULD BE DDS ❓" +:+ nl;
    "▶️ Any files with an incorrect file format will not work." +:+ nl;
    "  Mod authors should convert these files to their proper game format." +:+ nl;
    "  If possible, notify the original mod authors about these problems." +:+ nl +:+ nl ].

Definition snd_frmt : list string :=
  [ nl +:+ "# ❓ SOUND FILES HAVE INCORRECT FORMAT, SHOULD BE XWM OR WAV ❓" +:+ nl;
    "▶️ Any files with an incorrect file format will not work." +:+ nl;
    "  Mod authors should convert these files to their proper game format." +:+ nl;
    "  If possible, notify the original mod authors about these problems." +:+ nl +:+ nl ].

Definition xse_file (what xse_acronym : string) : list string :=
  [ nl +:+ "# ⚠️ " +:+ what +:+ " CONTAIN COPIES OF *" +:+ xse_acronym +:+ "* SCRIPT FILES ⚠️" +:+ nl;
    "▶️ Any mods with copies of original Script Extender files" +:+ nl;
    "  may cause script related problems or crashes." +:+ nl +:+ nl ].

Definition previs (headline : string) : list string :=
  [ nl +:+ headline +:+ nl;
    "▶️ Any mods that contain custom precombine/previs files" +:+ nl;
    "  should load after the PRP.esp plugin from Previs Repair Pack (PRP)." +:+ nl;
    "  Otherwise, see if there is a PRP patch available for these mods." +:+ nl +:+ nl ].

Definition animdata (what : string) : list string :=
  [ nl +:+ "# ❓ " +:+ what +:+ " CONTAIN CUSTOM ANIMATION FILE DATA ❓" +:+ nl;
    "▶️ Any mods that have their own custom Animation File Data" +:+ nl;
    "  may rarely cause an *Animation Corruption Crash*. For further details," +:+ nl;
    "  read the *How To Read Crash Logs.pdf* included with the CLASSIC exe." +:+ nl +:+ nl ].

Definition cleanup : list string :=
  [ nl +:+ "# 📄 DOCUMENTATION FILES MOVED TO 'CLASSIC Backup\Cleaned Files' 📄" +:+ nl ].

Definition ba2_frmt : list string :=
  [ nl +:+ "# ❓ BA2 ARCHIVES HAVE INCORRECT FORMAT, SHOULD BE BTDX-GNRL OR BTDX-DX10 ❓" +:+ nl;
    "▶️ Any files with an incorrect file format will not work." +:+ nl;
    "  Mod authors should convert these files to their proper game format." +:+ nl;
    "  If possible, notify the original mod authors about these problems." +:+ nl +:+ nl ].

End Templates.

(** ** Settings and the outside world *)

(** What the settings provider hands out for one scan. *)
Record Settings := {
  xse_acronym : string;             (* XSE_Acronym *)
  xse_scriptfiles : list string;    (* the keys of XSE_HashedScripts, in dict order *)
  mod_path : option Path;           (* "MODS Folder Path", [None] when unset *)
  local_dir : Path;                 (* GlobalRegistry.get_local_dir() *)
  warn_mods_path_missing : string;  (* Mods_Warn.Mods_Path_Missing *)
  warn_mods_path_invalid : string;  (* Mods_Warn.Mods_Path_Invalid *)
  warn_mods_bsarch_missing : string;(* Mods_Warn.Mods_BSArch_Missing *)
  catch_log_errors : list string;
  exclude_log_files : list string;
  exclude_log_errors : list string;
  TEST_MODE : bool                  (* ClassicLib.ScanGame.Config.TEST_MODE *)
}.

(** How a run of the external tool under [asyncio.wait_for(.., timeout=30)]
    ends: the timeout expires, starting or talking to the process raises
    one of the caught errors ([OSError], [ValueError],
    [subprocess.SubprocessError]), or the process exits. *)
Inductive proc_outcome :=
  | ProcTimeout
  | ProcError
  | ProcExit (returncode : Z) (stdout stderr : string).

(** How the [try] block around a [shutil.move] ends: the move returns,
    or a [PermissionError] or another [OSError] is caught. *)
Inductive move_outcome := MoveOk | MovePermissionError | MoveOSError.

(** One entry of [mod_path.walk(top_down=False)]: the names of [root]
    below the mod folder, the sub-directory names and the file names. *)
Definition walk_entry : Type := list string * list string * list string.

(** The filesystem as it is when a scan starts, and the behaviour of
    the external tool.

    [Path.walk] is called without [on_error]: a directory that cannot
    be listed, the mods folder itself included, is passed over without
    an error, so that a mods folder that is missing or may not be read
    gives [walk_entries = []] and [walk_fails = false].  [walk_fails]
    stands for an [OSError] that comes up while a listing is being
    read, the only one that [walk] lets through.

    [read_bytes], [read_lines] and [try_move] say how the read or the
    [shutil.move] of a file or folder ends that is still where the walk
    saw it.  [read_lines] gives the lines as the reader in use returns
    them ([read_lines_with_encoding_async], [aiofiles] or
    [open_file_with_encoding]). *)
Record World := {
  path_exists : Path -> bool;
  walk_entries : list walk_entry;      (* what the walk yields ... *)
  walk_fails : bool;                   (* ... before it raises [OSError], if it does *)
  read_bytes : Path -> option (list byte);    (* [None]: [OSError] *)
  run_tool : Path -> string -> proc_outcome;  (* [BSArch.exe <archive> <subcommand>] *)
  try_move : Path -> move_outcome;
  glob_logs : Path -> list string;            (* names matched by [folder.glob("*.log")] *)
  read_lines : Path -> option (list string)   (* [None]: [OSError] *)
}.

(** [asyncio.create_subprocess_exec(bsarch, archive, subcommand,
    stdout=PIPE, stderr=PIPE, text=text)] with [communicate()] awaited
    under [wait_for]: asyncio turns down [text=True] with a [ValueError]
    before any process is started, so that only a call with [text=False]
    gets to run the tool. *)
Definition create_subprocess_exec (w : World) (file_path : Path) (subcommand : string)
    (text : bool) : proc_outcome :=
  if text then ProcError else run_tool w file_path subcommand.

(** ** Tasks and [asyncio.gather] *)

(** The result of awaiting a task under [return_exceptions=True]. *)
Inductive task_result (A : Type) :=
  | Returned (a : A)
  | Raised.
Arguments Returned {A} a.
Arguments Raised {A}.

(** A schedule picks the order in which concurrent work items complete. *)
Definition schedule : Type := forall A : Type, list A -> list A.

Definition fair (sched : schedule) : Prop :=
  forall (A : Type) (l : list A), sched A l ≡ₚ l.

Definition gather_step {A} (tasks : list A) (results : list (option A)) (i : nat)
    : list (option A) :=
  match tasks !! i with
  | Some r => <[ i := Some r ]> results
  | None => results
  end.

(** [asyncio.gather] with [return_exceptions=True]: the tasks complete
    in the order the schedule picks, and each result is stored at the
    index of its task. *)
Definition gather {A} (sched : schedule) (tasks : list A) : list (option A) :=
  foldl (gather_step tasks) (replicate (length tasks) None)
        (sched nat (seq 0 (length tasks))).

(** What the scan functions hand back: an early [return] of a message, or
    the joined [message_list]. *)
Inductive scan_outcome :=
  | Aborted (message : string)
  | Report (message_list : list string).

Definition outcome_str (o : scan_outcome) : string :=
  match o with
  | Aborted m => m
  | Report l => Py.concat l
  end.

Definition ba2_keys : list string :=
  ["ba2_frmt"; "animdata"; "tex_dims"; "tex_frmt"; "snd_frmt"; "xse_file"; "previs"].

Definition unpacked_keys : list string :=
  ["cleanup"; "animdata"; "tex_dims"; "tex_frmt"; "snd_frmt"; "xse_file"; "previs"].

(** The three first-match flags of the per-archive and per-directory loops. *)
Record flags := mkFlags {
  has_previs_files : bool;
  has_anim_data : bool;
  has_xse_files : bool
}.

(** How the loop over the blocks of a [-dump] listing ends. *)
Inductive loop_exit :=
  | LoopDone
  | LoopValueError   (* unpacking [block_split[2].split(maxsplit=4)] into five names *)
  | LoopIndexError.  (* [block_split[1]] or [block_split[2]] missing *)

(** [ba2_files]: the archives picked up while walking. *)
Definition collect_ba2 (mp : Path) (entries : list walk_entry) : list (Path * string) :=
  flat_map (fun e : walk_entry =>
    let root := joinrel mp (relative e.1.1) in
    flat_map (fun filename =>
      let filename_lower := Py.lower filename in
      if Py.endswith ".ba2" filename_lower
         && negb (String.eqb filename_lower "prp - main.ba2")
      then [(joinpath root filename, filename)] else []) e.2) entries.

(** [header[:4] != b"BTDX" or header[8:] not in {b"DX10", b"GNRL"}] *)
Definition bad_ba2_header (header : list byte) : bool :=
  negb (bool_decide (take 4 header = Py.b "BTDX"))
  || negb (bool_decide (drop 8 header = Py.b "DX10")
           || bool_decide (drop 8 header = Py.b "GNRL")).

(** [(w.isdecimal() and int(w) % 2 != 0)] *)
Definition odd_decimal (w : string) : bool :=
  Py.isdecimal w && negb (N.eqb (Py.int w mod 2) 0).

(** What a task of the loose-file scan does to the shared state: a line
    put into one of the issue sets, or a call that changes the
    filesystem.  [FsMkdir p]: [p.mkdir(parents=True, exist_ok=True)] is
    called.  [FsMove src dst]: [shutil.move(src, dst)] is called and
    returns; where [src] lands is [shutil]'s business, at [dst] or, when
    [dst] is an existing folder, inside it. *)
Inductive effect :=
  | AddIssue (issue_type line : string)
  | FsMkdir (p : Path)
  | FsMove (src dst : Path).

Definition is_fs_op (e : effect) : bool :=
  match e with
  | AddIssue _ _ => false
  | _ => true
  end.

Definition apply_effect (r : issue_dict) (e : effect) : issue_dict :=
  match e with
  | AddIssue issue_type line => issues_add issue_type line r
  | _ => r
  end.

(** [range(0, len(tasks), batch_size)] and the slices [tasks[i : i + batch_size]]. *)
Definition batches {A} (batch_size : nat) (tasks : list A) : list (list A) :=
  map (fun k => take batch_size (drop (k * batch_size) tasks))
      (seq 0 ((length tasks + batch_size - 1) / batch_size)).

Definition filter_names : list string := ["readme"; "changes"; "changelog"; "change log"].

(** Modelled from the spec: [ClassicLib.Util.normalize_list] is not among
    the sources; the log scanner is specified to test every line
    case-insensitively against the configured patterns, and the code
    compares the normalised patterns with the lower-cased line, so
    normalising lower-cases each pattern. *)
Definition normalize_list (items : list string) : list string := map Py.lower items.

(** ** [ScanGameCore]: the class-based scans *)

Module ScanGameCore.

(** [get_issue_messages(xse_acronym, mode)]: the three base entries,
    then the mode's entries put on top with [dict.update]. *)
Definition get_issue_messages (xse_acronym : string) (mode : scan_mode)
    : gmap string (list string) :=
  let base_messages : gmap string (list string) :=
    <["snd_frmt" := Templates.snd_frmt]>
      (<["tex_frmt" := Templates.tex_frmt]>
        (<["tex_dims" := Templates.tex_dims]> ∅)) in
  match mode with
  | Unpacked =>
      <["cleanup" := Templates.cleanup]>
        (<["animdata" := Templates.animdata "FOLDERS"]>
          (<["previs" := Templates.previs "# ⚠️ FOLDERS CONTAIN LOOSE PRECOMBINE / PREVIS FILES ⚠️"]>
            (<["xse_file" := Templates.xse_file "FOLDERS" xse_acronym]> base_messages)))
  | Archived =>
      <["ba2_frmt" := Templates.ba2_frmt]>
        (<["animdata" := Templates.animdata "BA2 ARCHIVES"]>
          (<["previs" := Templates.previs "# ⚠️ BA2 ARCHIVES CONTAIN CUSTOM PRECOMBINE / PREVIS FILES ⚠️"]>
            (<["xse_file" := Templates.xse_file "BA2 ARCHIVES" xse_acronym]> base_messages)))
  end.

(** *** [scan_mods_archived] *)

(** The loop over [output_split[4:]] of a [-dump] listing. *)
Fixpoint dump_blocks (filename : string) (blocks : list string)
    (local_issues : issue_dict) : issue_dict * loop_exit :=
  match blocks with
  | [] => (local_issues, LoopDone)
  | file_block :: rest =>
      if String.eqb file_block EmptyString then dump_blocks filename rest local_issues
      else
        match Py.split_max nl 3 file_block with
        | b0 :: b1 :: more =>
            if negb (Py.contains "Ext: dds" b1) then
              dump_blocks filename rest
                (issues_add "tex_frmt"
                   ("  - " +:+ Py.upper (Py.after_last_dot b0) +:+ " : " +:+ filename
                    +:+ " > " +:+ b0 +:+ nl) local_issues)
            else
              match more with
              | b2 :: _ =>
                  match Py.split_ws_max 4 b2 with
                  | [_; width; _; height; _] =>
                      dump_blocks filename rest
                        (if odd_decimal width || odd_decimal height
                         then issues_add "tex_dims"
                                ("  - " +:+ width +:+ "x" +:+ height +:+ " : " +:+ filename
                                 +:+ " > " +:+ b0) local_issues
                         else local_issues)
                  | _ => (local_issues, LoopValueError)
                  end
              | [] => (local_issues, LoopIndexError)
              end
        | _ => (local_issues, LoopIndexError)
        end
  end.

(** The loop over [output_split[15:]] of a [-list] listing; [file] is
    a line of the lower-cased output. *)
Fixpoint list_entries (xse_scriptfiles : list string) (file_path : Path)
    (filename : string) (entries : list string) (fl : flags)
    (local_issues : issue_dict) : issue_dict :=
  match entries with
  | [] => local_issues
  | file :: rest =>
      if Py.endswith_any [".mp3"; ".m4a"] file then
        list_entries xse_scriptfiles file_path filename rest fl
          (issues_add "snd_frmt"
             ("  - " +:+ Py.upper (Py.last3 file) +:+ " : " +:+ filename +:+ " > "
              +:+ file +:+ nl) local_issues)
      else if negb (has_anim_data fl) && Py.contains "animationfiledata" file then
        list_entries xse_scriptfiles file_path filename rest
          (mkFlags (has_previs_files fl) true (has_xse_files fl))
          (issues_add "animdata" ("  - " +:+ filename +:+ nl) local_issues)
      else if negb (has_xse_files fl)
              && existsb (fun key => Py.contains ("scripts" +:+ sep_char +:+ Py.lower key) file)
                   xse_scriptfiles
              && negb (Py.contains "workshop framework"
                         (Py.lower (path_str (parent file_path)))) then
        list_entries xse_scriptfiles file_path filename rest
          (mkFlags (has_previs_files fl) (has_anim_data fl) true)
          (issues_add "xse_file" ("  - " +:+ filename +:+ nl) local_issues)
      else if negb (has_previs_files fl) && Py.endswith_any [".uvd"; "_oc.nif"] file then
        list_entries xse_scriptfiles file_path filename rest
          (mkFlags true (has_anim_data fl) (has_xse_files fl))
          (issues_add "previs" ("  - " +:+ filename +:+ nl) local_issues)
      else list_entries xse_scriptfiles file_path filename rest fl local_issues
  end.

(** [process_single_ba2(file_path, filename)]: the external-tool runs
    it asks for (archive and subcommand), and what awaiting it gives. *)
Definition process_single_ba2 (s : Settings) (w : World) (file_path : Path)
    (filename : string) : list (Path * string) * task_result issue_dict :=
  let local_issues := new_issue_lists ba2_keys in
  match read_bytes w file_path with
  | None => ([], Returned local_issues)
  | Some content =>
      let header := take 12 content in
      if bad_ba2_header header then
        ([], Returned (issues_add "ba2_frmt"
                         ("  - " +:+ filename +:+ " : " +:+ Py.bytes_repr header +:+ nl)
                         local_issues))
      else if bool_decide (drop 8 header = Py.b "DX10") then
        ([(file_path, "-dump")],
         match create_subprocess_exec w file_path "-dump" true with
         | ProcTimeout | ProcError => Returned local_issues
         | ProcExit returncode stdout stderr =>
             if negb (Z.eqb returncode 0) then Returned local_issues
             else
               let output_split := Py.split (nl +:+ nl) stdout in
               if Py.startswith "Error:" (List.last output_split EmptyString)
               then Returned local_issues
               else
                 match dump_blocks filename (drop 4 output_split) local_issues with
                 | (li, LoopDone) | (li, LoopValueError) => Returned li
                 | (_, LoopIndexError) => Raised
                 end
         end)
      else
        ([(file_path, "-list")],
         match create_subprocess_exec w file_path "-list" true with
         | ProcTimeout | ProcError => Returned local_issues
         | ProcExit returncode stdout stderr =>
             if negb (Z.eqb returncode 0) then Returned local_issues
             else
               let output_split := Py.split nl (Py.lower stdout) in
               Returned (list_entries (xse_scriptfiles s) file_path filename
                           (drop 15 output_split) (mkFlags false false false)
                           local_issues)
         end)
  end.

(** The merge loop over the gathered results. *)
Definition merge_result (issue_lists : issue_dict)
    (result : option (task_result issue_dict)) : issue_dict :=
  match result with
  | Some (Returned d) =>
      foldl (fun acc e => issues_update e.1 e.2 acc) issue_lists d
  | _ => issue_lists
  end.

(** The issue sets once the results of all archives are merged. *)
Definition scan_mods_archived_issues (sched : schedule) (s : Settings) (w : World) (mp : Path)
    : issue_dict :=
  let issue_lists := new_issue_lists ba2_keys in
  let ba2_files := collect_ba2 mp (walk_entries w) in
  let tasks := map (fun f => (process_single_ba2 s w f.1 f.2).2) ba2_files in
  let results := gather sched tasks in
  foldl merge_result issue_lists results.

Definition scan_mods_archived_outcome (sched : schedule) (s : Settings) (w : World)
    : scan_outcome :=
  let message_list :=
    [nl +:+ "========== RESULTS FROM ARCHIVED / BA2 FILES ==========" +:+ nl] in
  let bsarch_path := joinrel (local_dir s) (relative ["CLASSIC Data"; "BSArch.exe"]) in
  match mod_path s with
  | None => Aborted (warn_mods_path_missing s)
  | Some mp =>
      if negb (path_exists w mp) then Aborted (warn_mods_path_invalid s)
      else if negb (path_exists w bsarch_path) then Aborted (warn_mods_bsarch_missing s)
      else if walk_fails w then Aborted "Error: Could not scan for BA2 files"
      else
        let issue_lists := scan_mods_archived_issues sched s w mp in
        let issue_messages := get_issue_messages (xse_acronym s) Archived in
        Report (render issue_messages message_list issue_lists)
  end.

Definition scan_mods_archived (sched : schedule) (s : Settings) (w : World) : string :=
  outcome_str (scan_mods_archived_outcome sched s w).

(** *** [scan_mods_unpacked] *)

(** The tasks as they go when each finds its file or folder where the
    walk saw it; [Live] has them on a filesystem that the moves of the
    run change. *)

(** [_move_fomod_async(context, root, dirname)] *)
Definition _move_fomod_async (s : Settings) (w : World) (backup_path : Path)
    (rel : list string) (root : Path) (dirname : string) : list effect :=
  let fomod_folder_path := joinpath root dirname in
  let relative_path := relative (rel ++ [dirname]) in
  let new_folder_path := joinrel backup_path relative_path in
  let record := AddIssue "cleanup" ("  - " +:+ path_str relative_path +:+ nl) in
  if negb (TEST_MODE s) then
    match try_move w fomod_folder_path with
    | MoveOk => [FsMove fomod_folder_path new_folder_path; record]
    | MovePermissionError | MoveOSError => []
    end
  else [record].

(** [_move_file_async(context, file_path)] *)
Definition _move_file_async (s : Settings) (w : World) (backup_path : Path)
    (relative_path : Path) (file_path : Path) : list effect :=
  let new_file_path := joinrel backup_path relative_path in
  let record := AddIssue "cleanup" ("  - " +:+ path_str relative_path +:+ nl) in
  if negb (TEST_MODE s) then
    match try_move w file_path with
    | MoveOk => [FsMkdir (parent new_file_path); FsMove file_path new_file_path; record]
    | MovePermissionError | MoveOSError => [FsMkdir (parent new_file_path)]
    end
  else [record].

(** [check_single_dds(file_path, relative_path)]; a [struct.error]
    leaves the task through [gather] without a trace. *)
Definition check_single_dds (w : World) (file_path relative_path : Path) : list effect :=
  match read_bytes w file_path with
  | None => []
  | Some content =>
      let dds_data := take 20 content in
      if bool_decide (take 4 dds_data = Py.b "DDS ") then
        match Py.unpack_u32_le (take 4 (drop 12 dds_data)) with
        | None => []
        | Some width =>
            match Py.unpack_u32_le (take 4 (drop 16 dds_data)) with
            | None => []
            | Some height =>
                if negb (N.eqb (width mod 2) 0) || negb (N.eqb (height mod 2) 0) then
                  [AddIssue "tex_dims"
                     ("  - " +:+ path_str relative_path +:+ " (" +:+ Py.str_of_N width
                      +:+ "x" +:+ Py.str_of_N height +:+ ")")]
                else []
            end
        end
      else []
  end.

(** [_check_dds_batch_async(dds_files, issue_lists, issue_locks)] *)
Definition _check_dds_batch_async (w : World) (dds_files : list (Path * Path))
    : list effect :=
  concat (map (fun f => check_single_dds w f.1 f.2) dds_files).

(** The loop over [dirs] in [process_directory]: the lines added on
    the spot and the [dir_tasks]. *)
Fixpoint dirs_loop (s : Settings) (w : World) (backup_path : Path)
    (rel : list string) (root root_main : Path) (dirs : list string)
    (has_anim_data : bool) : list effect * list (list effect) :=
  match dirs with
  | [] => ([], [])
  | dirname :: rest =>
      let dirname_lower := Py.lower dirname in
      if negb has_anim_data && String.eqb dirname_lower "animationfiledata" then
        let r := dirs_loop s w backup_path rel root root_main rest true in
        (AddIssue "animdata" ("  - " +:+ path_str root_main +:+ nl) :: r.1, r.2)
      else if String.eqb dirname_lower "fomod" then
        let r := dirs_loop s w backup_path rel root root_main rest has_anim_data in
        (r.1, _move_fomod_async s w backup_path rel root dirname :: r.2)
      else dirs_loop s w backup_path rel root root_main rest has_anim_data
  end.

(** What the loop over [files] leaves behind. *)
Record files_result := mkFilesResult {
  added : list effect;             (* lines added on the spot *)
  file_tasks : list (list effect); (* the move tasks *)
  dds_files : list (Path * Path)
}.

(** The test of the script-extender branch. *)
Definition xse_test (s : Settings) (root : Path) (filename : string) : bool :=
  existsb (fun key => String.eqb (Py.lower filename) (Py.lower key)) (xse_scriptfiles s)
  && negb (Py.contains "workshop framework" (Py.lower (path_str root)))
  && Py.contains ("Scripts" +:+ sep_char +:+ filename) (path_str (joinpath root filename)).

(** The loop over [files] in [process_directory]. *)
Fixpoint files_loop (s : Settings) (w : World) (backup_path : Path)
    (rel : list string) (root root_main : Path) (files : list string)
    (has_xse_files has_previs_files : bool) : files_result :=
  match files with
  | [] => mkFilesResult [] [] []
  | filename :: rest =>
      let filename_lower := Py.lower filename in
      let file_path := joinpath root filename in
      let relative_path := relative (rel ++ [filename]) in
      let file_ext := Py.lower (suffix filename) in
      let continue x p := files_loop s w backup_path rel root root_main rest x p in
      if Py.endswith ".txt" filename_lower
         && existsb (fun name => Py.contains name filename_lower) filter_names then
        let r := continue has_xse_files has_previs_files in
        mkFilesResult (added r)
          (_move_file_async s w backup_path relative_path file_path :: file_tasks r)
          (dds_files r)
      else if String.eqb file_ext ".dds" then
        let r := continue has_xse_files has_previs_files in
        mkFilesResult (added r) (file_tasks r) ((file_path, relative_path) :: dds_files r)
      else if (String.eqb file_ext ".tga" || String.eqb file_ext ".png")
              && negb (bool_decide ("BodySlide" ∈ parts file_path)) then
        let r := continue has_xse_files has_previs_files in
        mkFilesResult
          (AddIssue "tex_frmt"
             ("  - " +:+ Py.upper (Py.tail1 file_ext) +:+ " : " +:+ path_str relative_path
              +:+ nl) :: added r)
          (file_tasks r) (dds_files r)
      else if String.eqb file_ext ".mp3" || String.eqb file_ext ".m4a" then
        let r := continue has_xse_files has_previs_files in
        mkFilesResult
          (AddIssue "snd_frmt"
             ("  - " +:+ Py.upper (Py.tail1 file_ext) +:+ " : " +:+ path_str relative_path
              +:+ nl) :: added r)
          (file_tasks r) (dds_files r)
      else if negb has_xse_files && xse_test s root filename then
        let r := continue true has_previs_files in
        mkFilesResult
          (AddIssue "xse_file" ("  - " +:+ path_str root_main +:+ nl) :: added r)
          (file_tasks r) (dds_files r)
      else if negb has_previs_files
              && Py.endswith_any [".uvd"; "_oc.nif"] filename_lower then
        let r := continue has_xse_files true in
        mkFilesResult
          (AddIssue "previs" ("  - " +:+ path_str root_main +:+ nl) :: added r)
          (file_tasks r) (dds_files r)
      else continue has_xse_files has_previs_files
  end.

(** [process_directory(root, dirs, files)], as the effects it has in
    the order of the program text: the directory loop, the gathered
    [dir_tasks], the file loop, the gathered [file_tasks] with the
    texture batch last. *)
Definition process_directory (s : Settings) (w : World) (mp backup_path : Path)
    (e : walk_entry) : list effect :=
  let rel := e.1.1 in
  let root := joinrel mp (relative rel) in
  let root_main := parent (relative rel) in
  let d := dirs_loop s w backup_path rel root root_main e.1.2 false in
  let f := files_loop s w backup_path rel root root_main e.2 false false in
  d.1 ++ concat d.2 ++ added f ++ concat (file_tasks f)
    ++ (match dds_files f with
        | [] => []
        | _ => _check_dds_batch_async w (dds_files f)
        end).

(** Everything one run of [scan_mods_unpacked] does, in the order the
    schedule gives to the work of each batch. *)
Definition scan_mods_unpacked_effects (sched : schedule) (s : Settings) (w : World)
    : list effect :=
  let backup_path := joinrel (local_dir s) (relative ["CLASSIC Backup"; "Cleaned Files"]) in
  (if negb (TEST_MODE s) then [FsMkdir backup_path] else [])
  ++ match mod_path s with
     | None => []
     | Some mp =>
         if walk_fails w then []
         else
           concat (map (fun batch =>
                          sched effect (concat (map (process_directory s w mp backup_path) batch)))
                       (batches 50 (walk_entries w)))
     end.

(** The issue sets once every directory is processed. *)
Definition scan_mods_unpacked_issues (sched : schedule) (s : Settings) (w : World) : issue_dict :=
  foldl apply_effect (new_issue_lists unpacked_keys) (scan_mods_unpacked_effects sched s w).

Definition scan_mods_unpacked_outcome (sched : schedule) (s : Settings) (w : World)
    : scan_outcome :=
  let message_list :=
    [ "=================== MOD FILES SCAN ====================" +:+ nl;
      "========= RESULTS FROM UNPACKED / LOOSE FILES =========" +:+ nl ] in
  match mod_path s with
  | None => Aborted (warn_mods_path_missing s)
  | Some mp =>
      if walk_fails w then Aborted "Error: Could not access mod files"
      else
        let issue_lists := scan_mods_unpacked_issues sched s w in
        let issue_messages := get_issue_messages (xse_acronym s) Unpacked in
        Report (render issue_messages message_list issue_lists)
  end.

Definition scan_mods_unpacked (sched : schedule) (s : Settings) (w : World) : string :=
  outcome_str (scan_mods_unpacked_outcome sched s w).

(** The filesystem changes of one run, in order. *)
Definition scan_mods_unpacked_fs_ops (sched : schedule) (s : Settings) (w : World)
    : list effect :=
  filter (fun e => is_fs_op e = true) (scan_mods_unpacked_effects sched s w).

(** *** [check_log_errors] *)

Definition format_error_report (file_path : Path) (errors : list string) : list string :=
  [ "[!] CAUTION : THE FOLLOWING LOG FILE REPORTS ONE OR MORE ERRORS!" +:+ nl;
    "[ Errors do not necessarily mean that the mod is not working. ]" +:+ nl;
    nl +:+ "LOG PATH > " +:+ path_str file_path +:+ nl ]
  ++ errors
  ++ [ nl +:+ "* TOTAL NUMBER OF DETECTED LOG ERRORS * : "
       +:+ Py.str_of_nat (length errors) +:+ nl ].

(** The filter of the list comprehension in [process_single_log]. *)
Definition line_matches (catch_errors ignore_errors : list string) (line : string) : bool :=
  existsb (fun error => Py.contains error (Py.lower line)) catch_errors
  && forallb (fun ignore => negb (Py.contains ignore (Py.lower line))) ignore_errors.

Definition detected_errors (catch_errors ignore_errors : list string)
    (log_lines : list string) : list string :=
  map (fun line => "ERROR > " +:+ line)
      (List.filter (line_matches catch_errors ignore_errors) log_lines).

(** [process_single_log(log_file_path)]; [read_lines] gives the lines
    that the reader in use returned: [read_lines_with_encoding_async],
    [aiofiles] or [open_file_with_encoding]. *)
Definition process_single_log (w : World) (catch_errors ignore_errors : list string)
    (log_file_path : Path) : task_result (list string) :=
  match read_lines w log_file_path with
  | None =>
      Returned ["❌ ERROR : Unable to scan this log file :" +:+ nl +:+ "  "
                +:+ path_str log_file_path]
  | Some log_lines =>
      match detected_errors catch_errors ignore_errors log_lines with
      | [] => Returned []
      | errors => Returned (format_error_report log_file_path errors)
      end
  end.

Definition valid_log_files (w : World) (ignore_files : list string) (folder_path : Path)
    : list Path :=
  flat_map (fun name =>
    let file := joinpath folder_path name in
    if negb (Py.contains "crash-" (Py.lower name))
       && negb (existsb (fun part => Py.contains part (Py.lower (path_str file)))
                  ignore_files)
    then [file] else []) (glob_logs w folder_path).

Definition collect_report (error_report : list string)
    (result : option (task_result (list string))) : list string :=
  match result with
  | Some (Returned l) => error_report ++ l
  | _ => error_report
  end.

Definition check_log_errors (sched : schedule) (s : Settings) (w : World)
    (folder_path : Path) : string :=
  let catch_errors := normalize_list (catch_log_errors s) in
  let ignore_files := normalize_list (exclude_log_files s) in
  let ignore_errors := normalize_list (exclude_log_errors s) in
  let tasks := map (process_single_log w catch_errors ignore_errors)
                   (valid_log_files w ignore_files folder_path) in
  let results := gather sched tasks in
  Py.concat (foldl collect_report [] results).

End ScanGameCore.

(** ** [AsyncScanGame]: the free-function scans *)

Module AsyncScanGame.

Section Imported.

(** [from CLASSIC_ScanGame import get_issue_messages]: that module is
    not among the sources, so the function is a parameter here. *)
Variable get_issue_messages : string -> scan_mode -> gmap string (list string).

(** *** [scan_mods_archived_async] *)

(** The loop over [output_split[4:]] of a [-dump] listing. *)
Fixpoint dump_blocks (filename : string) (blocks : list string)
    (local_issues : issue_dict) : issue_dict * loop_exit :=
  match blocks with
  | [] => (local_issues, LoopDone)
  | file_block :: rest =>
      if String.eqb file_block EmptyString then dump_blocks filename rest local_issues
      else
        match Py.split_max nl 3 file_block with
        | b0 :: b1 :: more =>
            if negb (Py.contains "Ext: dds" b1) then
              dump_blocks filename rest
                (issues_add "tex_frmt"
                   ("  - " +:+ Py.upper (Py.after_last_dot b0) +:+ " : " +:+ filename
                    +:+ " > " +:+ b0 +:+ nl) local_issues)
            else
              match more with
              | b2 :: _ =>
                  match Py.split_ws_max 4 b2 with
                  | [_; width; _; height; _] =>
                      dump_blocks filename rest
                        (if odd_decimal width || odd_decimal height
                         then issues_add "tex_dims"
                                ("  - " +:+ width +:+ "x" +:+ height +:+ " : " +:+ filename
                                 +:+ " > " +:+ b0) local_issues
                         else local_issues)
                  | _ => (local_issues, LoopValueError)
                  end
              | [] => (local_issues, LoopIndexError)
              end
        | _ => (local_issues, LoopIndexError)
        end
  end.

(** The loop over [output_split[15:]] of a [-list] listing; [file] is
    a line of the lower-cased output. *)
Fixpoint list_entries (xse_scriptfiles : list string) (file_path : Path)
    (filename : string) (entries : list string) (fl : flags)
    (local_issues : issue_dict) : issue_dict :=
  match entries with
  | [] => local_issues
  | file :: rest =>
      if Py.endswith_any [".mp3"; ".m4a"] file then
        list_entries xse_scriptfiles file_path filename rest fl
          (issues_add "snd_frmt"
             ("  - " +:+ Py.upper (Py.last3 file) +:+ " : " +:+ filename +:+ " > "
              +:+ file +:+ nl) local_issues)
      else if negb (has_anim_data fl) && Py.contains "animationfiledata" file then
        list_entries xse_scriptfiles file_path filename rest
          (mkFlags (has_previs_files fl) true (has_xse_files fl))
          (issues_add "animdata" ("  - " +:+ filename +:+ nl) local_issues)
      else if negb (has_xse_files fl)
              && existsb (fun key => Py.contains ("scripts" +:+ sep_char +:+ Py.lower key) file)
                   xse_scriptfiles
              && negb (Py.contains "workshop framework"
                         (Py.lower (path_str (parent file_path)))) then
        list_entries xse_scriptfiles file_path filename rest
          (mkFlags (has_previs_files fl) (has_anim_data fl) true)
          (issues_add "xse_file" ("  - " +:+ filename +:+ nl) local_issues)
      else if negb (has_previs_files fl) && Py.endswith_any [".uvd"; "_oc.nif"] file then
        list_entries xse_scriptfiles file_path filename rest
          (mkFlags true (has_anim_data fl) (has_xse_files fl))
          (issues_add "previs" ("  - " +:+ filename +:+ nl) local_issues)
      else list_entries xse_scriptfiles file_path filename rest fl local_issues
  end.

(** [process_single_ba2(file_path, filename)]: the external-tool runs
    it asks for (archive and subcommand), and what awaiting it gives. *)
Definition process_single_ba2 (s : Settings) (w : World) (file_path : Path)
    (filename : string) : list (Path * string) * task_result issue_dict :=
  let local_issues := new_issue_lists ba2_keys in
  match read_bytes w file_path with
  | None => ([], Returned local_issues)
  | Some content =>
      let header := take 12 content in
      if bad_ba2_header header then
        ([], Returned (issues_add "ba2_frmt"
                         ("  - " +:+ filename +:+ " : " +:+ Py.bytes_repr header +:+ nl)
                         local_issues))
      else if bool_decide (drop 8 header = Py.b "DX10") then
        ([(file_path, "-dump")],
         match create_subprocess_exec w file_path "-dump" true with
         | ProcTimeout | ProcError => Returned local_issues
         | ProcExit returncode stdout stderr =>
             if negb (Z.eqb returncode 0) then Returned local_issues
             else
               let output_split := Py.split (nl +:+ nl) stdout in
               if Py.startswith "Error:" (List.last output_split EmptyString)
               then Returned local_issues
               else
                 match dump_blocks filename (drop 4 output_split) local_issues with
                 | (li, LoopDone) | (li, LoopValueError) => Returned li
                 | (_, LoopIndexError) => Raised
                 end
         end)
      else
        ([(file_path, "-list")],
         match create_subprocess_exec w file_path "-list" true with
         | ProcTimeout | ProcError => Returned local_issues
         | ProcExit returncode stdout stderr =>
             if negb (Z.eqb returncode 0) then Returned local_issues
             else
               let output_split := Py.split nl (Py.lower stdout) in
               Returned (list_entries (xse_scriptfiles s) file_path filename
                           (drop 15 output_split) (mkFlags false false false)
                           local_issues)
         end)
  end.

(** The merge loop over the gathered results. *)
Definition merge_result (issue_lists : issue_dict)
    (result : option (task_result issue_dict)) : issue_dict :=
  match result with
  | Some (Returned d) =>
      foldl (fun acc e => issues_update e.1 e.2 acc) issue_lists d
  | _ => issue_lists
  end.

(** The issue sets once the results of all archives are merged. *)
Definition scan_mods_archived_async_issues (sched : schedule) (s : Settings) (w : World) (mp : Path)
    : issue_dict :=
  let issue_lists := new_issue_lists ba2_keys in
  let ba2_files := collect_ba2 mp (walk_entries w) in
  let tasks := map (fun f => (process_single_ba2 s w f.1 f.2).2) ba2_files in
  let results := gather sched tasks in
  foldl merge_result issue_lists results.

Definition scan_mods_archived_async_outcome (sched : schedule) (s : Settings) (w : World)
    : scan_outcome :=
  let message_list :=
    [nl +:+ "========== RESULTS FROM ARCHIVED / BA2 FILES ==========" +:+ nl] in
  let bsarch_path := joinrel (local_dir s) (relative ["CLASSIC Data"; "BSArch.exe"]) in
  match mod_path s with
  | None => Aborted (warn_mods_path_missing s)
  | Some mp =>
      if negb (path_exists w mp) then Aborted (warn_mods_path_invalid s)
      else if negb (path_exists w bsarch_path) then Aborted (warn_mods_bsarch_missing s)
      else if walk_fails w then Aborted "Error: Could not scan for BA2 files"
      else
        let issue_lists := scan_mods_archived_async_issues sched s w mp in
        let issue_messages := get_issue_messages (xse_acronym s) Archived in
        Report (render issue_messages message_list issue_lists)
  end.

Definition scan_mods_archived_async (sched : schedule) (s : Settings) (w : World) : string :=
  outcome_str (scan_mods_archived_async_outcome sched s w).


End Imported.

End AsyncScanGame.

(** ** [PathValidator]: the paths kept in the settings *)

Module PathValidator.

(** What the validator asks the filesystem, by the text of the path:
    [Path(text).exists()] and [Path(text).is_dir()]; [None] stands for
    an [OSError] that [pathlib] lets through. *)
Record FileSystem := {
  fs_exists : string -> option bool;
  fs_is_dir : string -> option bool
}.

(** The argument of [is_valid_path]: [None], a [str] or a [Path]. *)
Inductive path_arg :=
  | ArgNone
  | ArgStr (text : string)
  | ArgPath (text : string).

Section Strip.

(** [blank s] stands for [not s.strip()]: nothing is left of [s] once
    the whitespace at its ends is taken off. *)
Variable blank : string -> bool.

(** [is_valid_path(path)] *)
Definition is_valid_path (fs : FileSystem) (path : path_arg) : bool :=
  match path with
  | ArgNone => false
  | ArgStr text =>
      if blank text then false
      else match fs_exists fs text with
           | Some found => found
           | None => false
           end
  | ArgPath text =>
      match fs_exists fs text with
      | Some found => found
      | None => false
      end
  end.

End Strip.

Section Imported.

(** [ClassicLib.YamlSettingsCache] and [ClassicLib.ScanLog.Util] are not
    among the sources.  The settings store, [classic_settings(str, key)],
    [yaml_settings(str, YAML.Settings, key_path, value)] and
    [is_valid_custom_scan_path] ([None]: it raises) are taken as given. *)
Variable Store : Type.
Variable classic_settings : string -> Store -> option string.
Variable yaml_settings : string -> string -> Store -> Store.
Variable is_valid_custom_scan_path : string -> option bool.

(** [is_restricted_path(path)], for the text [str(path)] *)
Definition is_restricted_path (path_str : string) : bool :=
  match is_valid_custom_scan_path path_str with
  | Some valid => negb valid
  | None => true
  end.

(** [validate_custom_scan_path()]: the store it leaves and the warnings
    it shows; [None] when an exception leaves the function. *)
Definition validate_custom_scan_path (fs : FileSystem) (st : Store)
    : option (Store * list string) :=
  match classic_settings "SCAN Custom Path" st with
  | None => Some (st, [])
  | Some custom_scan_path =>
      if String.eqb custom_scan_path EmptyString then Some (st, [])
      else
        let removed_invalid :=
          Some (yaml_settings "CLASSIC_Settings.SCAN Custom Path" EmptyString st,
                ["Removed invalid custom scan path: " +:+ custom_scan_path]) in
        match fs_exists fs custom_scan_path with
        | None => None
        | Some false => removed_invalid
        | Some true =>
            match fs_is_dir fs custom_scan_path with
            | None => None
            | Some false => removed_invalid
            | Some true =>
                match is_valid_custom_scan_path custom_scan_path with
                | None => None
                | Some false =>
                    Some (yaml_settings "CLASSIC_Settings.SCAN Custom Path" EmptyString st,
                          ["Removed restricted custom scan path: " +:+ custom_scan_path])
                | Some true => Some (st, [])
                end
            end
        end
  end.

(** [validate_all_settings_paths()] *)
Definition validate_all_settings_paths (fs : FileSystem) (st : Store)
    : option (Store * list string) :=
  validate_custom_scan_path fs st.

End Imported.

End PathValidator.

(** ** The loose-file scan on a filesystem that its moves change *)

(** The scans of [ScanGameCore] answer every read and every move of a
    run from the [World] as it is given, and fold letter case with
    [Py.lower] and [Py.upper].  Here the loose-file scan is given again
    with the two things left open there: [lower] and [upper] stand for
    [str.lower] and [str.upper] on any text, and a move made by one task
    of a run changes what the tasks after it find.  The tasks of a wave
    of directories are gathered together, and the walk lists a folder
    named [fomod] with the directory above it and as a directory of its
    own: the move of the folder and the reads and moves of the files in
    it are in one wave.  A schedule may put the tasks of a wave in any
    order; the orders in which the event loop and its worker threads
    get them done are among these. *)
Module Live.

(** [starts_with pre l]: the components [pre] are the first ones of [l]. *)
Fixpoint starts_with (pre l : list string) : bool :=
  match pre, l with
  | [], _ => true
  | x :: pre', y :: l' => String.eqb x y && starts_with pre' l'
  | _ :: _, [] => false
  end.

(** [below m p]: [p] is the path [m] or a path inside the folder [m]. *)
Definition below (m p : Path) : bool :=
  String.eqb (anchor m) (anchor p) && starts_with (names m) (names p).

(** A file or folder is in place as long as neither it nor a folder
    above it is among the paths the run has moved away. *)
Definition in_place (moved : list Path) (p : Path) : bool :=
  negb (existsb (fun m => below m p) moved).

(** How far a run has got: the paths it has moved away, what it has done
    so far, in order, and whether every task so far found its file or
    folder in place. *)
Record run := mkRun {
  moved : list Path;
  effects : list effect;
  undisturbed : bool
}.

(** [_move_fomod_async(context, root, dirname)]; when the folder is no
    longer in place [shutil.move] raises [FileNotFoundError], which is
    an [OSError]. *)
Definition _move_fomod_async (s : Settings) (w : World) (backup_path : Path)
    (r : run) (rel : list string) (root : Path) (dirname : string) : run :=
  let fomod_folder_path := joinpath root dirname in
  let relative_path := relative (rel ++ [dirname]) in
  let new_folder_path := joinrel backup_path relative_path in
  let record := AddIssue "cleanup" ("  - " +:+ path_str relative_path +:+ nl) in
  if negb (TEST_MODE s) then
    if in_place (moved r) fomod_folder_path then
      match try_move w fomod_folder_path with
      | MoveOk =>
          mkRun (fomod_folder_path :: moved r)
                (effects r ++ [FsMove fomod_folder_path new_folder_path; record])
                (undisturbed r)
      | MovePermissionError | MoveOSError => r
      end
    else mkRun (moved r) (effects r) false
  else mkRun (moved r) (effects r ++ [record]) (undisturbed r).

(** [_move_file_async(context, file_path)] *)
Definition _move_file_async (s : Settings) (w : World) (backup_path : Path)
    (r : run) (relative_path : Path) (file_path : Path) : run :=
  let new_file_path := joinrel backup_path relative_path in
  let record := AddIssue "cleanup" ("  - " +:+ path_str relative_path +:+ nl) in
  if negb (TEST_MODE s) then
    if in_place (moved r) file_path then
      match try_move w file_path with
      | MoveOk =>
          mkRun (file_path :: moved r)
                (effects r ++ [FsMkdir (parent new_file_path);
                               FsMove file_path new_file_path; record])
                (undisturbed r)
      | MovePermissionError | MoveOSError =>
          mkRun (moved r) (effects r ++ [FsMkdir (parent new_file_path)]) (undisturbed r)
      end
    else mkRun (moved r) (effects r ++ [FsMkdir (parent new_file_path)]) false
  else mkRun (moved r) (effects r ++ [record]) (undisturbed r).

(** [check_single_dds(file_path, relative_path)]; opening a file that is
    no longer in place raises [FileNotFoundError], which the task
    catches as an [OSError]. *)
Definition check_single_dds (w : World) (r : run) (file_path relative_path : Path) : run :=
  if in_place (moved r) file_path then
    mkRun (moved r) (effects r ++ ScanGameCore.check_single_dds w file_path relative_path)
          (undisturbed r)
  else mkRun (moved r) (effects r) false.

(** What [process_directory] does on the spot or hands to [gather]. *)
Inductive task :=
  | Add (issue_type line : string)
  | MoveFomod (rel : list string) (root : Path) (dirname : string)
  | MoveFile (relative_path file_path : Path)
  | CheckDds (file_path relative_path : Path).

Definition run_task (s : Settings) (w : World) (backup_path : Path) (r : run) (t : task)
    : run :=
  match t with
  | Add issue_type line =>
      mkRun (moved r) (effects r ++ [AddIssue issue_type line]) (undisturbed r)
  | MoveFomod rel root dirname => _move_fomod_async s w backup_path r rel root dirname
  | MoveFile relative_path file_path =>
      _move_file_async s w backup_path r relative_path file_path
  | CheckDds file_path relative_path => check_single_dds w r file_path relative_path
  end.

Section Text.

Variables lower upper : string -> string.

(** The loop over [dirs] in [process_directory]: the lines added on
    the spot and the [dir_tasks]. *)
Fixpoint dirs_loop (rel : list string) (root root_main : Path) (dirs : list string)
    (has_anim_data : bool) : list task * list task :=
  match dirs with
  | [] => ([], [])
  | dirname :: rest =>
      let dirname_lower := lower dirname in
      if negb has_anim_data && String.eqb dirname_lower "animationfiledata" then
        let r := dirs_loop rel root root_main rest true in
        (Add "animdata" ("  - " +:+ path_str root_main +:+ nl) :: r.1, r.2)
      else if String.eqb dirname_lower "fomod" then
        let r := dirs_loop rel root root_main rest has_anim_data in
        (r.1, MoveFomod rel root dirname :: r.2)
      else dirs_loop rel root root_main rest has_anim_data
  end.

(** What the loop over [files] leaves behind. *)
Record files_result := mkFilesResult {
  added : list task;        (* lines added on the spot *)
  file_tasks : list task;   (* the move tasks *)
  dds_files : list task     (* the checks of the texture batch *)
}.

(** The test of the script-extender branch. *)
Definition xse_test (xse_scriptfiles : list string) (root : Path) (filename : string)
    : bool :=
  existsb (fun key => String.eqb (lower filename) (lower key)) xse_scriptfiles
  && negb (Py.contains "workshop framework" (lower (path_str root)))
  && Py.contains ("Scripts" +:+ sep_char +:+ filename) (path_str (joinpath root filename)).

(** The loop over [files] in [process_directory]. *)
Fixpoint files_loop (xse_scriptfiles : list string) (rel : list string)
    (root root_main : Path) (files : list string) (has_xse_files has_previs_files : bool)
    : files_result :=
  match files with
  | [] => mkFilesResult [] [] []
  | filename :: rest =>
      let filename_lower := lower filename in
      let file_path := joinpath root filename in
      let relative_path := relative (rel ++ [filename]) in
      let file_ext := lower (suffix filename) in
      let continue x p := files_loop xse_scriptfiles rel root root_main rest x p in
      if Py.endswith ".txt" filename_lower
         && existsb (fun name => Py.contains name filename_lower) filter_names then
        let r := continue has_xse_files has_previs_files in
        mkFilesResult (added r) (MoveFile relative_path file_path :: file_tasks r)
          (dds_files r)
      else if String.eqb file_ext ".dds" then
        let r := continue has_xse_files has_previs_files in
        mkFilesResult (added r) (file_tasks r) (CheckDds file_path relative_path :: dds_files r)
      else if (String.eqb file_ext ".tga" || String.eqb file_ext ".png")
              && negb (bool_decide ("BodySlide" ∈ parts file_path)) then
        let r := continue has_xse_files has_previs_files in
        mkFilesResult
          (Add "tex_frmt"
             ("  - " +:+ upper (Py.tail1 file_ext) +:+ " : " +:+ path_str relative_path
              +:+ nl) :: added r)
          (file_tasks r) (dds_files r)
      else if String.eqb file_ext ".mp3" || String.eqb file_ext ".m4a" then
        let r := continue has_xse_files has_previs_files in
        mkFilesResult
          (Add "snd_frmt"
             ("  - " +:+ upper (Py.tail1 file_ext) +:+ " : " +:+ path_str relative_path
              +:+ nl) :: added r)
          (file_tasks r) (dds_files r)
      else if negb has_xse_files && xse_test xse_scriptfiles root filename then
        let r := continue true has_previs_files in
        mkFilesResult
          (Add "xse_file" ("  - " +:+ path_str root_main +:+ nl) :: added r)
          (file_tasks r) (dds_files r)
      else if negb has_previs_files
              && Py.endswith_any [".uvd"; "_oc.nif"] filename_lower then
        let r := continue has_xse_files true in
        mkFilesResult
          (Add "previs" ("  - " +:+ path_str root_main +:+ nl) :: added r)
          (file_tasks r) (dds_files r)
      else continue has_xse_files has_previs_files
  end.

(** [process_directory(root, dirs, files)], as what it does in the
    order of the program text: the lines of the directory loop, the
    gathered [dir_tasks], the lines of the file loop, the gathered
    [file_tasks] with the texture batch last. *)
Definition process_directory (xse_scriptfiles : list string) (mp : Path) (e : walk_entry)
    : list task :=
  let rel := e.1.1 in
  let root := joinrel mp (relative rel) in
  let root_main := parent (relative rel) in
  let d := dirs_loop rel root root_main e.1.2 false in
  let f := files_loop xse_scriptfiles rel root root_main e.2 false false in
  d.1 ++ d.2 ++ added f ++ file_tasks f ++ dds_files f.

(** One run of [scan_mods_unpacked]: the waves one after the other, the
    tasks of a wave in the order the schedule gives them. *)
Definition scan_mods_unpacked_run (sched : schedule) (s : Settings) (w : World) : run :=
  let backup_path := joinrel (local_dir s) (relative ["CLASSIC Backup"; "Cleaned Files"]) in
  let start := mkRun [] (if negb (TEST_MODE s) then [FsMkdir backup_path] else []) true in
  match mod_path s with
  | None => start
  | Some mp =>
      if walk_fails w then start
      else
        foldl (fun r batch =>
                 foldl (run_task s w backup_path) r
                       (sched task (concat (map (process_directory (xse_scriptfiles s) mp) batch))))
              start (batches 50 (walk_entries w))
  end.

(** The issue sets once every directory is processed. *)
Definition scan_mods_unpacked_issues (sched : schedule) (s : Settings) (w : World)
    : issue_dict :=
  foldl apply_effect (new_issue_lists unpacked_keys)
        (effects (scan_mods_unpacked_run sched s w)).

Definition scan_mods_unpacked_outcome (sched : schedule) (s : Settings) (w : World)
    : scan_outcome :=
  let message_list :=
    [ "=================== MOD FILES SCAN ====================" +:+ nl;
      "========= RESULTS FROM UNPACKED / LOOSE FILES =========" +:+ nl ] in
  match mod_path s with
  | None => Aborted (warn_mods_path_missing s)
  | Some mp =>
      if walk_fails w then Aborted "Error: Could not access mod files"
      else
        let issue_lists := scan_mods_unpacked_issues sched s w in
        let issue_messages := ScanGameCore.get_issue_messages (xse_acronym s) Unpacked in
        Report (render issue_messages message_list issue_lists)
  end.

Definition scan_mods_unpacked (sched : schedule) (s : Settings) (w : World) : string :=
  outcome_str (scan_mods_unpacked_outcome sched s w).

(** The calls of one run that change the filesystem, in order. *)
Definition scan_mods_unpacked_fs_ops (sched : schedule) (s : Settings) (w : World)
    : list effect :=
  filter (fun e => is_fs_op e = true) (effects (scan_mods_unpacked_run sched s w)).

End Text.

End Live.

(** ** The log scan for any [str.lower] *)

(** [check_log_errors] once more, with [lower] standing for [str.lower]
    on any text and the imported [normalize_list] left open. *)
Module LogScan.

Section Text.

Variable lower : string -> string.

(** [ClassicLib.Util.normalize_list] is not among the sources and is
    taken as given. *)
Variable normalize_list : list string -> list string.

(** The filter of the list comprehension in [process_single_log]. *)
Definition line_matches (catch_errors ignore_errors : list string) (line : string) : bool :=
  existsb (fun error => Py.contains error (lower line)) catch_errors
  && forallb (fun ignore => negb (Py.contains ignore (lower line))) ignore_errors.

Definition detected_errors (catch_errors ignore_errors : list string)
    (log_lines : list string) : list string :=
  map (fun line => "ERROR > " +:+ line)
      (List.filter (line_matches catch_errors ignore_errors) log_lines).

(** [process_single_log(log_file_path)]; [read_lines] gives the lines
    that the reader in use returned: [read_lines_with_encoding_async],
    [aiofiles] or [open_file_with_encoding]. *)
Definition process_single_log (w : World) (catch_errors ignore_errors : list string)
    (log_file_path : Path) : task_result (list string) :=
  match read_lines w log_file_path with
  | None =>
      Returned ["❌ ERROR : Unable to scan this log file :" +:+ nl +:+ "  "
                +:+ path_str log_file_path]
  | Some log_lines =>
      match detected_errors catch_errors ignore_errors log_lines with
      | [] => Returned []
      | errors => Returned (ScanGameCore.format_error_report log_file_path errors)
      end
  end.

Definition valid_log_files (w : World) (ignore_files : list string) (folder_path : Path)
    : list Path :=
  flat_map (fun name =>
    let file := joinpath folder_path name in
    if negb (Py.contains "crash-" (lower name))
       && negb (existsb (fun part => Py.contains part (lower (path_str file)))
                  ignore_files)
    then [file] else []) (glob_logs w folder_path).

Definition check_log_errors (sched : schedule) (s : Settings) (w : World)
    (folder_path : Path) : string :=
  let catch_errors := normalize_list (catch_log_errors s) in
  let ignore_files := normalize_list (exclude_log_files s) in
  let ignore_errors := normalize_list (exclude_log_errors s) in
  let tasks := map (process_single_log w catch_errors ignore_errors)
                   (valid_log_files w ignore_files folder_path) in
  let results := gather sched tasks in
  Py.concat (foldl ScanGameCore.collect_report [] results).

End Text.

End LogScan.

(** * Properties *)

(** ** Specification-side definitions *)

(** Two schedules used to exercise the statements. *)
Definition sched_id : schedule := fun A l => l.
Definition sched_rev : schedule := fun A l => rev l.

(** What [render] appends for one entry of the registry. *)
Definition render_block (issue_messages : gmap string (list string))
    (e : string * gset string) : list string :=
  if decide (e.2 = ∅) then []
  else match issue_messages !! e.1 with
       | Some template => template ++ sorted e.2
       | None => []
       end.

(** The lines a list of effects puts into one category. *)
Definition issue_lines (issue_type : string) (effs : list effect) : list string :=
  flat_map (fun e => match e with
                     | AddIssue k line => if decide (k = issue_type) then [line] else []
                     | _ => []
                     end) effs.

(** A small installation used to exercise the statements: one mod with
    loose files, three archives and a log folder. *)
Module Sample.

Definition mods : Path := mkPath "C:\" ["Mods"].
Definition logs : Path := mkPath "C:\" ["Logs"].

Definition settings (test_mode : bool) : Settings :=
  {| xse_acronym := "F4SE";
     xse_scriptfiles := ["Actor.pex"; "Form.pex"];
     mod_path := Some mods;
     local_dir := mkPath "C:\" ["CLASSIC"];
     warn_mods_path_missing := "mods path missing";
     warn_mods_path_invalid := "mods path invalid";
     warn_mods_bsarch_missing := "BSArch missing";
     catch_log_errors := ["Error"; "failed"];
     exclude_log_files := ["skipme"];
     exclude_log_errors := ["Keyword"];
     TEST_MODE := test_mode |}.

Definition ba2_header (tag : string) : list byte :=
  Py.b "BTDX" ++ [x01; x00; x00; x00] ++ Py.b tag ++ [x00; x00].

Definition dds_header (width height : byte) : list byte :=
  Py.b "DDS " ++ replicate 8 x00 ++ [width; x00; x00; x00] ++ [height; x00; x00; x00]
  ++ [x07; x07].

Definition list_output : string :=
  Py.concat (replicate 15 ("header" +:+ nl))
  +:+ "Sound\Foo.MP3" +:+ nl +:+ "Meshes\AnimationFileData\x.txt" +:+ nl
  +:+ "Scripts\Actor.pex" +:+ nl +:+ "vis\a.uvd" +:+ nl +:+ "vis\b_oc.nif" +:+ nl.

Definition dump_output (ext : string) : string :=
  "h1" +:+ nl +:+ nl +:+ "h2" +:+ nl +:+ nl +:+ "h3" +:+ nl +:+ nl +:+ "h4" +:+ nl +:+ nl
  +:+ "tex\a.dds" +:+ nl +:+ "  Ext: " +:+ ext +:+ nl +:+ "  Width: 100 Height: 200 x" +:+ nl.

Definition world_with (listing dump : string) : World :=
  {| path_exists := fun _ => true;
     walk_entries :=
       [ (["ModA"; "fomod"], [], ["info.xml"; "pic.png"]);
         (["ModA"; "Scripts"], [], ["Actor.pex"; "form.PEX"; "x.uvd"; "y_oc.nif"]);
         (["ModA"; "Scripts"; "Sub"], [], ["Actor.pex"]);
         (["ModA"], ["fomod"; "Scripts"; "AnimationFileData"; "animationfiledata"],
          ["Readme.TXT"; "a.dds"; "b.DDS"; "c.dds"; "s.mp3"; "t.tga";
           "general.ba2"; "textures.BA2"; "broken.ba2"; "PRP - Main.ba2"]);
         ([], ["ModA"], []) ];
     walk_fails := false;
     read_bytes := fun p =>
       match path_name p return option (list byte) with
       | "a.dds" => Some (dds_header x65 xc8)
       | "b.DDS" => Some (dds_header x64 xc8)
       | "c.dds" => Some (Py.b "DDS ")
       | "general.ba2" => Some (ba2_header "GNRL")
       | "textures.BA2" => Some (ba2_header "DX10")
       | "broken.ba2" => Some (Py.b "BTDX" ++ [x01; x00; x00; x00] ++ Py.b "GNR")
       | _ => None
       end;
     run_tool := fun p subcommand =>
       if String.eqb subcommand "-list" then ProcExit 0 listing EmptyString
       else ProcExit 0 dump EmptyString;
     try_move := fun _ => MoveOk;
     glob_logs := fun _ => ["a.log"; "crash-1.log"; "b.log"; "SkipMe.log"; "c.log"];
     read_lines := fun p =>
       match path_name p return option (list string) with
       | "a.log" => Some [ "all fine" +:+ nl; "An ERROR here" +:+ nl;
                           "error with keyword" +:+ nl; "Failed x" +:+ nl ]
       | "b.log" => Some [ "nothing" +:+ nl ]
       | _ => None
       end |}.

Definition world : World := world_with list_output (dump_output "dds").

End Sample.

(** The tests of the branches that come before the script-extender
    branch in the loop over [files]. *)
Definition taken_before_xse (root : Path) (filename : string) : bool :=
  let filename_lower := Py.lower filename in
  let file_path := joinpath root filename in
  let file_ext := Py.lower (suffix filename) in
  (Py.endswith ".txt" filename_lower
   && existsb (fun name => Py.contains name filename_lower) filter_names)
  || String.eqb file_ext ".dds"
  || ((String.eqb file_ext ".tga" || String.eqb file_ext ".png")
      && negb (bool_decide ("BodySlide" ∈ parts file_path)))
  || (String.eqb file_ext ".mp3" || String.eqb file_ext ".m4a").

(** A file that reaches the script-extender branch and passes its test. *)
Definition xse_candidate (s : Settings) (root : Path) (filename : string) : bool :=
  negb (taken_before_xse root filename) && ScanGameCore.xse_test s root filename.

(** The three conditions as the claim words them: the name equals a
    configured name up to case, the path does not contain "workshop
    framework", the path has a [Scripts] segment. *)
Definition xse_as_claimed (xse_scriptfiles : list string) (root : Path)
    (filename : string) : bool :=
  existsb (fun key => String.eqb (Py.lower filename) (Py.lower key)) xse_scriptfiles
  && negb (Py.contains "workshop framework" (Py.lower (path_str (joinpath root filename))))
  && bool_decide ("Scripts" ∈ parts (joinpath root filename)).

(** The line the single-detection categories record under [root_main]. *)
Definition root_line (root_main : Path) : string :=
  "  - " +:+ path_str root_main +:+ nl.

(** The line the single-detection categories record for a directory. *)
Definition directory_line (e : walk_entry) : string :=
  root_line (parent (relative e.1.1)).

(** The categories that are detected once per directory or archive. *)
Definition single_detection : list string := ["animdata"; "xse_file"; "previs"].

(** The line the single-detection categories record for an archive. *)
Definition archive_line (filename : string) : string := "  - " +:+ filename +:+ nl.

(** The 32-bit number stored least significant byte first at offset
    [off] of [data]. *)
Definition u32_le_at (off : nat) (data : list byte) : N :=
  fold_right (fun x acc => Byte.to_N x + 256 * acc)%N 0%N (take 4 (drop off data)).

(** The line recorded for a texture with odd dimensions. *)
Definition dims_line (relative_path : Path) (width height : N) : string :=
  "  - " +:+ path_str relative_path +:+ " (" +:+ Py.str_of_N width +:+ "x"
  +:+ Py.str_of_N height +:+ ")".

(** The same settings with the dry-run switch set to [b]. *)
Definition with_test_mode (b : bool) (s : Settings) : Settings :=
  {| xse_acronym := xse_acronym s;
     xse_scriptfiles := xse_scriptfiles s;
     mod_path := mod_path s;
     local_dir := local_dir s;
     warn_mods_path_missing := warn_mods_path_missing s;
     warn_mods_path_invalid := warn_mods_path_invalid s;
     warn_mods_bsarch_missing := warn_mods_bsarch_missing s;
     catch_log_errors := catch_log_errors s;
     exclude_log_files := exclude_log_files s;
     exclude_log_errors := exclude_log_errors s;
     TEST_MODE := b |}.

(** The additions to the issue sets among a list of effects. *)
Definition issue_effects (effs : list effect) : list effect :=
  filter (fun e => is_fs_op e = false) effs.

(** The registry with each set shown as its sorted lines. *)
Definition dict_lines (d : issue_dict) : list (string * list string) :=
  map (fun e => (e.1, sorted e.2)) d.

Definition returned_lines (r : task_result issue_dict)
    : option (list (string * list string)) :=
  match r with
  | Returned d => Some (dict_lines d)
  | Raised => None
  end.


(** The line recorded for an archive with an unknown header. *)
Definition ba2_frmt_line (filename : string) (header : list byte) : string :=
  "  - " +:+ filename +:+ " : " +:+ Py.bytes_repr header +:+ nl.


(** The test of the clean-up branch of the loop over [files]: a text
    file whose name holds one of the documentation words. *)
Definition doc_file (filename : string) : bool :=
  Py.endswith ".txt" (Py.lower filename)
  && existsb (fun name => Py.contains name (Py.lower filename)) filter_names.

(** A loose file reported for its texture format. *)
Definition tex_frmt_file (root : Path) (filename : string) : bool :=
  let file_ext := Py.lower (suffix filename) in
  negb (doc_file filename)
  && (String.eqb file_ext ".tga" || String.eqb file_ext ".png")
  && negb (bool_decide ("BodySlide" ∈ parts (joinpath root filename))).

(** A loose file reported for its sound format. *)
Definition snd_frmt_file (filename : string) : bool :=
  let file_ext := Py.lower (suffix filename) in
  negb (doc_file filename)
  && (String.eqb file_ext ".mp3" || String.eqb file_ext ".m4a").

(** The line recorded for a loose file of an unwanted format. *)
Definition loose_format_line (rel : list string) (filename : string) : string :=
  "  - " +:+ Py.upper (Py.tail1 (Py.lower (suffix filename))) +:+ " : "
  +:+ path_str (relative (rel ++ [filename])) +:+ nl.

(** The world [w] with other outcomes of the moves. *)
Definition with_moves (moves : Path → move_outcome) (w : World) : World :=
  {| path_exists := path_exists w;
     walk_entries := walk_entries w;
     walk_fails := walk_fails w;
     read_bytes := read_bytes w;
     run_tool := run_tool w;
     try_move := moves;
     glob_logs := glob_logs w;
     read_lines := read_lines w |}.

(** The heading of the loose-file report and of the archive report. *)
Definition unpacked_banner : string :=
  "=================== MOD FILES SCAN ====================" +:+ nl
  +:+ "========= RESULTS FROM UNPACKED / LOOSE FILES =========" +:+ nl.

Definition archived_banner : string :=
  nl +:+ "========== RESULTS FROM ARCHIVED / BA2 FILES ==========" +:+ nl.

(** The world [w] with another content of the mods folder. *)
Definition with_entries (entries : list walk_entry) (w : World) : World :=
  {| path_exists := path_exists w;
     walk_entries := entries;
     walk_fails := walk_fails w;
     read_bytes := read_bytes w;
     run_tool := run_tool w;
     try_move := try_move w;
     glob_logs := glob_logs w;
     read_lines := read_lines w |}.

(** What a task of the loose-file scan does when it finds its file or
    folder where the walk saw it. *)
Definition task_effects (s : Settings) (w : World) (backup_path : Path) (t : Live.task)
    : list effect :=
  match t with
  | Live.Add issue_type line => [AddIssue issue_type line]
  | Live.MoveFomod rel root dirname =>
      ScanGameCore._move_fomod_async s w backup_path rel root dirname
  | Live.MoveFile relative_path file_path =>
      ScanGameCore._move_file_async s w backup_path relative_path file_path
  | Live.CheckDds file_path relative_path =>
      ScanGameCore.check_single_dds w file_path relative_path
  end.

(** The folder that receives what the loose-file scan moves away. *)
Definition backup_folder (s : Settings) : Path :=
  joinrel (local_dir s) (relative ["CLASSIC Backup"; "Cleaned Files"]).

(** The tasks of a run of the loose-file scan, in the order in which the
    schedule has them carried out. *)
Definition scheduled_tasks (lower upper : string → string) (sched : schedule)
    (s : Settings) (w : World) (mp : Path) : list Live.task :=
  concat (map (fun batch =>
                 sched Live.task
                   (concat (map (Live.process_directory lower upper (xse_scriptfiles s) mp)
                              batch)))
              (batches 50 (walk_entries w))).

(** A mod whose [fomod] folder holds a texture of odd width; the walk
    goes bottom-up and lists the folder before the directory above it. *)
Definition fomod_texture_world : World :=
  with_entries [ (["ModA"; "fomod"], [], ["a.dds"]);
                 (["ModA"], ["fomod"], []);
                 ([], ["ModA"], []) ]
    Sample.world.

(** The lines that the tasks of a directory add on the spot to one
    category. *)
Definition added_lines (issue_type : string) (tasks : list Live.task) : list string :=
  flat_map (fun t => match t with
                     | Live.Add k line => if decide (k = issue_type) then [line] else []
                     | _ => []
                     end) tasks.

(** The file is left to the script-extender branch of the loop over
    [files]: it is not a documentation text file, its extension is none
    of [.dds], [.mp3] and [.m4a], and it is not a [.tga] or [.png] file
    outside [BodySlide]. *)
Definition reaches_xse_branch (lower : string → string) (root : Path) (filename : string)
    : Prop :=
  ¬ (Py.endswith ".txt" (lower filename) = true
     ∧ ∃ name, name ∈ filter_names ∧ Py.contains name (lower filename) = true)
  ∧ (lower (suffix filename) ∉ [".dds"; ".mp3"; ".m4a"])
  ∧ ¬ (lower (suffix filename) ∈ [".tga"; ".png"]
       ∧ ("BodySlide" ∉ parts (joinpath root filename))).

(** The file [filename] of the directory [root] counts as a copy of a
    script-extender file: it reaches the branch, its name is a
    configured name up to letter case, the text of [root] does not
    contain "workshop framework" in any letter case, and the text of
    the file's path contains [Scripts\] followed by the file's name. *)
Definition xse_collision (lower : string → string) (xse_scriptfiles : list string)
    (root : Path) (filename : string) : Prop :=
  reaches_xse_branch lower root filename
  ∧ (∃ key, key ∈ xse_scriptfiles ∧ lower filename = lower key)
  ∧ Py.contains "workshop framework" (lower (path_str root)) = false
  ∧ Py.contains ("Scripts" +:+ sep_char +:+ filename) (path_str (joinpath root filename))
    = true.

(** The script-extender branch is taken for the file, were the flag
    [has_xse_files] still unset. *)
Definition xse_taken (lower : string → string) (xse_scriptfiles : list string)
    (root : Path) (filename : string) : bool :=
  negb ((Py.endswith ".txt" (lower filename)
         && existsb (fun name => Py.contains name (lower filename)) filter_names)
        || String.eqb (lower (suffix filename)) ".dds"
        || ((String.eqb (lower (suffix filename)) ".tga"
             || String.eqb (lower (suffix filename)) ".png")
            && negb (bool_decide ("BodySlide" ∈ parts (joinpath root filename))))
        || (String.eqb (lower (suffix filename)) ".mp3"
            || String.eqb (lower (suffix filename)) ".m4a"))
  && Live.xse_test lower xse_scriptfiles root filename.

(** The reading of "a file produces a script-extender-collision issue
    for its directory if and only if ...", the three conditions being as
    [xse_as_claimed] has them. *)
Definition xse_rule_as_claimed : Prop :=
  ∀ (xse_scriptfiles : list string) (mp : Path) (e : walk_entry),
    added_lines "xse_file"
      (Live.process_directory Py.lower Py.upper xse_scriptfiles mp e) ≠ []
    ↔ ∃ filename, filename ∈ e.2
        ∧ xse_as_claimed xse_scriptfiles (joinrel mp (relative e.1.1)) filename = true.

(** The categories that [process_directory] fills on the spot, without
    a task of its own. *)
Definition on_the_spot : list string :=
  ["animdata"; "tex_frmt"; "snd_frmt"; "xse_file"; "previs"].

(** What the report says about a log file that cannot be read. *)
Definition unreadable_notice (log_file_path : Path) : string :=
  "❌ ERROR : Unable to scan this log file :" +:+ nl +:+ "  " +:+ path_str log_file_path.

(** The text one log file contributes to the report. *)
Definition log_text (s : Settings) (w : World) (log_file_path : Path) : string :=
  match read_lines w log_file_path with
  | None => unreadable_notice log_file_path
  | Some log_lines =>
      match ScanGameCore.detected_errors (normalize_list (catch_log_errors s))
              (normalize_list (exclude_log_errors s)) log_lines with
      | [] => EmptyString
      | errors => Py.concat (ScanGameCore.format_error_report log_file_path errors)
      end
  end.

(** [pattern] occurs in [line] when letter case is ignored, [lower]
    being the case folding. *)
Definition contains_ignoring_case (lower : string → string) (pattern line : string)
    : bool :=
  Py.contains (lower pattern) (lower line).

(** The rule for one log line: some catch pattern occurs in it and no
    ignore pattern does, letter case ignored. *)
Definition log_line_kept (lower : string → string) (s : Settings) (line : string) : bool :=
  existsb (fun error => contains_ignoring_case lower error line) (catch_log_errors s)
  && forallb (fun ignore => negb (contains_ignoring_case lower ignore line))
       (exclude_log_errors s).

(** What a log file adds to the report under that rule: the notice when
    it cannot be read, nothing when no line is kept, and otherwise the
    caution lines, the path line, every kept line behind the marker and
    the count line. *)
Definition log_block (lower : string → string) (s : Settings) (w : World)
    (log_file_path : Path) : string :=
  match read_lines w log_file_path with
  | None => unreadable_notice log_file_path
  | Some log_lines =>
      match List.filter (log_line_kept lower s) log_lines with
      | [] => EmptyString
      | kept =>
          Py.concat
            ([ "[!] CAUTION : THE FOLLOWING LOG FILE REPORTS ONE OR MORE ERRORS!" +:+ nl;
               "[ Errors do not necessarily mean that the mod is not working. ]" +:+ nl;
               nl +:+ "LOG PATH > " +:+ path_str log_file_path +:+ nl ]
             ++ map (fun line => "ERROR > " +:+ line) kept
             ++ [ nl +:+ "* TOTAL NUMBER OF DETECTED LOG ERRORS * : "
                  +:+ Py.str_of_nat (length kept) +:+ nl ])
      end
  end.

(** A text that holds nothing but blanks, tabs and line ends. *)
Fixpoint ascii_blank (s : string) : bool :=
  match s with
  | EmptyString => true
  | String c s' => Py.is_space c && ascii_blank s'
  end.

(** A custom scan path that the validator has nothing to say against. *)
Definition acceptable_scan_path (fs : PathValidator.FileSystem)
    (is_valid_custom_scan_path : string → option bool) (text : string) : Prop :=
  PathValidator.fs_exists fs text = Some true
  ∧ PathValidator.fs_is_dir fs text = Some true
  ∧ PathValidator.is_restricted_path is_valid_custom_scan_path text = false.

(** A settings store that holds the custom scan path and nothing else,
    and a filesystem with one folder for crash logs, one file and one
    restricted folder. *)
Definition sample_fs : PathValidator.FileSystem :=
  {| PathValidator.fs_exists := fun text =>
       Some (bool_decide (text ∈ ["C:\Logs"; "C:\Logs\a.log"; "C:\Windows"]));
     PathValidator.fs_is_dir := fun text =>
       Some (bool_decide (text ∈ ["C:\Logs"; "C:\Windows"])) |}.

Definition sample_is_valid_custom_scan_path (text : string) : option bool :=
  Some (negb (String.eqb text "C:\Windows")).

(** ** The model at work on concrete inputs *)

Example py_split_blank_lines :
  Py.split (nl +:+ nl) ("a" +:+ nl +:+ nl +:+ nl +:+ "b" +:+ nl +:+ nl)
  = ["a"; nl +:+ "b"; EmptyString].
Proof. reflexivity. Qed.

Example py_split_maxsplit :
  Py.split_max nl 3 ("a" +:+ nl +:+ "b" +:+ nl +:+ "c" +:+ nl +:+ "d" +:+ nl +:+ "e")
  = ["a"; "b"; "c"; "d" +:+ nl +:+ "e"].
Proof. reflexivity. Qed.

Example py_split_whitespace :
  Py.split_ws_max 4 "  Width: 101   Height: 200 and more  "
  = ["Width:"; "101"; "Height:"; "200"; "and more  "].
Proof. reflexivity. Qed.

Example py_split_whitespace_short : Py.split_ws_max 4 "Width: 101 " = ["Width:"; "101"].
Proof. reflexivity. Qed.

Example py_rsplit_dot :
  (Py.after_last_dot "tex\a.b.png", Py.after_last_dot "noext") = ("png", "noext").
Proof. reflexivity. Qed.

Example py_case : (Py.lower "AbC[z@Z`{", Py.upper "AbC[z@Z`{") = ("abc[z@z`{", "ABC[Z@Z`{").
Proof. reflexivity. Qed.

Example py_bytes_repr :
  Py.bytes_repr (Py.b "BTDX" ++ [x01; x00; xff; x5c; x0a; x09]) = "b'BTDX\x01\x00\xff\\\n\t'".
Proof. reflexivity. Qed.

Example py_bytes_repr_quote : Py.bytes_repr (Py.b "it's") = String "b" (String Py.dquote ("it's" +:+ String Py.dquote EmptyString)).
Proof. reflexivity. Qed.

Example path_suffixes :
  (suffix "a.b.DDS", suffix ".png", suffix "name.", suffix "name") = (".DDS", "", "", "").
Proof. reflexivity. Qed.

Example path_strings :
  (path_str (joinpath (joinrel Sample.mods (relative ["ModA"; "Scripts"])) "Actor.pex"),
   path_str (parent (relative ["ModA"])), path_str (relative ["ModA"; "fomod"]))
  = ("C:\Mods\ModA\Scripts\Actor.pex", ".", "ModA\fomod").
Proof. reflexivity. Qed.

Example batches_of_two : batches 2 [1; 2; 3; 4; 5] = [[1; 2]; [3; 4]; [5]].
Proof. reflexivity. Qed.

Example sample_archives :
  collect_ba2 Sample.mods (walk_entries Sample.world)
  = [ (joinpath (joinpath Sample.mods "ModA") "general.ba2", "general.ba2");
      (joinpath (joinpath Sample.mods "ModA") "textures.BA2", "textures.BA2");
      (joinpath (joinpath Sample.mods "ModA") "broken.ba2", "broken.ba2") ].
Proof. reflexivity. Qed.

Example sample_general_archive :
  ScanGameCore.process_single_ba2 (Sample.settings true) Sample.world
    (joinpath (joinpath Sample.mods "ModA") "general.ba2") "general.ba2"
  = ([(joinpath (joinpath Sample.mods "ModA") "general.ba2", "-list")],
     Returned (new_issue_lists ba2_keys)).
Proof. reflexivity. Qed.

Example sample_list_loop :
  dict_lines
    (ScanGameCore.list_entries ["Actor.pex"; "Form.pex"]
       (joinpath (joinpath Sample.mods "ModA") "general.ba2") "general.ba2"
       (drop 15 (Py.split nl (Py.lower Sample.list_output)))
       (mkFlags false false false) (new_issue_lists ba2_keys))
  = [ ("ba2_frmt", []);
      ("animdata", ["  - general.ba2" +:+ nl]);
      ("tex_dims", []);
      ("tex_frmt", []);
      ("snd_frmt", ["  - MP3 : general.ba2 > sound\foo.mp3" +:+ nl]);
      ("xse_file", ["  - general.ba2" +:+ nl]);
      ("previs", ["  - general.ba2" +:+ nl]) ].
Proof. vm_compute. reflexivity. Qed.

Example sample_broken_archive :
  returned_lines
    (ScanGameCore.process_single_ba2 (Sample.settings true) Sample.world
       (joinpath (joinpath Sample.mods "ModA") "broken.ba2") "broken.ba2").2
  = Some [ ("ba2_frmt", ["  - broken.ba2 : b'BTDX\x01\x00\x00\x00GNR'" +:+ nl]);
           ("animdata", []); ("tex_dims", []); ("tex_frmt", []); ("snd_frmt", []);
           ("xse_file", []); ("previs", []) ].
Proof. vm_compute. reflexivity. Qed.

Example sample_dump_loop :
  dict_lines
    (ScanGameCore.dump_blocks "textures.BA2"
       (drop 4 (Py.split (nl +:+ nl) (Sample.dump_output "DDS")))
       (new_issue_lists ba2_keys)).1
  = [ ("ba2_frmt", []); ("animdata", []); ("tex_dims", []);
      ("tex_frmt", ["  - DDS : textures.BA2 > tex\a.dds" +:+ nl]);
      ("snd_frmt", []); ("xse_file", []); ("previs", []) ].
Proof. vm_compute. reflexivity. Qed.

Example sample_scripts_directory :
  ScanGameCore.process_directory (Sample.settings false) Sample.world Sample.mods
    (mkPath "C:\" ["Backup"])
    (["ModA"; "Scripts"], [], ["Actor.pex"; "form.PEX"; "x.uvd"; "y_oc.nif"])
  = [ AddIssue "xse_file" ("  - ModA" +:+ nl); AddIssue "previs" ("  - ModA" +:+ nl) ].
Proof. reflexivity. Qed.

Example sample_mod_directory_moves :
  filter (fun e => is_fs_op e = true)
    (ScanGameCore.process_directory (Sample.settings false) Sample.world Sample.mods
       (mkPath "C:\" ["Backup"])
       (["ModA"], ["fomod"; "Scripts"], ["Readme.TXT"; "a.dds"]))
  = [ FsMove (mkPath "C:\" ["Mods"; "ModA"; "fomod"]) (mkPath "C:\" ["Backup"; "ModA"; "fomod"]);
      FsMkdir (mkPath "C:\" ["Backup"; "ModA"]);
      FsMove (mkPath "C:\" ["Mods"; "ModA"; "Readme.TXT"])
             (mkPath "C:\" ["Backup"; "ModA"; "Readme.TXT"]) ].
Proof. reflexivity. Qed.

Example sample_log_report :
  ScanGameCore.check_log_errors sched_rev (Sample.settings true) Sample.world Sample.logs
  = Py.concat
      [ "[!] CAUTION : THE FOLLOWING LOG FILE REPORTS ONE OR MORE ERRORS!" +:+ nl;
        "[ Errors do not necessarily mean that the mod is not working. ]" +:+ nl;
        nl +:+ "LOG PATH > C:\Logs\a.log" +:+ nl;
        "ERROR > An ERROR here" +:+ nl;
        "ERROR > Failed x" +:+ nl;
        nl +:+ "* TOTAL NUMBER OF DETECTED LOG ERRORS * : 2" +:+ nl;
        "❌ ERROR : Unable to scan this log file :" +:+ nl +:+ "  C:\Logs\c.log" ].
Proof. vm_compute. reflexivity. Qed.

(** ** Text *)

Lemma str_app_assoc (a b c : string) : (a +:+ b) +:+ c = a +:+ (b +:+ c).
Proof.
  induction a as [|x a IH]; [done|].
  change (String x ((a +:+ b) +:+ c) = String x (a +:+ (b +:+ c))). by rewrite IH.
Qed.

Lemma str_app_nil_r (a : string) : a +:+ EmptyString = a.
Proof.
  induction a as [|x a IH]; [done|].
  change (String x (a +:+ EmptyString) = String x a). by rewrite IH.
Qed.

Lemma str_app_nil_inv (a b : string) : a +:+ b = a → b = EmptyString.
Proof.
  intros H. apply (String.app_inj a). by rewrite str_app_nil_r.
Qed.

Lemma py_concat_app (l1 l2 : list string) :
  Py.concat (l1 ++ l2) = Py.concat l1 +:+ Py.concat l2.
Proof.
  induction l1 as [|x l1 IH]; [done|].
  change (x +:+ Py.concat (l1 ++ l2) = (x +:+ Py.concat l1) +:+ Py.concat l2).
  rewrite IH. symmetry. apply str_app_assoc.
Qed.

(** ** Schedules and [gather] *)

Lemma fair_id : fair sched_id.
Proof. intros A l. reflexivity. Qed.

Lemma fair_rev : fair sched_rev.
Proof. intros A l. unfold sched_rev. symmetry. apply Permutation_rev. Qed.

Section Gather.
Context {A : Type}.
Implicit Types (tasks : list A) (results : list (option A)) (order : list nat).

Lemma gather_steps_lookup tasks order results j :
  length results = length tasks →
  foldl (gather_step tasks) results order !! j =
    if decide (j ∈ order) then Some <$> tasks !! j else results !! j.
Proof.
  revert results. induction order as [|i order IH]; intros results Hlen; simpl.
  { destruct (decide (j ∈ [])) as [Hin|_]; [|done]. by apply elem_of_nil in Hin. }
  assert (Hlen' : length (gather_step tasks results i) = length tasks).
  { unfold gather_step. destruct (tasks !! i); [rewrite length_insert|]; done. }
  rewrite (IH _ Hlen').
  destruct (decide (j ∈ order)) as [Hin|Hnin].
  { rewrite decide_True; [done|]. by apply elem_of_cons; right. }
  destruct (decide (j = i)) as [->|Hne].
  - rewrite decide_True; [|by apply elem_of_cons; left].
    unfold gather_step. destruct (tasks !! i) as [r|] eqn:Hi; simpl.
    + apply list_lookup_insert_eq. rewrite Hlen. by eapply lookup_lt_Some.
    + apply lookup_ge_None. rewrite Hlen. by apply lookup_ge_None.
  - rewrite decide_False.
    2:{ intros [?|?]%elem_of_cons; [done|done]. }
    unfold gather_step. destruct (tasks !! i); [|done].
    by apply list_lookup_insert_ne.
Qed.

(** Whatever the order of completion, [gather] returns the results
    in the order of the tasks. *)
Lemma gather_fair (sched : schedule) tasks :
  fair sched → gather sched tasks = Some <$> tasks.
Proof.
  intros Hfair. apply list_eq. intros j. unfold gather.
  rewrite gather_steps_lookup by apply length_replicate.
  rewrite list_lookup_fmap.
  destruct (decide (j ∈ sched nat (seq 0 (length tasks)))) as [Hin|Hnin]; [done|].
  assert (Hge : length tasks ≤ j).
  { destruct (decide (length tasks ≤ j)) as [|Hlt]; [done|]. exfalso. apply Hnin.
    rewrite (Hfair nat (seq 0 (length tasks))). apply elem_of_seq. lia. }
  rewrite (proj1 (lookup_replicate_None _ _ _) Hge).
  by rewrite (proj2 (lookup_ge_None tasks j) Hge).
Qed.
End Gather.

(** ** The registry *)

Lemma foldl_comm_perm {A B} (f : A → B → A) :
  (∀ a x y, f (f a x) y = f (f a y) x) →
  ∀ l1 l2, l1 ≡ₚ l2 → ∀ a, foldl f a l1 = foldl f a l2.
Proof.
  intros Hcomm l1 l2 Hperm.
  induction Hperm as [|x l1 l2 _ IH|x y l|l1 l2 l3 _ IH1 _ IH2]; intros a; simpl.
  - done.
  - apply IH.
  - by rewrite Hcomm.
  - by rewrite IH1.
Qed.

Lemma issues_update_comm k1 s1 k2 s2 (r : issue_dict) :
  issues_update k1 s1 (issues_update k2 s2 r)
  = issues_update k2 s2 (issues_update k1 s1 r).
Proof.
  unfold issues_update. rewrite !map_map. apply map_ext. intros [k s]; simpl.
  destruct (decide (k = k2)) as [E2|E2]; simpl;
    destruct (decide (k = k1)) as [E1|E1]; simpl;
    rewrite ?decide_True, ?decide_False by assumption; try done.
  f_equal. rewrite <- !(assoc_L (∪)). f_equal. apply (comm_L (∪)).
Qed.

Lemma apply_effect_comm (r : issue_dict) e1 e2 :
  apply_effect (apply_effect r e1) e2 = apply_effect (apply_effect r e2) e1.
Proof.
  destruct e1, e2; simpl; try done. unfold issues_add. apply issues_update_comm.
Qed.

(** The registry does not depend on the order in which the lines arrive. *)
Lemma registry_order_irrelevant effs1 effs2 (r : issue_dict) :
  effs1 ≡ₚ effs2 → foldl apply_effect r effs1 = foldl apply_effect r effs2.
Proof. intros H. by apply foldl_comm_perm; [apply apply_effect_comm|]. Qed.

(** ** Rendering *)

Lemma render_blocks issue_messages message_list (r : issue_dict) :
  render issue_messages message_list r
  = message_list ++ concat (map (render_block issue_messages) r).
Proof.
  unfold render. revert message_list.
  induction r as [|e r IH]; intros message_list; simpl.
  - by rewrite app_nil_r.
  - rewrite IH. unfold render_step, render_block.
    destruct (decide (e.2 = ∅)); [done|].
    destruct (issue_messages !! e.1); [|done].
    by rewrite <- !app_assoc.
Qed.

Lemma sorted_Sorted items : Sorted String.le (sorted items).
Proof. apply Sorted_merge_sort. apply _. Qed.

Lemma sorted_Permutation items : sorted items ≡ₚ elements items.
Proof. apply merge_sort_Permutation. Qed.

Lemma sorted_NoDup items : NoDup (sorted items).
Proof. rewrite sorted_Permutation. apply NoDup_elements. Qed.

Lemma elem_of_sorted x items : x ∈ sorted items ↔ x ∈ items.
Proof. rewrite sorted_Permutation. apply elem_of_elements. Qed.

(** ** Merging the results of the archive tasks *)

Lemma merge_step_comm (a : issue_dict) (x y : string * gset string) :
  issues_update y.1 y.2 (issues_update x.1 x.2 a)
  = issues_update x.1 x.2 (issues_update y.1 y.2 a).
Proof. apply issues_update_comm. Qed.

Lemma merge_result_comm (r : issue_dict) x y :
  ScanGameCore.merge_result (ScanGameCore.merge_result r x) y
  = ScanGameCore.merge_result (ScanGameCore.merge_result r y) x.
Proof.
  destruct x as [[d1|]|], y as [[d2|]|]; simpl; try done.
  rewrite <- !foldl_app.
  apply (foldl_comm_perm (fun acc e => issues_update e.1 e.2 acc)).
  - intros a x y. apply merge_step_comm.
  - apply Permutation_app_comm.
Qed.

Lemma merge_results_order_irrelevant (r : issue_dict) results1 results2 :
  results1 ≡ₚ results2 →
  foldl ScanGameCore.merge_result r results1 = foldl ScanGameCore.merge_result r results2.
Proof. intros H. by apply foldl_comm_perm; [apply merge_result_comm|]. Qed.

(** The keys of a registry never change. *)
Lemma keys_issues_update k items (r : issue_dict) :
  map fst (issues_update k items r) = map fst r.
Proof.
  unfold issues_update. rewrite map_map. apply map_ext.
  intros e. by destruct (decide (e.1 = k)).
Qed.

Lemma keys_apply_effects effs (r : issue_dict) :
  map fst (foldl apply_effect r effs) = map fst r.
Proof.
  revert r. induction effs as [|e effs IH]; intros r; simpl; [done|].
  rewrite IH. destruct e; simpl; try done. apply keys_issues_update.
Qed.

Lemma keys_merge_results results (r : issue_dict) :
  map fst (foldl ScanGameCore.merge_result r results) = map fst r.
Proof.
  revert r. induction results as [|x results IH]; intros r; simpl; [done|].
  rewrite IH. destruct x as [[d|]|]; simpl; try done.
  clear IH. revert r. induction d as [|e d IHd]; intros r; simpl; [done|].
  rewrite IHd. apply keys_issues_update.
Qed.

Lemma concat_map_perm {A B} (f g : A → list B) (l : list A) :
  (∀ x, f x ≡ₚ g x) → concat (map f l) ≡ₚ concat (map g l).
Proof.
  intros H. induction l as [|x l IH]; simpl; [done|]. by rewrite H, IH.
Qed.

(** ** Runs on a filesystem that the moves change *)

Section LiveRun.
Variables (s : Settings) (w : World) (backup_path : Path).

Lemma run_task_in_place r t :
  Live.undisturbed (Live.run_task s w backup_path r t) = true →
  Live.undisturbed r = true
  ∧ Live.effects (Live.run_task s w backup_path r t)
    = Live.effects r ++ task_effects s w backup_path t.
Proof.
  destruct t as [k line|rel root dirname|relative_path file_path|file_path relative_path];
    cbn [Live.run_task task_effects].
  - done.
  - unfold Live._move_fomod_async, ScanGameCore._move_fomod_async.
    destruct (negb (TEST_MODE s)); [|done].
    destruct (Live.in_place _ _); [|done].
    destruct (try_move w _); cbn [Live.undisturbed Live.effects]; intros ->;
      by rewrite ?app_nil_r.
  - unfold Live._move_file_async, ScanGameCore._move_file_async.
    destruct (negb (TEST_MODE s)); [|done].
    destruct (Live.in_place _ _); [|done].
    by destruct (try_move w _).
  - unfold Live.check_single_dds. by destruct (Live.in_place _ _).
Qed.

Lemma run_tasks_in_place r ts :
  Live.undisturbed (foldl (Live.run_task s w backup_path) r ts) = true →
  Live.undisturbed r = true
  ∧ Live.effects (foldl (Live.run_task s w backup_path) r ts)
    = Live.effects r ++ concat (map (task_effects s w backup_path) ts).
Proof.
  revert r. induction ts as [|t ts IH]; intros r; cbn [foldl map concat].
  { intros H. by rewrite app_nil_r. }
  intros H. apply IH in H as [H ->]. apply run_task_in_place in H as [H ->].
  by rewrite <- app_assoc.
Qed.

Lemma run_task_dry r t :
  TEST_MODE s = true → Live.moved r = [] → Live.undisturbed r = true →
  Live.moved (Live.run_task s w backup_path r t) = []
  ∧ Live.undisturbed (Live.run_task s w backup_path r t) = true.
Proof.
  intros Ht Hm Hu.
  destruct t as [k line|rel root dirname|relative_path file_path|file_path relative_path];
    cbn [Live.run_task].
  - done.
  - unfold Live._move_fomod_async. by rewrite Ht.
  - unfold Live._move_file_async. by rewrite Ht.
  - unfold Live.check_single_dds. by rewrite Hm.
Qed.

Lemma run_tasks_dry r ts :
  TEST_MODE s = true → Live.moved r = [] → Live.undisturbed r = true →
  Live.moved (foldl (Live.run_task s w backup_path) r ts) = []
  ∧ Live.undisturbed (foldl (Live.run_task s w backup_path) r ts) = true.
Proof.
  intros Ht. revert r. induction ts as [|t ts IH]; intros r Hm Hu; [done|].
  cbn [foldl]. destruct (run_task_dry r t Ht Hm Hu) as [Hm' Hu']. by apply IH.
Qed.

Lemma run_task_keeps r t eff :
  eff ∈ Live.effects r → eff ∈ Live.effects (Live.run_task s w backup_path r t).
Proof.
  intros H.
  destruct t as [k line|rel root dirname|relative_path file_path|file_path relative_path];
    cbn [Live.run_task].
  - cbn. apply elem_of_app. by left.
  - unfold Live._move_fomod_async.
    repeat match goal with
           | |- context [if ?c then _ else _] => destruct c
           | |- context [match try_move ?a ?b with _ => _ end] => destruct (try_move a b)
           end; cbn [Live.effects]; try done; apply elem_of_app; by left.
  - unfold Live._move_file_async.
    repeat match goal with
           | |- context [if ?c then _ else _] => destruct c
           | |- context [match try_move ?a ?b with _ => _ end] => destruct (try_move a b)
           end; cbn [Live.effects]; try done; apply elem_of_app; by left.
  - unfold Live.check_single_dds.
    destruct (Live.in_place _ _); cbn [Live.effects]; [|done]. apply elem_of_app. by left.
Qed.

Lemma run_tasks_keep r ts eff :
  eff ∈ Live.effects r → eff ∈ Live.effects (foldl (Live.run_task s w backup_path) r ts).
Proof.
  revert r. induction ts as [|t ts IH]; intros r H; [done|].
  cbn [foldl]. by apply IH, run_task_keeps.
Qed.

Lemma run_tasks_add r ts k line :
  Live.Add k line ∈ ts →
  AddIssue k line ∈ Live.effects (foldl (Live.run_task s w backup_path) r ts).
Proof.
  revert r. induction ts as [|t ts IH]; intros r H; [by apply elem_of_nil in H|].
  cbn [foldl]. apply elem_of_cons in H as [<-|H]; [|by apply IH].
  apply run_tasks_keep. cbn. apply elem_of_app. right. apply list_elem_of_here.
Qed.

End LiveRun.

Lemma foldl_concat {A B} (f : A → B → A) (a : A) (ls : list (list B)) :
  foldl (fun a l => foldl f a l) a ls = foldl f a (concat ls).
Proof.
  revert a. induction ls as [|l ls IH]; intros a; [done|].
  cbn [foldl concat]. by rewrite foldl_app, IH.
Qed.

Lemma foldl_map_arg {A B C} (f : A → C → A) (g : B → C) (a : A) (l : list B) :
  foldl (fun a x => f a (g x)) a l = foldl f a (map g l).
Proof. revert a. induction l as [|x l IH]; intros a; [done|]. cbn. apply IH. Qed.

Lemma concat_map_perm_arg {A B} (f : A → list B) (l1 l2 : list A) :
  l1 ≡ₚ l2 → concat (map f l1) ≡ₚ concat (map f l2).
Proof.
  intros H. induction H as [|x l1 l2 _ IH|x y l|l1 l2 l3 _ IH1 _ IH2]; cbn [map concat].
  - done.
  - by rewrite IH.
  - rewrite !app_assoc. apply Permutation_app_tail, Permutation_app_comm.
  - by rewrite IH1.
Qed.

(** A run carries out the scheduled tasks one after the other. *)
Lemma unpacked_run_tasks lower upper (sched : schedule) s w mp :
  mod_path s = Some mp → walk_fails w = false →
  Live.scan_mods_unpacked_run lower upper sched s w
  = foldl (Live.run_task s w (backup_folder s))
      (Live.mkRun [] (if negb (TEST_MODE s) then [FsMkdir (backup_folder s)] else []) true)
      (scheduled_tasks lower upper sched s w mp).
Proof.
  intros Hmp Hwalk. unfold Live.scan_mods_unpacked_run, scheduled_tasks, backup_folder.
  cbn zeta. rewrite Hmp, Hwalk.
  rewrite <- foldl_concat.
  by rewrite <- (foldl_map_arg (fun r l => foldl _ r l)).
Qed.

Lemma scheduled_tasks_perm lower upper (sched1 sched2 : schedule) s w mp :
  fair sched1 → fair sched2 →
  scheduled_tasks lower upper sched1 s w mp ≡ₚ scheduled_tasks lower upper sched2 s w mp.
Proof.
  intros H1 H2. unfold scheduled_tasks. apply concat_map_perm. intros batch.
  by rewrite (H1 Live.task), (H2 Live.task).
Qed.

Lemma scheduled_tasks_test_mode lower upper (sched : schedule) b s w mp :
  scheduled_tasks lower upper sched (with_test_mode b s) w mp
  = scheduled_tasks lower upper sched s w mp.
Proof. done. Qed.

(** The effects of a run in which every task found its file or folder. *)
Lemma unpacked_run_in_place lower upper (sched : schedule) s w mp :
  mod_path s = Some mp → walk_fails w = false →
  Live.undisturbed (Live.scan_mods_unpacked_run lower upper sched s w) = true →
  Live.effects (Live.scan_mods_unpacked_run lower upper sched s w)
  = (if negb (TEST_MODE s) then [FsMkdir (backup_folder s)] else [])
    ++ concat (map (task_effects s w (backup_folder s))
                 (scheduled_tasks lower upper sched s w mp)).
Proof.
  intros Hmp Hwalk. rewrite (unpacked_run_tasks _ _ _ _ _ mp) by done.
  intros H. by apply run_tasks_in_place in H as [_ ->].
Qed.

Lemma unpacked_run_idle lower upper (sched : schedule) s w :
  mod_path s = None ∨ walk_fails w = true →
  Live.scan_mods_unpacked_run lower upper sched s w
  = Live.mkRun [] (if negb (TEST_MODE s) then [FsMkdir (backup_folder s)] else []) true.
Proof.
  unfold Live.scan_mods_unpacked_run. cbn zeta.
  destruct (mod_path s); [|done]. intros [?| ->]; done.
Qed.

(** A dry run moves nothing away, and each of its tasks finds its file
    or folder. *)
Lemma unpacked_run_dry lower upper (sched : schedule) s w :
  TEST_MODE s = true →
  Live.moved (Live.scan_mods_unpacked_run lower upper sched s w) = []
  ∧ Live.undisturbed (Live.scan_mods_unpacked_run lower upper sched s w) = true.
Proof.
  intros Ht.
  destruct (mod_path s) as [mp|] eqn:Hmp;
    [|by rewrite unpacked_run_idle by (by left)].
  destruct (walk_fails w) eqn:Hwalk;
    [by rewrite unpacked_run_idle by (by right)|].
  rewrite (unpacked_run_tasks _ _ _ _ _ mp) by done. by apply run_tasks_dry.
Qed.

(** Two runs in which every task found its file or folder end with the
    same issue sets. *)
Lemma unpacked_issues_in_place lower upper (sched1 sched2 : schedule) s w :
  fair sched1 → fair sched2 →
  Live.undisturbed (Live.scan_mods_unpacked_run lower upper sched1 s w) = true →
  Live.undisturbed (Live.scan_mods_unpacked_run lower upper sched2 s w) = true →
  Live.scan_mods_unpacked_issues lower upper sched1 s w
  = Live.scan_mods_unpacked_issues lower upper sched2 s w.
Proof.
  intros H1 H2 Hu1 Hu2. unfold Live.scan_mods_unpacked_issues.
  destruct (mod_path s) as [mp|] eqn:Hmp;
    [|by rewrite !unpacked_run_idle by (by left)].
  destruct (walk_fails w) eqn:Hwalk;
    [by rewrite !unpacked_run_idle by (by right)|].
  rewrite !(unpacked_run_in_place _ _ _ _ _ mp) by done.
  apply registry_order_irrelevant, Permutation_app_head.
  by apply concat_map_perm_arg, scheduled_tasks_perm.
Qed.

(** C1, as stated, fails for the loose-file scan with moves enabled.
    The walk lists [Mods\ModA\fomod] and then [Mods\ModA]; the check of
    the texture [a.dds] in the folder and the move of the folder are
    tasks of the same wave.  When the check comes first the report has
    the texture's line; when the move comes first the texture is gone
    by the time it is opened and the report has no such line. *)
Lemma wet_report_depends_on_order :
  fair sched_id ∧ fair sched_rev
  ∧ sorted (issues_get "tex_dims"
              (Live.scan_mods_unpacked_issues Py.lower Py.upper sched_id
                 (Sample.settings false) fomod_texture_world))
    = ["  - ModA\fomod\a.dds (101x200)"]
  ∧ sorted (issues_get "tex_dims"
              (Live.scan_mods_unpacked_issues Py.lower Py.upper sched_rev
                 (Sample.settings false) fomod_texture_world))
    = []
  ∧ Live.scan_mods_unpacked Py.lower Py.upper sched_id (Sample.settings false)
      fomod_texture_world
    ≠ Live.scan_mods_unpacked Py.lower Py.upper sched_rev (Sample.settings false)
        fomod_texture_world.
Proof.
  split; [exact fair_id|]. split; [exact fair_rev|].
  split; [by vm_compute|]. split; [by vm_compute|].
  vm_compute. discriminate.
Qed.

(** C1, amended. The reports of the archive scan and of the log scan do
    not depend on the order in which the concurrent tasks complete.
    The report of the loose-file scan does not depend on it in a dry
    run, nor between two runs in each of which every task finds its
    file or folder where the walk saw it.  The results of the archive
    tasks merge to the same issue sets in any order, lines added in any
    order give the same issue sets, every category is rendered once,
    and the lines under it are the elements of its set, without
    repetition, in increasing lexicographic order. *)
Theorem report_deterministic_when_undisturbed (lower upper : string → string)
    (normalize_list : list string → list string) (sched1 sched2 : schedule)
    (s : Settings) (w : World) (folder_path : Path) :
  fair sched1 → fair sched2 →
  ScanGameCore.scan_mods_archived sched1 s w = ScanGameCore.scan_mods_archived sched2 s w
  ∧ LogScan.check_log_errors lower normalize_list sched1 s w folder_path
    = LogScan.check_log_errors lower normalize_list sched2 s w folder_path
  ∧ (TEST_MODE s = true
     ∨ Live.undisturbed (Live.scan_mods_unpacked_run lower upper sched1 s w) = true
       ∧ Live.undisturbed (Live.scan_mods_unpacked_run lower upper sched2 s w) = true →
     Live.scan_mods_unpacked lower upper sched1 s w
     = Live.scan_mods_unpacked lower upper sched2 s w)
  ∧ (∀ (r : issue_dict) results1 results2,
       results1 ≡ₚ results2 →
       foldl ScanGameCore.merge_result r results1
       = foldl ScanGameCore.merge_result r results2)
  ∧ (∀ (r : issue_dict) effs1 effs2,
       effs1 ≡ₚ effs2 → foldl apply_effect r effs1 = foldl apply_effect r effs2)
  ∧ (∀ mp, map fst (ScanGameCore.scan_mods_archived_issues sched1 s w mp) = ba2_keys)
  ∧ map fst (Live.scan_mods_unpacked_issues lower upper sched1 s w) = unpacked_keys
  ∧ NoDup ba2_keys ∧ NoDup unpacked_keys
  ∧ (∀ issue_messages message_list (r : issue_dict),
       render issue_messages message_list r
       = message_list ++ concat (map (render_block issue_messages) r))
  ∧ (∀ items : gset string,
       Sorted String.le (sorted items) ∧ NoDup (sorted items)
       ∧ ∀ line, line ∈ sorted items ↔ line ∈ items).
Proof.
  intros H1 H2. repeat split.
  - unfold ScanGameCore.scan_mods_archived, ScanGameCore.scan_mods_archived_outcome,
      ScanGameCore.scan_mods_archived_issues.
    destruct (mod_path s) as [mp|]; [|done].
    by rewrite !gather_fair.
  - unfold LogScan.check_log_errors. by rewrite !gather_fair.
  - intros Hu.
    assert (Hboth :
      Live.undisturbed (Live.scan_mods_unpacked_run lower upper sched1 s w) = true
      ∧ Live.undisturbed (Live.scan_mods_unpacked_run lower upper sched2 s w) = true).
    { destruct Hu as [Ht|Hu]; [|done].
      split; by apply unpacked_run_dry. }
    unfold Live.scan_mods_unpacked, Live.scan_mods_unpacked_outcome.
    by rewrite (unpacked_issues_in_place lower upper sched1 sched2 s w H1 H2
                  (proj1 Hboth) (proj2 Hboth)).
  - apply merge_results_order_irrelevant.
  - intros r effs1 effs2. apply registry_order_irrelevant.
  - intros mp. unfold ScanGameCore.scan_mods_archived_issues.
    by rewrite keys_merge_results.
  - unfold Live.scan_mods_unpacked_issues. by rewrite keys_apply_effects.
  - apply (bool_decide_unpack (NoDup ba2_keys)). vm_compute. exact I.
  - apply (bool_decide_unpack (NoDup unpacked_keys)). vm_compute. exact I.
  - apply render_blocks.
  - apply sorted_Sorted.
  - apply sorted_NoDup.
  - by apply elem_of_sorted.
  - by apply elem_of_sorted.
Qed.

Lemma report_deterministic_when_undisturbed_witness :
  fair sched_id ∧ fair sched_rev
  ∧ Live.scan_mods_unpacked Py.lower Py.upper sched_id (Sample.settings true)
      fomod_texture_world
    = Live.scan_mods_unpacked Py.lower Py.upper sched_rev (Sample.settings true)
        fomod_texture_world.
Proof.
  split; [exact fair_id|]. split; [exact fair_rev|].
  apply (report_deterministic_when_undisturbed Py.lower Py.upper (map Py.lower)
           sched_id sched_rev (Sample.settings true) fomod_texture_world Sample.logs
           fair_id fair_rev).
  by left.
Defined.

(** ** Reading the registry *)

Lemma issues_get_new k keys : issues_get k (new_issue_lists keys) = ∅.
Proof.
  unfold new_issue_lists. induction keys as [|k' keys IH]; simpl; [done|].
  by destruct (decide (k' = k)).
Qed.

Lemma issues_get_update_ne k k' items (r : issue_dict) :
  k ≠ k' → issues_get k (issues_update k' items r) = issues_get k r.
Proof.
  intros Hne. unfold issues_update. induction r as [|[k0 s0] r IH]; simpl; [done|].
  destruct (decide (k0 = k')) as [->|]; simpl.
  - destruct (decide (k' = k)); [congruence|apply IH].
  - destruct (decide (k0 = k)); [done|apply IH].
Qed.

Lemma issues_get_update_eq k items (r : issue_dict) :
  k ∈ map fst r → issues_get k (issues_update k items r) = issues_get k r ∪ items.
Proof.
  unfold issues_update. induction r as [|[k0 s0] r IH]; simpl; intros Hin.
  { by apply elem_of_nil in Hin. }
  destruct (decide (k0 = k)) as [->|Hne]; simpl.
  - by rewrite decide_True.
  - rewrite decide_False by done. apply IH.
    apply elem_of_cons in Hin as [?|?]; [congruence|done].
Qed.

Lemma issues_get_update_subseteq k k' items (r : issue_dict) :
  issues_get k (issues_update k' items r) ⊆ issues_get k r ∪ items.
Proof.
  unfold issues_update. induction r as [|[k0 s0] r IH]; simpl; [set_solver|].
  destruct (decide (k0 = k')) as [->|]; simpl.
  - destruct (decide (k' = k)); [done|]. apply IH.
  - destruct (decide (k0 = k)); [|apply IH]. apply union_subseteq_l.
Qed.

Lemma issues_get_update_mono k k' items (r : issue_dict) :
  issues_get k r ⊆ issues_get k (issues_update k' items r).
Proof.
  unfold issues_update. induction r as [|[k0 s0] r IH]; simpl; [done|].
  destruct (decide (k0 = k')) as [->|]; simpl.
  - destruct (decide (k' = k)); [|apply IH]. apply union_subseteq_l.
  - destruct (decide (k0 = k)); [done|apply IH].
Qed.

Lemma keys_new_issue_lists keys : map fst (new_issue_lists keys) = keys.
Proof.
  unfold new_issue_lists. induction keys as [|k keys IH]; simpl; [done|by rewrite IH].
Qed.

(** ** Archive headers *)

Lemma bad_ba2_header_spec header :
  bad_ba2_header header = false
  ↔ take 4 header = Py.b "BTDX"
    ∧ (drop 8 header = Py.b "GNRL" ∨ drop 8 header = Py.b "DX10").
Proof.
  unfold bad_ba2_header.
  destruct (bool_decide_reflect (take 4 header = Py.b "BTDX")) as [Hm|Hm];
    destruct (bool_decide_reflect (drop 8 header = Py.b "DX10")) as [Hd|Hd];
    destruct (bool_decide_reflect (drop 8 header = Py.b "GNRL")) as [Hg|Hg];
    simpl; split; try done; try tauto; intros [? [?|?]]; done.
Qed.

(** C2. An archive whose 12 header bytes are [BTDX], four bytes, [GNRL]
    is inspected with [-list]; with [DX10] in bytes 8..12 it is inspected
    with [-dump]; any other header gives exactly one archive-format line,
    which shows the header bytes, and no run of the external tool.  The
    free-function variant behaves the same. *)
Theorem ba2_header_classification (s : Settings) (w : World) (file_path : Path)
    (filename : string) (content : list byte) :
  read_bytes w file_path = Some content →
  let header := take 12 content in
  let run := ScanGameCore.process_single_ba2 s w file_path filename in
  (take 4 header = Py.b "BTDX" → drop 8 header = Py.b "GNRL" →
     run.1 = [(file_path, "-list")])
  ∧ (take 4 header = Py.b "BTDX" → drop 8 header = Py.b "DX10" →
     run.1 = [(file_path, "-dump")])
  ∧ (¬ (take 4 header = Py.b "BTDX"
         ∧ (drop 8 header = Py.b "GNRL" ∨ drop 8 header = Py.b "DX10")) →
     run.1 = []
     ∧ ∃ d, run.2 = Returned d
        ∧ issues_get "ba2_frmt" d
          = {[ "  - " +:+ filename +:+ " : " +:+ Py.bytes_repr header +:+ nl ]}
        ∧ ∀ k, k ≠ "ba2_frmt" → issues_get k d = ∅)
  ∧ AsyncScanGame.process_single_ba2 s w file_path filename = run.
Proof.
  intros Hread header run.
  assert (Hrun : run = ScanGameCore.process_single_ba2 s w file_path filename) by done.
  unfold ScanGameCore.process_single_ba2 in Hrun. rewrite Hread in Hrun.
  fold header in Hrun.
  split; [|split; [|split]].
  - intros Hm Hg.
    assert (Hok : bad_ba2_header header = false) by (apply bad_ba2_header_spec; auto).
    rewrite Hok in Hrun.
    rewrite bool_decide_eq_false_2 in Hrun; [by rewrite Hrun|].
    rewrite Hg. by vm_compute.
  - intros Hm Hd.
    assert (Hok : bad_ba2_header header = false) by (apply bad_ba2_header_spec; auto).
    rewrite Hok in Hrun.
    rewrite bool_decide_eq_true_2 in Hrun by done. by rewrite Hrun.
  - intros Hbad.
    assert (Hb : bad_ba2_header header = true).
    { destruct (bad_ba2_header header) eqn:E; [done|].
      exfalso. by apply Hbad, bad_ba2_header_spec. }
    rewrite Hb in Hrun. rewrite Hrun. cbn [fst snd]. split; [done|].
    eexists. split; [reflexivity|]. split.
    + unfold issues_add. rewrite issues_get_update_eq.
      * rewrite issues_get_new. apply (left_id_L ∅ (∪)).
      * rewrite keys_new_issue_lists. apply (bool_decide_unpack _). by vm_compute.
    + intros k Hk. unfold issues_add. rewrite issues_get_update_ne by done.
      apply issues_get_new.
  - done.
Qed.

Lemma ba2_header_classification_witness :
  read_bytes Sample.world (joinpath Sample.mods "broken.ba2")
  = Some (Py.b "BTDX" ++ [x01; x00; x00; x00] ++ Py.b "GNR")
  ∧ (ScanGameCore.process_single_ba2 (Sample.settings true) Sample.world
       (joinpath Sample.mods "broken.ba2") "broken.ba2").1 = [].
Proof.
  split; [reflexivity|].
  refine (proj1 (proj1 (proj2 (proj2
    (ba2_header_classification (Sample.settings true) Sample.world
       (joinpath Sample.mods "broken.ba2") "broken.ba2" _ eq_refl))) _)).
  vm_compute. intros [_ [H|H]]; discriminate H.
Defined.

(** ** The output of the tool *)


(** ** The lines of one directory *)

Lemma issue_lines_app k effs1 effs2 :
  issue_lines k (effs1 ++ effs2) = issue_lines k effs1 ++ issue_lines k effs2.
Proof. unfold issue_lines. apply flat_map_app. Qed.

Lemma issue_lines_cons_add k k' line effs :
  issue_lines k (AddIssue k' line :: effs)
  = (if decide (k' = k) then [line] else []) ++ issue_lines k effs.
Proof. reflexivity. Qed.

Lemma issue_lines_move_fomod k s w backup_path rel root dirname :
  k ≠ "cleanup" →
  issue_lines k (ScanGameCore._move_fomod_async s w backup_path rel root dirname) = [].
Proof.
  intros Hk. unfold ScanGameCore._move_fomod_async.
  destruct (negb (TEST_MODE s)); [destruct (try_move w _)|]; simpl;
    rewrite ?decide_False by done; done.
Qed.

Lemma issue_lines_move_file k s w backup_path relative_path file_path :
  k ≠ "cleanup" →
  issue_lines k (ScanGameCore._move_file_async s w backup_path relative_path file_path) = [].
Proof.
  intros Hk. unfold ScanGameCore._move_file_async.
  destruct (negb (TEST_MODE s)); [destruct (try_move w _)|]; simpl;
    rewrite ?decide_False by done; done.
Qed.

Lemma issue_lines_check_single_dds k w file_path relative_path :
  k ≠ "tex_dims" →
  issue_lines k (ScanGameCore.check_single_dds w file_path relative_path) = [].
Proof.
  intros Hk. unfold ScanGameCore.check_single_dds.
  repeat match goal with
         | |- context [match ?x with _ => _ end] => destruct x
         end; simpl; rewrite ?decide_False by done; done.
Qed.

Lemma issue_lines_dds_batch k w dds_files :
  k ≠ "tex_dims" →
  issue_lines k (ScanGameCore._check_dds_batch_async w dds_files) = [].
Proof.
  intros Hk. unfold ScanGameCore._check_dds_batch_async.
  induction dds_files as [|f l IH]; simpl; [done|].
  by rewrite issue_lines_app, issue_lines_check_single_dds, IH.
Qed.

Section DirectoryLines.
Variables (s : Settings) (w : World) (backup_path : Path) (rel : list string)
          (root root_main : Path).

Lemma dirs_loop_tasks_lines k dirs ha :
  k ≠ "cleanup" →
  issue_lines k
    (concat (ScanGameCore.dirs_loop s w backup_path rel root root_main dirs ha).2) = [].
Proof.
  intros Hk. revert ha. induction dirs as [|dirname rest IH]; intros ha; [done|].
  cbn [ScanGameCore.dirs_loop].
  destruct (negb ha && String.eqb (Py.lower dirname) "animationfiledata").
  { cbn [fst snd]. apply IH. }
  destruct (String.eqb (Py.lower dirname) "fomod"); [|apply IH].
  cbn [fst snd concat]. by rewrite issue_lines_app, issue_lines_move_fomod, IH.
Qed.

Lemma dirs_loop_added_other k dirs ha :
  k ≠ "animdata" →
  issue_lines k (ScanGameCore.dirs_loop s w backup_path rel root root_main dirs ha).1 = [].
Proof.
  intros Hk. revert ha. induction dirs as [|dirname rest IH]; intros ha; [done|].
  cbn [ScanGameCore.dirs_loop].
  destruct (negb ha && String.eqb (Py.lower dirname) "animationfiledata").
  { cbn [fst snd]. rewrite issue_lines_cons_add, decide_False by done. apply IH. }
  destruct (String.eqb (Py.lower dirname) "fomod"); apply IH.
Qed.

Lemma dirs_loop_added_animdata dirs ha :
  issue_lines "animdata"
    (ScanGameCore.dirs_loop s w backup_path rel root root_main dirs ha).1
  = if negb ha && existsb (fun d => String.eqb (Py.lower d) "animationfiledata") dirs
    then [root_line root_main] else [].
Proof.
  revert ha. induction dirs as [|dirname rest IH]; intros ha.
  { cbn. by rewrite andb_false_r. }
  cbn [ScanGameCore.dirs_loop existsb].
  destruct ha; cbn [negb andb].
  { destruct (String.eqb (Py.lower dirname) "fomod"); cbn [fst snd]; apply (IH true). }
  destruct (String.eqb (Py.lower dirname) "animationfiledata") eqn:E; cbn [orb].
  - cbn [fst snd]. rewrite issue_lines_cons_add, decide_True by done.
    by rewrite (IH true).
  - destruct (String.eqb (Py.lower dirname) "fomod"); cbn [fst snd]; apply (IH false).
Qed.

Lemma files_loop_tasks_lines k files hx hp :
  k ≠ "cleanup" →
  issue_lines k
    (concat (ScanGameCore.file_tasks
               (ScanGameCore.files_loop s w backup_path rel root root_main files hx hp)))
  = [].
Proof.
  intros Hk. revert hx hp. induction files as [|filename rest IH]; intros hx hp; [done|].
  cbn [ScanGameCore.files_loop].
  repeat match goal with
         | |- context [if ?c then _ else _] => destruct c
         end; cbn [ScanGameCore.file_tasks concat];
    rewrite ?issue_lines_app, ?issue_lines_move_file by done; apply IH.
Qed.

Lemma files_loop_xse files hx hp :
  issue_lines "xse_file"
    (ScanGameCore.added
       (ScanGameCore.files_loop s w backup_path rel root root_main files hx hp))
  = if negb hx && existsb (xse_candidate s root) files then [root_line root_main] else [].
Proof.
  revert hx hp. induction files as [|filename rest IH]; intros hx hp.
  { cbn. by rewrite andb_false_r. }
  cbn [ScanGameCore.files_loop existsb].
  unfold xse_candidate at 1. unfold taken_before_xse. cbn zeta.
  destruct (Py.endswith ".txt" (Py.lower filename)
            && existsb (fun name => Py.contains name (Py.lower filename)) filter_names).
  { cbn [orb negb andb ScanGameCore.added]. apply IH. }
  destruct (String.eqb (Py.lower (suffix filename)) ".dds").
  { cbn [orb negb andb ScanGameCore.added]. apply IH. }
  destruct ((String.eqb (Py.lower (suffix filename)) ".tga"
             || String.eqb (Py.lower (suffix filename)) ".png")
            && negb (bool_decide ("BodySlide" ∈ parts (joinpath root filename)))).
  { cbn [orb negb andb ScanGameCore.added].
    rewrite issue_lines_cons_add, decide_False by done. apply IH. }
  destruct (String.eqb (Py.lower (suffix filename)) ".mp3"
            || String.eqb (Py.lower (suffix filename)) ".m4a").
  { cbn [orb negb andb ScanGameCore.added].
    rewrite issue_lines_cons_add, decide_False by done. apply IH. }
  cbn [orb negb andb].
  destruct hx; cbn [negb andb].
  - destruct (negb hp && Py.endswith_any [".uvd"; "_oc.nif"] (Py.lower filename));
      cbn [ScanGameCore.added];
      rewrite ?issue_lines_cons_add, ?decide_False by done; apply (IH true).
  - destruct (ScanGameCore.xse_test s root filename); cbn [orb].
    + cbn [ScanGameCore.added]. rewrite issue_lines_cons_add, decide_True by done.
      by rewrite (IH true).
    + destruct (negb hp && Py.endswith_any [".uvd"; "_oc.nif"] (Py.lower filename));
        cbn [ScanGameCore.added];
        rewrite ?issue_lines_cons_add, ?decide_False by done; apply (IH false).
Qed.

Lemma files_loop_previs files hx hp :
  issue_lines "previs"
    (ScanGameCore.added
       (ScanGameCore.files_loop s w backup_path rel root root_main files hx hp)) = []
  ∨ issue_lines "previs"
      (ScanGameCore.added
         (ScanGameCore.files_loop s w backup_path rel root root_main files hx hp))
    = [root_line root_main].
Proof.
  assert (Hflag : ∀ files hx,
    issue_lines "previs"
      (ScanGameCore.added
         (ScanGameCore.files_loop s w backup_path rel root root_main files hx true)) = []).
  { clear files hx hp. intros files.
    induction files as [|filename rest IH]; intros hx; [done|].
    cbn [ScanGameCore.files_loop negb andb].
    repeat match goal with
           | |- context [if ?c then _ else _] => destruct c
           end; cbn [ScanGameCore.added];
      rewrite ?issue_lines_cons_add, ?decide_False by done; apply IH. }
  revert hx hp. induction files as [|filename rest IH]; intros hx hp; [by left|].
  destruct hp; [left; apply Hflag|].
  cbn [ScanGameCore.files_loop negb andb].
  repeat match goal with
         | |- context [if ?c then _ else _] => destruct c
         end; cbn [ScanGameCore.added];
    rewrite ?issue_lines_cons_add, ?decide_False by done;
    try apply IH.
  right. rewrite decide_True by done. by rewrite Hflag.
Qed.

Lemma files_loop_added_other k files hx hp :
  k ≠ "tex_frmt" → k ≠ "snd_frmt" → k ≠ "xse_file" → k ≠ "previs" →
  issue_lines k
    (ScanGameCore.added
       (ScanGameCore.files_loop s w backup_path rel root root_main files hx hp)) = [].
Proof.
  intros ? ? ? ?. revert hx hp.
  induction files as [|filename rest IH]; intros hx hp; [done|].
  cbn [ScanGameCore.files_loop].
  repeat match goal with
         | |- context [if ?c then _ else _] => destruct c
         end; cbn [ScanGameCore.added];
    rewrite ?issue_lines_cons_add, ?decide_False by done; apply IH.
Qed.

End DirectoryLines.

Lemma process_directory_lines k s w mp backup_path (e : walk_entry) :
  k ≠ "cleanup" → k ≠ "tex_dims" →
  issue_lines k (ScanGameCore.process_directory s w mp backup_path e)
  = issue_lines k
      (ScanGameCore.dirs_loop s w backup_path e.1.1 (joinrel mp (relative e.1.1))
         (parent (relative e.1.1)) e.1.2 false).1
    ++ issue_lines k
         (ScanGameCore.added
            (ScanGameCore.files_loop s w backup_path e.1.1 (joinrel mp (relative e.1.1))
               (parent (relative e.1.1)) e.2 false false)).
Proof.
  intros Hc Ht. unfold ScanGameCore.process_directory. cbn zeta.
  rewrite !issue_lines_app.
  rewrite dirs_loop_tasks_lines, files_loop_tasks_lines by done.
  assert (Hdds : ∀ l, issue_lines k
            (match l with [] => [] | _ => ScanGameCore._check_dds_batch_async w l end) = []).
  { intros [|f l]; [done|]. by apply issue_lines_dds_batch. }
  rewrite Hdds. by rewrite !app_nil_r.
Qed.

(** ** Single-detection categories *)

Lemma subseteq_singleton_size (X : gset string) line : X ⊆ {[ line ]} → size X ≤ 1.
Proof.
  intros H. rewrite <- (size_singleton (C := gset string) line). by apply subseteq_size.
Qed.

Lemma NoDup_filter_eq_length (l : list string) (x : string) :
  NoDup l → length (filter (eq x) l) ≤ 1.
Proof.
  induction 1 as [|y l Hy _ IH]; [simpl; lia|].
  rewrite filter_cons. destruct (decide (x = y)) as [->|]; [|done].
  simpl. assert (Hnone : filter (eq y) l = []); [|by rewrite Hnone].
  destruct (filter (eq y) l) as [|z t] eqn:E; [done|].
  assert (Hz : z ∈ filter (eq y) l) by (rewrite E; apply list_elem_of_here).
  apply list_elem_of_filter in Hz as [<- Hz]. done.
Qed.

Lemma Returned_inj {A} (a b : A) : Returned a = Returned b → a = b.
Proof. by intros [= ->]. Qed.

Lemma archive_single k s w file_path filename d :
  k ∈ single_detection →
  (ScanGameCore.process_single_ba2 s w file_path filename).2 = Returned d →
  issues_get k d ⊆ {[ archive_line filename ]}.
Proof.
  intros Hk. assert (Hne : k ≠ "snd_frmt" ∧ k ≠ "tex_frmt" ∧ k ≠ "tex_dims" ∧ k ≠ "ba2_frmt").
  { unfold single_detection in Hk. rewrite !elem_of_cons in Hk.
    destruct Hk as [->|[->|[->|Hk]]]; [done|done|done|by apply elem_of_nil in Hk]. }
  destruct Hne as (Hs & Hf & Hd & Hb).
  unfold ScanGameCore.process_single_ba2.
  assert (Hempty : issues_get k (new_issue_lists ba2_keys) ⊆ {[ archive_line filename ]}).
  { rewrite issues_get_new. apply empty_subseteq. }
  destruct (read_bytes w file_path) as [content|]; cbn [snd].
  2:{ intros <-%Returned_inj. done. }
  destruct (bad_ba2_header (take 12 content)); cbn [snd].
  { intros <-%Returned_inj. unfold issues_add. by rewrite issues_get_update_ne. }
  destruct (bool_decide (drop 8 (take 12 content) = Py.b "DX10")); cbn [snd].
  - cbn [create_subprocess_exec]. intros <-%Returned_inj. done.
  - cbn [create_subprocess_exec]. intros <-%Returned_inj. done.
Qed.

(** C5. For each single-detection category, a directory of the
    loose-file scan contributes either nothing or the one line of that
    directory, an archive contributes at most the one line of that
    archive, and no line is rendered twice under the category in the
    final report. *)
Theorem single_detection_once (sched : schedule) (s : Settings) (w : World)
    (mp backup_path : Path) (k : string) :
  k ∈ single_detection →
  (∀ e : walk_entry,
     issue_lines k (ScanGameCore.process_directory s w mp backup_path e) = []
     ∨ issue_lines k (ScanGameCore.process_directory s w mp backup_path e)
       = [directory_line e])
  ∧ (∀ file_path filename d,
       (ScanGameCore.process_single_ba2 s w file_path filename).2 = Returned d →
       size (issues_get k d) ≤ 1
       ∧ ∀ line, line ∈ issues_get k d → line = archive_line filename)
  ∧ (∀ line,
       length (filter (eq line)
                 (sorted (issues_get k (ScanGameCore.scan_mods_unpacked_issues sched s w))))
       ≤ 1
       ∧ length (filter (eq line)
                   (sorted (issues_get k
                              (ScanGameCore.scan_mods_archived_issues sched s w mp))))
         ≤ 1).
Proof.
  intros Hk. split; [|split].
  - intros e. unfold single_detection in Hk. rewrite !elem_of_cons in Hk.
    destruct Hk as [->|[->|[->|Hk]]]; [| | |by apply elem_of_nil in Hk];
      rewrite process_directory_lines by done.
    + rewrite dirs_loop_added_animdata, files_loop_added_other by done.
      rewrite app_nil_r. destruct (_ && _); [by right|by left].
    + rewrite dirs_loop_added_other, files_loop_xse by done.
      destruct (_ && _); [by right|by left].
    + rewrite dirs_loop_added_other by done. apply files_loop_previs.
  - intros file_path filename d Hd.
    pose proof (archive_single k s w file_path filename d Hk Hd) as Hsub.
    split; [by eapply subseteq_singleton_size|].
    intros line Hline. apply Hsub in Hline. by apply elem_of_singleton in Hline.
  - intros line. split; apply NoDup_filter_eq_length, sorted_NoDup.
Qed.

Lemma single_detection_once_witness :
  "previs" ∈ single_detection
  ∧ issue_lines "previs"
      (ScanGameCore.process_directory (Sample.settings true) Sample.world Sample.mods
         (mkPath "C:\" ["Backup"])
         (["ModA"; "Scripts"], [], ["Actor.pex"; "form.PEX"; "x.uvd"; "y_oc.nif"]))
    = ["  - ModA" +:+ nl].
Proof.
  assert (H : "previs" ∈ single_detection) by (apply (bool_decide_unpack _); by vm_compute).
  split; [exact H|].
  destruct (proj1 (single_detection_once sched_id (Sample.settings true) Sample.world
                     Sample.mods (mkPath "C:\" ["Backup"]) "previs" H)
                  (["ModA"; "Scripts"], [], ["Actor.pex"; "form.PEX"; "x.uvd"; "y_oc.nif"]))
    as [Hnone|Hone].
  - vm_compute in Hnone. discriminate Hnone.
  - rewrite Hone. reflexivity.
Defined.

(** ** Texture headers *)

Lemma odd_mod2 (n : N) : negb (n mod 2 =? 0)%N = N.odd n.
Proof.
  rewrite <- N.bit0_odd, N.bit0_eqb.
  assert (H : (n mod 2 < 2)%N) by (apply N.mod_upper_bound; lia).
  revert H. destruct (n mod 2)%N as [|[p|p|]]; simpl; intros H; try done; lia.
Qed.

Lemma unpack_u32_le_four (l : list byte) :
  length l = 4 →
  Py.unpack_u32_le l
  = Some (fold_right (fun x acc => Byte.to_N x + 256 * acc)%N 0%N l).
Proof.
  destruct l as [|b0 [|b1 [|b2 [|b3 [|b4 l]]]]]; try done.
  intros _. unfold Py.unpack_u32_le. f_equal. simpl. lia.
Qed.

Lemma unpack_u32_le_short (l : list byte) : length l < 4 → Py.unpack_u32_le l = None.
Proof.
  destruct l as [|b0 [|b1 [|b2 [|b3 l]]]]; simpl; try done. lia.
Qed.

Lemma dds_slice (content : list byte) (off : nat) :
  off + 4 ≤ 20 →
  take 4 (drop off (take 20 content)) = take 4 (drop off content).
Proof.
  intros H. rewrite !take_drop_commute, take_take. do 2 f_equal. lia.
Qed.

(** C6. The texture check reads 20 bytes and nothing else; a file
    whose first four bytes are not the [DDS ] tag adds nothing; with the
    tag and 20 bytes present, the width is the little-endian 32-bit
    number at offset 12, the height the one at offset 16, and the
    texture-dimensions line is recorded exactly when one of them is odd
    (101 by 200 is recorded, 100 by 200 is not); with the tag and fewer
    than 20 bytes nothing is recorded. *)
Theorem dds_dimension_check (w : World) (file_path relative_path : Path)
    (content : list byte) :
  read_bytes w file_path = Some content →
  (∀ (w' : World) (content' : list byte),
     read_bytes w' file_path = Some content' →
     take 20 content' = take 20 content →
     ScanGameCore.check_single_dds w' file_path relative_path
     = ScanGameCore.check_single_dds w file_path relative_path)
  ∧ (take 4 content ≠ Py.b "DDS " →
     ScanGameCore.check_single_dds w file_path relative_path = [])
  ∧ (take 4 content = Py.b "DDS " → 20 ≤ length content →
     ScanGameCore.check_single_dds w file_path relative_path
     = if N.odd (u32_le_at 12 content) || N.odd (u32_le_at 16 content)
       then [AddIssue "tex_dims"
               (dims_line relative_path (u32_le_at 12 content) (u32_le_at 16 content))]
       else [])
  ∧ (take 4 content = Py.b "DDS " → length content < 20 →
     ScanGameCore.check_single_dds w file_path relative_path = [])
  ∧ ScanGameCore.check_single_dds Sample.world
      (joinpath (joinpath Sample.mods "ModA") "a.dds") (relative ["ModA"; "a.dds"])
    = [AddIssue "tex_dims" "  - ModA\a.dds (101x200)"]
  ∧ ScanGameCore.check_single_dds Sample.world
      (joinpath (joinpath Sample.mods "ModA") "b.DDS") (relative ["ModA"; "b.DDS"])
    = [].
Proof.
  intros Hread.
  assert (Hmagic : take 4 (take 20 content) = take 4 content).
  { rewrite take_take. done. }
  repeat split.
  - intros w' content' Hread' Heq. unfold ScanGameCore.check_single_dds.
    by rewrite Hread, Hread', Heq.
  - intros Hne. unfold ScanGameCore.check_single_dds. rewrite Hread, Hmagic.
    by rewrite bool_decide_eq_false_2.
  - intros Hm Hlen. unfold ScanGameCore.check_single_dds. rewrite Hread, Hmagic.
    rewrite bool_decide_eq_true_2 by done.
    rewrite !dds_slice by lia.
    rewrite !unpack_u32_le_four by (rewrite length_take, length_drop; lia).
    rewrite !odd_mod2. reflexivity.
  - intros Hm Hlen. unfold ScanGameCore.check_single_dds. rewrite Hread, Hmagic.
    rewrite bool_decide_eq_true_2 by done.
    rewrite !dds_slice by lia.
    destruct (Py.unpack_u32_le (take 4 (drop 12 content))); [|done].
    rewrite unpack_u32_le_short; [done|].
    rewrite length_take, length_drop. lia.
Qed.

Lemma dds_dimension_check_witness :
  read_bytes Sample.world (joinpath (joinpath Sample.mods "ModA") "a.dds")
  = Some (Sample.dds_header x65 xc8)
  ∧ ScanGameCore.check_single_dds Sample.world
      (joinpath (joinpath Sample.mods "ModA") "a.dds") (relative ["ModA"; "a.dds"])
    = [AddIssue "tex_dims" (dims_line (relative ["ModA"; "a.dds"]) 101 200)].
Proof.
  split; [reflexivity|].
  refine (proj1 (proj2 (proj2
    (dds_dimension_check Sample.world (joinpath (joinpath Sample.mods "ModA") "a.dds")
       (relative ["ModA"; "a.dds"]) (Sample.dds_header x65 xc8) eq_refl))) _ _).
  - reflexivity.
  - vm_compute. lia.
Defined.

(** ** Log lines *)

Lemma existsb_map {A B} (f : B → bool) (g : A → B) (l : list A) :
  existsb f (map g l) = existsb (fun x => f (g x)) l.
Proof. induction l as [|x l IH]; [done|]. cbn. by rewrite IH. Qed.

Lemma forallb_map {A B} (f : B → bool) (g : A → B) (l : list A) :
  forallb f (map g l) = forallb (fun x => f (g x)) l.
Proof. induction l as [|x l IH]; [done|]. cbn. by rewrite IH. Qed.

Lemma line_matches_kept lower (s : Settings) (line : string) :
  LogScan.line_matches lower (map lower (catch_log_errors s))
    (map lower (exclude_log_errors s)) line
  = log_line_kept lower s line.
Proof.
  unfold LogScan.line_matches, log_line_kept, contains_ignoring_case.
  by rewrite existsb_map, forallb_map.
Qed.

Lemma log_line_kept_spec lower (s : Settings) (line : string) :
  log_line_kept lower s line = true
  ↔ (∃ error, error ∈ catch_log_errors s
              ∧ Py.contains (lower error) (lower line) = true)
    ∧ (∀ ign, ign ∈ exclude_log_errors s
              → Py.contains (lower ign) (lower line) = false).
Proof.
  unfold log_line_kept, contains_ignoring_case.
  rewrite andb_true_iff, existsb_exists, forallb_forall. split.
  - intros [(error & Hin & Hc) Hall]. split.
    + exists error. split; [by apply list_elem_of_In|done].
    + intros ign Hign. apply negb_true_iff, Hall. by apply list_elem_of_In.
  - intros [(error & Hin & Hc) Hall]. split.
    + exists error. split; [by apply list_elem_of_In|done].
    + intros ign Hign. apply negb_true_iff, Hall. by apply list_elem_of_In.
Qed.

Lemma process_single_log_block lower (s : Settings) (w : World) (log_file_path : Path) :
  ∃ l, LogScan.process_single_log lower w (map lower (catch_log_errors s))
         (map lower (exclude_log_errors s)) log_file_path = Returned l
       ∧ Py.concat l = log_block lower s w log_file_path.
Proof.
  unfold LogScan.process_single_log, log_block, LogScan.detected_errors.
  destruct (read_lines w log_file_path) as [log_lines|].
  - rewrite (filter_ext _ _ (line_matches_kept lower s)).
    destruct (List.filter (log_line_kept lower s) log_lines) as [|line kept].
    + by eexists.
    + cbn [map]. eexists. split; [done|].
      unfold ScanGameCore.format_error_report. cbn [length]. by rewrite length_map.
  - eexists. split; [done|]. cbn. apply str_app_nil_r.
Qed.

Lemma collect_log_blocks lower (s : Settings) (w : World) (files : list Path)
    (acc : list string) :
  Py.concat
    (foldl ScanGameCore.collect_report acc
       (Some <$> map (LogScan.process_single_log lower w (map lower (catch_log_errors s))
                        (map lower (exclude_log_errors s))) files))
  = Py.concat acc +:+ Py.concat (map (log_block lower s w) files).
Proof.
  revert acc. induction files as [|f files IH]; intros acc.
  { cbn. by rewrite str_app_nil_r. }
  cbn [map]. rewrite fmap_cons. cbn [foldl].
  destruct (process_single_log_block lower s w f) as (l & -> & Hl).
  cbn [ScanGameCore.collect_report].
  rewrite IH, py_concat_app, Hl, str_app_assoc. done.
Qed.

(** With [Py.lower] for [lower] the log scan is the one of
    [ScanGameCore]. *)
Remark log_scan_on_ascii_text (sched : schedule) (s : Settings) (w : World)
    (folder_path : Path) :
  LogScan.check_log_errors Py.lower normalize_list sched s w folder_path
  = ScanGameCore.check_log_errors sched s w folder_path.
Proof. reflexivity. Qed.

(** C7. The report of the log scan is, for the scanned log files in the
    order of the listing, what each file adds: the notice for a file
    that cannot be read; nothing for a file without a kept line; and
    otherwise the two caution lines, the path line, every kept line with
    [ERROR > ] in front, and the count line.  A line is kept exactly
    when, with letter case ignored, it contains one of the catch
    patterns and none of the ignore patterns.  [lower] is [str.lower],
    and the imported [normalize_list] is assumed to lower-case each
    pattern. *)
Theorem log_line_rule (lower : string → string)
    (normalize_list : list string → list string) (sched : schedule) (s : Settings)
    (w : World) (folder_path : Path) :
  fair sched →
  (∀ items, normalize_list items = map lower items) →
  LogScan.check_log_errors lower normalize_list sched s w folder_path
  = Py.concat
      (map (log_block lower s w)
         (LogScan.valid_log_files lower w (normalize_list (exclude_log_files s))
            folder_path))
  ∧ (∀ line,
       log_line_kept lower s line = true
       ↔ (∃ error, error ∈ catch_log_errors s
                   ∧ Py.contains (lower error) (lower line) = true)
         ∧ (∀ ign, ign ∈ exclude_log_errors s
                   → Py.contains (lower ign) (lower line) = false))
  ∧ (∀ line line', lower line = lower line' →
       log_line_kept lower s line = log_line_kept lower s line').
Proof.
  intros Hfair Hnorm. split; [|split].
  - unfold LogScan.check_log_errors. cbn zeta.
    rewrite gather_fair by done. rewrite !Hnorm. by rewrite collect_log_blocks.
  - intros line. apply log_line_kept_spec.
  - intros line line' Hlow. unfold log_line_kept, contains_ignoring_case.
    by rewrite Hlow.
Qed.

Lemma log_line_rule_witness :
  fair sched_rev
  ∧ (∀ items, map Py.lower items = map Py.lower items)
  ∧ LogScan.check_log_errors Py.lower (map Py.lower) sched_rev (Sample.settings true)
      Sample.world Sample.logs
    = "[!] CAUTION : THE FOLLOWING LOG FILE REPORTS ONE OR MORE ERRORS!" +:+ nl
      +:+ "[ Errors do not necessarily mean that the mod is not working. ]" +:+ nl
      +:+ nl +:+ "LOG PATH > C:\Logs\a.log" +:+ nl
      +:+ "ERROR > An ERROR here" +:+ nl
      +:+ "ERROR > Failed x" +:+ nl
      +:+ nl +:+ "* TOTAL NUMBER OF DETECTED LOG ERRORS * : 2" +:+ nl
      +:+ "❌ ERROR : Unable to scan this log file :" +:+ nl +:+ "  C:\Logs\c.log".
Proof.
  split; [exact fair_rev|]. split; [done|].
  rewrite (proj1 (log_line_rule Py.lower (map Py.lower) sched_rev (Sample.settings true)
                    Sample.world Sample.logs fair_rev (fun _ => eq_refl))).
  vm_compute. reflexivity.
Defined.

(** ** Lines that reach the registry, and a walk that yields nothing *)

Lemma elem_of_concat_map {A B} (f : A → list B) (l : list A) (y : B) :
  y ∈ concat (map f l) ↔ ∃ x, x ∈ l ∧ y ∈ f x.
Proof.
  rewrite list_elem_of_In, in_concat. split.
  - intros (ys & (x & <- & Hx)%in_map_iff & Hy).
    exists x. by rewrite !list_elem_of_In.
  - intros (x & Hx & Hy). exists (f x). split.
    + apply in_map_iff. exists x. split; [done|by apply list_elem_of_In].
    + by apply list_elem_of_In.
Qed.

Lemma elem_of_batches {A} (n : nat) (l : list A) (x : A) :
  0 < n → x ∈ l → ∃ b, b ∈ batches n l ∧ x ∈ b.
Proof.
  intros Hn [i Hi]%list_elem_of_lookup_1.
  exists (take n (drop (i / n * n) l)). split.
  - unfold batches. apply list_elem_of_In, in_map_iff. exists (i / n). split; [done|].
    apply in_seq. split; [lia|]. simpl.
    apply lookup_lt_Some in Hi.
    assert (H1 : (i + 1 * n) / n ≤ (length l + n - 1) / n)
      by (apply Nat.Div0.div_le_mono; lia).
    rewrite Nat.div_add in H1 by lia. lia.
  - apply (list_elem_of_lookup_2 _ (i mod n)).
    rewrite lookup_take_lt by (apply Nat.mod_upper_bound; lia).
    rewrite lookup_drop. rewrite <- Hi. f_equal.
    pose proof (Nat.div_mod_eq i n). lia.
Qed.

Lemma batches_nil {A} (n : nat) : 0 < n → batches n (@nil A) = [].
Proof.
  intros Hn. unfold batches. cbn [length].
  by rewrite (Nat.div_small (0 + n - 1) n) by lia.
Qed.

Lemma batches_step {A} (n : nat) (l : list A) :
  0 < n → l ≠ [] → batches n l = take n l :: batches n (drop n l).
Proof.
  intros Hn Hl. unfold batches.
  assert (Hlen : 0 < length l) by (destruct l; [done|simpl; lia]).
  assert (Hcount : (length l + n - 1) / n = S ((length (drop n l) + n - 1) / n)).
  { rewrite length_drop.
    destruct (decide (n ≤ length l)) as [Hge|Hlt].
    - replace (length l + n - 1) with ((length l - n + n - 1) + 1 * n) by lia.
      rewrite Nat.div_add by lia. lia.
    - replace (length l - n) with 0 by lia.
      replace ((0 + n - 1) / n) with 0 by (symmetry; apply Nat.div_small; lia).
      replace (length l + n - 1) with ((length l - 1) + 1 * n) by lia.
      rewrite Nat.div_add by lia. rewrite Nat.div_small by lia; lia. }
  rewrite Hcount. cbn [seq map]. rewrite Nat.mul_0_l, drop_0. f_equal.
  rewrite <- seq_shift, map_map. apply map_ext. intros k.
  rewrite drop_drop. do 2 f_equal; lia.
Qed.

Lemma batches_spec {A} (batch_size : nat) :
  0 < batch_size →
  ∀ m (l : list A), length l ≤ m →
    concat (batches batch_size l) = l
    ∧ Forall (fun batch => 0 < length batch ≤ batch_size) (batches batch_size l).
Proof.
  intros Hn. induction m as [|m IH]; intros l Hl.
  - destruct l; [|simpl in Hl; lia]. rewrite batches_nil by done. by split.
  - destruct l as [|x l']; [rewrite batches_nil by done; by split|].
    rewrite batches_step by done.
    destruct (IH (drop batch_size (x :: l'))) as [Hc Hf].
    { rewrite length_drop. simpl in *. lia. }
    split.
    + cbn [concat]. rewrite Hc. apply take_drop.
    + constructor; [|done]. rewrite length_take. simpl. lia.
Qed.

Lemma elem_of_batches_inv {A} (n : nat) (l : list A) (b : list A) (x : A) :
  0 < n → b ∈ batches n l → x ∈ b → x ∈ l.
Proof.
  intros Hn Hb Hx. rewrite <- (proj1 (batches_spec n Hn (length l) l (le_n _))).
  apply list_elem_of_In, in_concat. exists b. by rewrite <- !list_elem_of_In.
Qed.

Lemma scheduled_tasks_complete lower upper (sched : schedule) s w mp e t :
  fair sched → e ∈ walk_entries w →
  t ∈ Live.process_directory lower upper (xse_scriptfiles s) mp e →
  t ∈ scheduled_tasks lower upper sched s w mp.
Proof.
  intros Hfair He Ht. unfold scheduled_tasks.
  destruct (elem_of_batches 50 (walk_entries w) e) as (b & Hb & Heb); [lia|done|].
  apply elem_of_concat_map. exists b. split; [done|].
  rewrite (Hfair Live.task _). apply elem_of_concat_map. by exists e.
Qed.

Lemma issues_get_entry k line (d : issue_dict) :
  line ∈ issues_get k d → ∃ items, (k, items) ∈ d ∧ line ∈ items.
Proof.
  induction d as [|[k' items'] d IH]; simpl; [by intros ?%not_elem_of_empty|].
  destruct (decide (k' = k)) as [->|].
  - intros H. exists items'. split; [apply list_elem_of_here|done].
  - intros (items & Hin & Hl)%IH. exists items. split; [by apply list_elem_of_further|done].
Qed.

Lemma issues_get_update_elem k items line (r : issue_dict) :
  k ∈ map fst r → line ∈ items → line ∈ issues_get k (issues_update k items r).
Proof.
  intros Hk Hl. rewrite issues_get_update_eq by done. by apply elem_of_union_r.
Qed.

Lemma merge_dict_mono k (d r : issue_dict) :
  issues_get k r ⊆ issues_get k (foldl (fun acc e => issues_update e.1 e.2 acc) r d).
Proof.
  revert r. induction d as [|e d IH]; intros r; simpl; [done|].
  etrans; [|apply IH]. apply issues_get_update_mono.
Qed.

Lemma merge_dict_elem k items line (d r : issue_dict) :
  (k, items) ∈ d → line ∈ items → k ∈ map fst r →
  line ∈ issues_get k (foldl (fun acc e => issues_update e.1 e.2 acc) r d).
Proof.
  revert r. induction d as [|e d IH]; intros r Hin Hl Hk; simpl.
  { by apply elem_of_nil in Hin. }
  apply elem_of_cons in Hin as [<-|Hin].
  - apply merge_dict_mono. simpl. by apply issues_get_update_elem.
  - apply IH; [done|done|]. by rewrite keys_issues_update.
Qed.

Lemma merge_results_mono k results (r : issue_dict) :
  issues_get k r ⊆ issues_get k (foldl ScanGameCore.merge_result r results).
Proof.
  revert r. induction results as [|x results IH]; intros r; simpl; [done|].
  etrans; [|apply IH]. destruct x as [[d|]|]; simpl; try done. apply merge_dict_mono.
Qed.

Lemma merge_results_elem k line d results (r : issue_dict) :
  Some (Returned d) ∈ results → line ∈ issues_get k d → k ∈ map fst r →
  line ∈ issues_get k (foldl ScanGameCore.merge_result r results).
Proof.
  revert r. induction results as [|x results IH]; intros r Hin Hl Hk; simpl.
  { by apply elem_of_nil in Hin. }
  apply elem_of_cons in Hin as [<-|Hin].
  - apply merge_results_mono. simpl.
    apply issues_get_entry in Hl as (items & Hd & Hl). by eapply merge_dict_elem.
  - apply IH; [done|done|].
    destruct x as [[d'|]|]; simpl; try done.
    clear -Hk. revert r Hk. induction d' as [|e d' IHd]; intros r Hk; simpl; [done|].
    apply IHd. by rewrite keys_issues_update.
Qed.

Lemma apply_effects_mono k effs (r : issue_dict) :
  issues_get k r ⊆ issues_get k (foldl apply_effect r effs).
Proof.
  revert r. induction effs as [|e effs IH]; intros r; simpl; [done|].
  etrans; [|apply IH]. destruct e; simpl; try done. apply issues_get_update_mono.
Qed.

Lemma apply_effects_elem k line effs (r : issue_dict) :
  AddIssue k line ∈ effs → k ∈ map fst r →
  line ∈ issues_get k (foldl apply_effect r effs).
Proof.
  revert r. induction effs as [|e effs IH]; intros r Hin Hk; simpl.
  { by apply elem_of_nil in Hin. }
  apply elem_of_cons in Hin as [<-|Hin].
  - apply apply_effects_mono. simpl. apply issues_get_update_elem; [done|].
    by apply elem_of_singleton.
  - apply IH; [done|]. destruct e; cbn [apply_effect]; try done.
    unfold issues_add. by rewrite keys_issues_update.
Qed.

Lemma issues_get_update_inv k k' items line (r : issue_dict) :
  line ∈ issues_get k (issues_update k' items r) →
  line ∈ issues_get k r ∨ (k = k' ∧ line ∈ items).
Proof.
  destruct (decide (k = k')) as [->|Hne].
  - intros H. apply issues_get_update_subseteq in H.
    apply elem_of_union in H as [H|H]; [by left|by right].
  - rewrite issues_get_update_ne by done. by left.
Qed.

Lemma apply_effects_inv k line effs (r : issue_dict) :
  line ∈ issues_get k (foldl apply_effect r effs) →
  line ∈ issues_get k r ∨ AddIssue k line ∈ effs.
Proof.
  revert r. induction effs as [|e effs IH]; intros r; simpl; [by left|].
  intros [H|H]%IH; [|right; by apply list_elem_of_further].
  destruct e as [k' line'| |]; cbn [apply_effect] in H; [|by left|by left].
  unfold issues_add in H.
  apply issues_get_update_inv in H as [H|[-> H]]; [by left|].
  apply elem_of_singleton in H as ->. right. apply list_elem_of_here.
Qed.


Lemma empty_walk_unpacked (sched : schedule) s w mp :
  mod_path s = Some mp → walk_entries w = [] → walk_fails w = false →
  ScanGameCore.scan_mods_unpacked sched s w = unpacked_banner.
Proof.
  intros Hmp Hnone Hwalk.
  unfold ScanGameCore.scan_mods_unpacked, ScanGameCore.scan_mods_unpacked_outcome,
    ScanGameCore.scan_mods_unpacked_issues, ScanGameCore.scan_mods_unpacked_effects.
  rewrite Hmp, Hwalk, Hnone. cbn [batches length Nat.add Nat.sub Nat.div seq map concat].
  rewrite app_nil_r. by destruct (TEST_MODE s).
Qed.

Lemma empty_walk_live lower upper (sched : schedule) s w mp :
  mod_path s = Some mp → walk_entries w = [] → walk_fails w = false →
  Live.scan_mods_unpacked lower upper sched s w = unpacked_banner.
Proof.
  intros Hmp Hnone Hwalk.
  unfold Live.scan_mods_unpacked, Live.scan_mods_unpacked_outcome,
    Live.scan_mods_unpacked_issues, Live.scan_mods_unpacked_run.
  rewrite Hmp, Hwalk, Hnone. by destruct (TEST_MODE s).
Qed.

Lemma empty_walk_archived (sched : schedule) s w mp :
  fair sched →
  mod_path s = Some mp → walk_entries w = [] → walk_fails w = false →
  path_exists w mp = true →
  path_exists w (joinrel (local_dir s) (relative ["CLASSIC Data"; "BSArch.exe"])) = true →
  ScanGameCore.scan_mods_archived sched s w = archived_banner.
Proof.
  intros Hfair Hmp Hnone Hwalk Hex Hbs.
  unfold ScanGameCore.scan_mods_archived, ScanGameCore.scan_mods_archived_outcome,
    ScanGameCore.scan_mods_archived_issues.
  rewrite Hmp, Hex, Hbs, Hwalk, Hnone. rewrite gather_fair by done. done.
Qed.

(** C9. A mods folder that cannot be listed (it is missing, or reading
    it is denied) gives the walk nothing to yield and nothing to raise.
    The loose-file scan then returns its two banner lines, and the
    archive scan the message of the settings for a folder that does not
    exist and its banner line for one that does: neither returns the
    message of its [except] branch. *)
Theorem unlistable_root_gives_bare_banner (lower upper : string → string)
    (sched : schedule) (s : Settings) (w : World) (mp : Path) :
  fair sched →
  mod_path s = Some mp → walk_entries w = [] → walk_fails w = false →
  ScanGameCore.scan_mods_unpacked sched s w = unpacked_banner
  ∧ Live.scan_mods_unpacked lower upper sched s w = unpacked_banner
  ∧ unpacked_banner ≠ "Error: Could not access mod files"
  ∧ (path_exists w mp = false →
     ScanGameCore.scan_mods_archived sched s w = warn_mods_path_invalid s)
  ∧ (path_exists w mp = true →
     path_exists w (joinrel (local_dir s) (relative ["CLASSIC Data"; "BSArch.exe"])) = true →
     ScanGameCore.scan_mods_archived sched s w = archived_banner)
  ∧ archived_banner ≠ "Error: Could not scan for BA2 files".
Proof.
  intros Hfair Hmp Hnone Hwalk.
  split; [by eapply empty_walk_unpacked|].
  split; [by eapply empty_walk_live|].
  split; [discriminate|].
  split; [|split; [|discriminate]].
  - intros Hex. unfold ScanGameCore.scan_mods_archived,
      ScanGameCore.scan_mods_archived_outcome.
    by rewrite Hmp, Hex.
  - intros Hex Hbs. by eapply empty_walk_archived.
Qed.

Lemma unlistable_root_gives_bare_banner_witness :
  fair sched_id
  ∧ mod_path (Sample.settings false) = Some Sample.mods
  ∧ walk_entries (with_entries [] Sample.world) = []
  ∧ walk_fails (with_entries [] Sample.world) = false
  ∧ ScanGameCore.scan_mods_unpacked sched_id (Sample.settings false)
      (with_entries [] Sample.world)
    = "=================== MOD FILES SCAN ====================" +:+ nl
      +:+ "========= RESULTS FROM UNPACKED / LOOSE FILES =========" +:+ nl.
Proof.
  split; [exact fair_id|]. do 3 (split; [reflexivity|]).
  exact (proj1 (unlistable_root_gives_bare_banner Py.lower Py.upper sched_id
                  (Sample.settings false) (with_entries [] Sample.world) Sample.mods
                  fair_id eq_refl eq_refl eq_refl)).
Defined.

(** ** Copies of script-extender files *)

Lemma added_lines_app k ts1 ts2 :
  added_lines k (ts1 ++ ts2) = added_lines k ts1 ++ added_lines k ts2.
Proof. unfold added_lines. apply flat_map_app. Qed.

Lemma added_lines_cons_add k k' line ts :
  added_lines k (Live.Add k' line :: ts)
  = (if decide (k' = k) then [line] else []) ++ added_lines k ts.
Proof. reflexivity. Qed.

Lemma elem_of_added_lines k line ts :
  line ∈ added_lines k ts ↔ Live.Add k line ∈ ts.
Proof.
  unfold added_lines. induction ts as [|t ts IH]; cbn [flat_map].
  { split; intros H; by apply elem_of_nil in H. }
  rewrite elem_of_app, IH, elem_of_cons. apply or_iff_compat_r.
  destruct t as [k' line'| | |]; try (split; [by intros ?%elem_of_nil|done]).
  destruct (decide (k' = k)) as [->|Hne].
  - rewrite list_elem_of_singleton. split; [by intros ->|by intros [= ->]].
  - split; [by intros ?%elem_of_nil|]. intros [= <- _]. done.
Qed.

Section LiveLines.
Variables (lower upper : string → string) (xse_scriptfiles : list string)
          (rel : list string) (root root_main : Path).

Lemma live_dirs_loop_moves k dirs ha :
  added_lines k (Live.dirs_loop lower rel root root_main dirs ha).2 = [].
Proof.
  revert ha. induction dirs as [|dirname rest IH]; intros ha; [done|].
  cbn [Live.dirs_loop]. cbn zeta.
  destruct (negb ha && String.eqb (lower dirname) "animationfiledata"); [apply IH|].
  destruct (String.eqb (lower dirname) "fomod"); [|apply IH].
  cbn [snd]. apply IH.
Qed.

Lemma live_dirs_loop_added_other k dirs ha :
  k ≠ "animdata" →
  added_lines k (Live.dirs_loop lower rel root root_main dirs ha).1 = [].
Proof.
  intros Hk. revert ha. induction dirs as [|dirname rest IH]; intros ha; [done|].
  cbn [Live.dirs_loop]. cbn zeta.
  destruct (negb ha && String.eqb (lower dirname) "animationfiledata").
  { cbn [fst]. rewrite added_lines_cons_add, decide_False by done. apply IH. }
  destruct (String.eqb (lower dirname) "fomod"); apply IH.
Qed.

Lemma live_files_loop_tasks k files hx hp :
  added_lines k
    (Live.file_tasks
       (Live.files_loop lower upper xse_scriptfiles rel root root_main files hx hp)) = []
  ∧ added_lines k
      (Live.dds_files
         (Live.files_loop lower upper xse_scriptfiles rel root root_main files hx hp)) = [].
Proof.
  revert hx hp. induction files as [|filename rest IH]; intros hx hp; [done|].
  cbn [Live.files_loop]. cbn zeta.
  repeat match goal with
         | |- context [if ?c then _ else _] => destruct c
         end; cbn [Live.file_tasks Live.dds_files]; apply IH.
Qed.

Lemma live_files_loop_xse files hx hp :
  added_lines "xse_file"
    (Live.added
       (Live.files_loop lower upper xse_scriptfiles rel root root_main files hx hp))
  = if negb hx && existsb (xse_taken lower xse_scriptfiles root) files
    then [root_line root_main] else [].
Proof.
  revert hx hp. induction files as [|filename rest IH]; intros hx hp.
  { cbn. by rewrite andb_false_r. }
  cbn [Live.files_loop existsb]. cbn zeta.
  unfold xse_taken at 1.
  destruct (Py.endswith ".txt" (lower filename)
            && existsb (fun name => Py.contains name (lower filename)) filter_names).
  { cbn [orb negb andb Live.added]. apply IH. }
  destruct (String.eqb (lower (suffix filename)) ".dds").
  { cbn [orb negb andb Live.added]. apply IH. }
  destruct ((String.eqb (lower (suffix filename)) ".tga"
             || String.eqb (lower (suffix filename)) ".png")
            && negb (bool_decide ("BodySlide" ∈ parts (joinpath root filename)))).
  { cbn [orb negb andb Live.added].
    rewrite added_lines_cons_add, decide_False by done. apply IH. }
  destruct (String.eqb (lower (suffix filename)) ".mp3"
            || String.eqb (lower (suffix filename)) ".m4a").
  { cbn [orb negb andb Live.added].
    rewrite added_lines_cons_add, decide_False by done. apply IH. }
  cbn [orb negb andb].
  destruct hx; cbn [negb andb].
  - destruct (negb hp && Py.endswith_any [".uvd"; "_oc.nif"] (lower filename));
      cbn [Live.added];
      rewrite ?added_lines_cons_add, ?decide_False by done; apply (IH true).
  - destruct (Live.xse_test lower xse_scriptfiles root filename); cbn [orb].
    + cbn [Live.added]. rewrite added_lines_cons_add, decide_True by done.
      by rewrite (IH true).
    + destruct (negb hp && Py.endswith_any [".uvd"; "_oc.nif"] (lower filename));
        cbn [Live.added];
        rewrite ?added_lines_cons_add, ?decide_False by done; apply (IH false).
Qed.

End LiveLines.

Lemma bool_false_iff (b : bool) (P : Prop) : (b = true ↔ P) → (b = false ↔ ¬ P).
Proof. intros H. rewrite <- H. destruct b; split; done. Qed.

Lemma xse_taken_spec lower xse_scriptfiles root filename :
  xse_taken lower xse_scriptfiles root filename = true
  ↔ xse_collision lower xse_scriptfiles root filename.
Proof.
  assert (H1 : Py.endswith ".txt" (lower filename)
               && existsb (fun name => Py.contains name (lower filename)) filter_names
               = true
               ↔ Py.endswith ".txt" (lower filename) = true
                 ∧ ∃ name, name ∈ filter_names
                           ∧ Py.contains name (lower filename) = true).
  { rewrite andb_true_iff, existsb_exists. apply and_iff_compat_l.
    split; intros (name & Hin & Hc); exists name; by rewrite ?list_elem_of_In in *. }
  assert (H3 : (String.eqb (lower (suffix filename)) ".tga"
                || String.eqb (lower (suffix filename)) ".png")
               && negb (bool_decide ("BodySlide" ∈ parts (joinpath root filename)))
               = true
               ↔ lower (suffix filename) ∈ [".tga"; ".png"]
                 ∧ ("BodySlide" ∉ parts (joinpath root filename))).
  { rewrite andb_true_iff, orb_true_iff, !String.eqb_eq, negb_true_iff,
      bool_decide_eq_false, !elem_of_cons, elem_of_nil. tauto. }
  assert (H5 : existsb (fun key => String.eqb (lower filename) (lower key)) xse_scriptfiles
               = true
               ↔ ∃ key, key ∈ xse_scriptfiles ∧ lower filename = lower key).
  { rewrite existsb_exists.
    split; intros (key & Hin & Hc); exists key;
      by rewrite ?list_elem_of_In, ?String.eqb_eq in *. }
  unfold xse_taken, xse_collision, reaches_xse_branch, Live.xse_test.
  rewrite !andb_true_iff, !negb_true_iff, !orb_false_iff.
  rewrite (bool_false_iff _ _ H1), (bool_false_iff _ _ H3), H5.
  rewrite !String.eqb_neq, !elem_of_cons, elem_of_nil. tauto.
Qed.

Lemma live_process_directory_xse lower upper xse_scriptfiles mp (e : walk_entry) :
  added_lines "xse_file" (Live.process_directory lower upper xse_scriptfiles mp e)
  = if existsb (xse_taken lower xse_scriptfiles (joinrel mp (relative e.1.1))) e.2
    then [directory_line e] else [].
Proof.
  unfold Live.process_directory. cbn zeta. rewrite !added_lines_app.
  rewrite live_dirs_loop_moves, live_dirs_loop_added_other by done.
  rewrite (proj1 (live_files_loop_tasks _ _ _ _ _ _ _ _ _ _)).
  rewrite (proj2 (live_files_loop_tasks _ _ _ _ _ _ _ _ _ _)).
  rewrite live_files_loop_xse. cbn [negb andb app]. by rewrite !app_nil_r.
Qed.

Section LiveAdds.
Variables (s : Settings) (w : World) (backup_path : Path).

Lemma check_single_dds_adds file_path relative_path k line :
  AddIssue k line ∈ ScanGameCore.check_single_dds w file_path relative_path →
  k = "tex_dims".
Proof.
  unfold ScanGameCore.check_single_dds.
  repeat match goal with
         | |- context [match ?c with _ => _ end] => destruct c
         end; try (by intros ?%elem_of_nil).
  by intros [= -> _]%list_elem_of_singleton.
Qed.

Lemma run_task_adds r t k line :
  AddIssue k line ∈ Live.effects (Live.run_task s w backup_path r t) →
  AddIssue k line ∈ Live.effects r ∨ t = Live.Add k line
  ∨ k = "cleanup" ∨ k = "tex_dims".
Proof.
  destruct t as [k' line'|rel root dirname|relative_path file_path|file_path relative_path];
    cbn [Live.run_task].
  - cbn. rewrite elem_of_app, list_elem_of_singleton.
    intros [?|[= -> ->]]; [by left|by right; left].
  - unfold Live._move_fomod_async.
    repeat match goal with
           | |- context [if ?c then _ else _] => destruct c
           | |- context [match try_move ?a ?b with _ => _ end] => destruct (try_move a b)
           end; cbn [Live.effects]; try (by left);
      rewrite elem_of_app, ?elem_of_cons, elem_of_nil;
      intros [?|H]; [by left| |by left|]; naive_solver.
  - unfold Live._move_file_async.
    repeat match goal with
           | |- context [if ?c then _ else _] => destruct c
           | |- context [match try_move ?a ?b with _ => _ end] => destruct (try_move a b)
           end; cbn [Live.effects]; try (by left);
      rewrite elem_of_app, ?elem_of_cons, elem_of_nil;
      intros [?|H]; try (by left); naive_solver.
  - unfold Live.check_single_dds.
    destruct (Live.in_place _ _); cbn [Live.effects]; [|by left].
    rewrite elem_of_app. intros [?|H]; [by left|].
    apply check_single_dds_adds in H. by right; right; right.
Qed.

Lemma run_tasks_adds r ts k line :
  AddIssue k line ∈ Live.effects (foldl (Live.run_task s w backup_path) r ts) →
  AddIssue k line ∈ Live.effects r ∨ Live.Add k line ∈ ts
  ∨ k = "cleanup" ∨ k = "tex_dims".
Proof.
  revert r. induction ts as [|t ts IH]; intros r; cbn [foldl]; [by left|].
  intros H. apply IH in H as [H|[H|H]].
  - apply run_task_adds in H as [H|[->|H]];
      [by left|right; left; apply list_elem_of_here|by right; right].
  - right; left. by apply list_elem_of_further.
  - by right; right.
Qed.

End LiveAdds.

(** The categories that [process_directory] fills on the spot hold the
    lines of its [Add] tasks, whatever the schedule, the dry-run switch
    and the moves. *)
Lemma live_registry_on_the_spot lower upper (sched : schedule) s w mp k line :
  fair sched → mod_path s = Some mp → walk_fails w = false →
  k ∈ unpacked_keys → k ≠ "cleanup" → k ≠ "tex_dims" →
  line ∈ issues_get k (Live.scan_mods_unpacked_issues lower upper sched s w)
  ↔ ∃ e, e ∈ walk_entries w
         ∧ Live.Add k line ∈ Live.process_directory lower upper (xse_scriptfiles s) mp e.
Proof.
  intros Hfair Hmp Hwalk Hk Hc Ht. unfold Live.scan_mods_unpacked_issues.
  rewrite (unpacked_run_tasks _ _ _ _ _ mp) by done. split.
  - intros H. apply apply_effects_inv in H as [H|H].
    { rewrite issues_get_new in H. by apply elem_of_empty in H. }
    apply run_tasks_adds in H as [H|[H|[H|H]]]; [|
      |done|done].
    + cbn [Live.effects] in H. destruct (negb (TEST_MODE s)); [|by apply elem_of_nil in H].
      by apply list_elem_of_singleton in H.
    + unfold scheduled_tasks in H.
      apply elem_of_concat_map in H as (b & Hb & H).
      rewrite (Hfair Live.task _) in H.
      apply elem_of_concat_map in H as (e & He & H).
      exists e. split; [|done]. by apply (elem_of_batches_inv 50 _ b); [lia| |].
  - intros (e & He & H).
    apply apply_effects_elem; [|by rewrite keys_new_issue_lists].
    apply run_tasks_add. by eapply scheduled_tasks_complete.
Qed.

(** C4, as stated, fails: [Actor.pex] in [Mods\ModA\Scripts\Sub] has a
    configured name and a [Scripts] segment in its path, and no issue is
    recorded for its directory. *)
Lemma xse_needs_scripts_parent : ¬ xse_rule_as_claimed.
Proof.
  intros H.
  destruct (H ["Actor.pex"; "Form.pex"] Sample.mods
              (["ModA"; "Scripts"; "Sub"], [], ["Actor.pex"])) as [_ Hback].
  apply Hback; [|by vm_compute].
  exists "Actor.pex". split; [apply list_elem_of_here|by vm_compute].
Qed.

(** C4, amended. A directory gets a script-extender-collision line
    exactly when one of its files reaches the script-extender branch
    (it is not a documentation text file, a [.dds], a [.tga]/[.png]
    outside [BodySlide], or an [.mp3]/[.m4a]), has a name equal up to
    letter case to a configured name, lies in a directory the text of
    whose path does not contain "workshop framework" in any letter
    case, and has the text [Scripts\<name>] in the text of its path.
    The tasks of the directory then add that one line, once, and none
    otherwise; and the lines of the category in the registry are those
    of the directories of the walk that have such a file, whatever the
    schedule, the dry-run switch and the moves. *)
Theorem xse_collision_rule (lower upper : string → string) (sched : schedule)
    (s : Settings) (w : World) (mp : Path) :
  fair sched → mod_path s = Some mp → walk_fails w = false →
  (∀ e : walk_entry,
     ((∃ filename, filename ∈ e.2
                   ∧ xse_collision lower (xse_scriptfiles s)
                       (joinrel mp (relative e.1.1)) filename) →
      added_lines "xse_file"
        (Live.process_directory lower upper (xse_scriptfiles s) mp e)
      = [directory_line e])
     ∧ (¬ (∃ filename, filename ∈ e.2
                       ∧ xse_collision lower (xse_scriptfiles s)
                           (joinrel mp (relative e.1.1)) filename) →
        added_lines "xse_file"
          (Live.process_directory lower upper (xse_scriptfiles s) mp e)
        = []))
  ∧ (∀ line,
       line ∈ issues_get "xse_file"
                (Live.scan_mods_unpacked_issues lower upper sched s w)
       ↔ ∃ e filename,
           e ∈ walk_entries w ∧ filename ∈ e.2
           ∧ xse_collision lower (xse_scriptfiles s) (joinrel mp (relative e.1.1)) filename
           ∧ line = directory_line e).
Proof.
  intros Hfair Hmp Hwalk.
  assert (Hex : ∀ e : walk_entry,
    existsb (xse_taken lower (xse_scriptfiles s) (joinrel mp (relative e.1.1))) e.2 = true
    ↔ ∃ filename, filename ∈ e.2
                  ∧ xse_collision lower (xse_scriptfiles s)
                      (joinrel mp (relative e.1.1)) filename).
  { intros e. rewrite existsb_exists.
    split; intros (f & Hin & Hc); exists f;
      rewrite ?list_elem_of_In in *; by rewrite ?xse_taken_spec in *. }
  split.
  - intros e. rewrite live_process_directory_xse. split.
    + intros H. apply Hex in H. by rewrite H.
    + intros H. destruct (existsb _ e.2) eqn:E; [|done].
      exfalso. by apply H, Hex.
  - intros line.
    rewrite (live_registry_on_the_spot lower upper sched s w mp) by
      (done || apply (bool_decide_unpack _); by vm_compute).
    split.
    + intros (e & He & H). apply elem_of_added_lines in H.
      rewrite live_process_directory_xse in H.
      destruct (existsb _ e.2) eqn:E; [|by apply elem_of_nil in H].
      apply list_elem_of_singleton in H. apply Hex in E as (f & Hf & Hc).
      by exists e, f.
    + intros (e & f & He & Hf & Hc & ->). exists e. split; [done|].
      apply elem_of_added_lines. rewrite live_process_directory_xse.
      assert (E : existsb (xse_taken lower (xse_scriptfiles s)
                             (joinrel mp (relative e.1.1))) e.2 = true)
        by (apply Hex; by exists f).
      rewrite E. apply list_elem_of_here.
Qed.

Lemma xse_collision_rule_witness :
  fair sched_rev
  ∧ mod_path (Sample.settings false) = Some Sample.mods
  ∧ walk_fails Sample.world = false
  ∧ ("  - ModA" +:+ nl)
    ∈ issues_get "xse_file"
        (Live.scan_mods_unpacked_issues Py.lower Py.upper sched_rev
           (Sample.settings false) Sample.world).
Proof.
  split; [exact fair_rev|]. do 2 (split; [reflexivity|]).
  apply (xse_collision_rule Py.lower Py.upper sched_rev (Sample.settings false)
           Sample.world Sample.mods fair_rev eq_refl eq_refl).
  exists (["ModA"; "Scripts"], [], ["Actor.pex"; "form.PEX"; "x.uvd"; "y_oc.nif"]),
    "Actor.pex".
  split; [apply list_elem_of_further, list_elem_of_here|].
  split; [apply list_elem_of_here|].
  split; [|reflexivity].
  apply xse_taken_spec. vm_compute. reflexivity.
Defined.

(** ** Dry runs *)

Lemma registry_ignores_fs_ops effs (r : issue_dict) :
  foldl apply_effect r effs = foldl apply_effect r (issue_effects effs).
Proof.
  unfold issue_effects. revert r. induction effs as [|e effs IH]; intros r; [done|].
  rewrite filter_cons. destruct e; simpl; apply IH.
Qed.

Lemma issue_effects_app effs1 effs2 :
  issue_effects (effs1 ++ effs2) = issue_effects effs1 ++ issue_effects effs2.
Proof. apply filter_app. Qed.

Lemma issue_effects_concat (l : list (list effect)) :
  issue_effects (concat l) = concat (map issue_effects l).
Proof.
  induction l as [|x l IH]; [done|]. simpl. by rewrite issue_effects_app, IH.
Qed.

Lemma fs_ops_nil_iff effs :
  filter (fun e => is_fs_op e = true) effs = [] ↔ Forall (fun e => is_fs_op e = false) effs.
Proof.
  induction effs as [|e effs IH]; [by split; [constructor|]|].
  rewrite filter_cons, Forall_cons. destruct e; simpl.
  - rewrite IH. split; [by split|by intros [_ ?]].
  - split; [done|by intros [? _]].
  - split; [done|by intros [? _]].
Qed.

Section DryRun.
Variables (s : Settings) (w : World).
Hypothesis Htest : TEST_MODE s = true.

Lemma move_fomod_dry backup_path rel root dirname :
  ScanGameCore._move_fomod_async s w backup_path rel root dirname
  = [AddIssue "cleanup" ("  - " +:+ path_str (relative (rel ++ [dirname])) +:+ nl)].
Proof. unfold ScanGameCore._move_fomod_async. by rewrite Htest. Qed.

Lemma move_file_dry backup_path relative_path file_path :
  ScanGameCore._move_file_async s w backup_path relative_path file_path
  = [AddIssue "cleanup" ("  - " +:+ path_str relative_path +:+ nl)].
Proof. unfold ScanGameCore._move_file_async. by rewrite Htest. Qed.

Lemma check_single_dds_no_fs file_path relative_path :
  Forall (fun e => is_fs_op e = false)
    (ScanGameCore.check_single_dds w file_path relative_path).
Proof.
  unfold ScanGameCore.check_single_dds.
  repeat match goal with
         | |- context [match ?x with _ => _ end] => destruct x
         end; repeat constructor.
Qed.

(** With moves enabled and succeeding, the lines added are those of
    the dry run. *)
Hypothesis Hmoves : ∀ p, try_move w p = MoveOk.

Lemma move_fomod_wet backup_path rel root dirname :
  issue_effects
    (ScanGameCore._move_fomod_async (with_test_mode false s) w backup_path rel root dirname)
  = ScanGameCore._move_fomod_async s w backup_path rel root dirname.
Proof.
  rewrite move_fomod_dry. unfold ScanGameCore._move_fomod_async.
  cbn [TEST_MODE with_test_mode negb]. by rewrite Hmoves.
Qed.

Lemma move_file_wet backup_path relative_path file_path :
  issue_effects
    (ScanGameCore._move_file_async (with_test_mode false s) w backup_path relative_path
       file_path)
  = ScanGameCore._move_file_async s w backup_path relative_path file_path.
Proof.
  rewrite move_file_dry. unfold ScanGameCore._move_file_async.
  cbn [TEST_MODE with_test_mode negb]. by rewrite Hmoves.
Qed.

End DryRun.

Lemma issue_effects_id effs :
  Forall (fun e => is_fs_op e = false) effs → issue_effects effs = effs.
Proof.
  intros H. unfold issue_effects. induction H as [|x l Hx _ IH]; [done|].
  by rewrite filter_cons_True, IH.
Qed.

Lemma issue_effects_fs e effs :
  is_fs_op e = true → issue_effects (e :: effs) = issue_effects effs.
Proof.
  intros H. unfold issue_effects. rewrite filter_cons_False; [done|]. by rewrite H.
Qed.

Lemma Forall_concat_map {A B} (P : B → Prop) (f : A → list B) (l : list A) :
  (∀ x, Forall P (f x)) → Forall P (concat (map f l)).
Proof.
  intros H. induction l as [|x l IH]; simpl; [constructor|].
  apply Forall_app. by split.
Qed.

Lemma task_effects_dry s w backup_path t :
  TEST_MODE s = true →
  Forall (fun e => is_fs_op e = false) (task_effects s w backup_path t).
Proof.
  intros Ht.
  destruct t as [k line|rel root dirname|relative_path file_path|file_path relative_path];
    cbn [task_effects].
  - by repeat constructor.
  - rewrite move_fomod_dry by done. by repeat constructor.
  - rewrite move_file_dry by done. by repeat constructor.
  - apply check_single_dds_no_fs.
Qed.

Lemma task_effects_wet s w backup_path t :
  TEST_MODE s = true → (∀ p, try_move w p = MoveOk) →
  issue_effects (task_effects (with_test_mode false s) w backup_path t)
  = task_effects s w backup_path t.
Proof.
  intros Ht Hmoves.
  destruct t as [k line|rel root dirname|relative_path file_path|file_path relative_path];
    cbn [task_effects].
  - done.
  - by apply move_fomod_wet.
  - by apply move_file_wet.
  - apply issue_effects_id, check_single_dds_no_fs.
Qed.

Section Loops.
Variables lower upper : string → string.

Lemma dirs_loop_fomod rel root root_main dirs ha dirname :
  dirname ∈ dirs → lower dirname = "fomod" →
  Live.MoveFomod rel root dirname ∈ (Live.dirs_loop lower rel root root_main dirs ha).2.
Proof.
  intros Hin Hfomod. revert ha.
  induction dirs as [|d rest IH]; intros ha; [by apply elem_of_nil in Hin|].
  cbn [Live.dirs_loop]. cbn zeta.
  apply elem_of_cons in Hin as [<-|Hin].
  - rewrite Hfomod. cbn [String.eqb Ascii.eqb Bool.eqb andb].
    rewrite andb_false_r. cbn [snd]. apply list_elem_of_here.
  - destruct (negb ha && String.eqb (lower d) "animationfiledata"); [by apply IH|].
    destruct (String.eqb (lower d) "fomod"); [|by apply IH].
    cbn [snd]. apply list_elem_of_further. by apply IH.
Qed.

Lemma files_loop_doc xse_files rel root root_main files hx hp filename :
  filename ∈ files →
  Py.endswith ".txt" (lower filename) = true →
  existsb (fun name => Py.contains name (lower filename)) filter_names = true →
  Live.MoveFile (relative (rel ++ [filename])) (joinpath root filename)
  ∈ Live.file_tasks (Live.files_loop lower upper xse_files rel root root_main files hx hp).
Proof.
  intros Hin Htxt Hname. revert hx hp.
  induction files as [|f rest IH]; intros hx hp; [by apply elem_of_nil in Hin|].
  cbn [Live.files_loop]. cbn zeta.
  apply elem_of_cons in Hin as [<-|Hin].
  - rewrite Htxt, Hname. cbn [andb Live.file_tasks]. apply list_elem_of_here.
  - repeat match goal with
           | |- context [if ?c then _ else _] => destruct c
           end; cbn [Live.file_tasks];
      try apply list_elem_of_further; by apply IH.
Qed.

End Loops.

(** In a dry run the line of every move task is in the clean-up set. *)
Lemma dry_run_records lower upper (sched : schedule) s w mp e t :
  fair sched → TEST_MODE s = true → mod_path s = Some mp → walk_fails w = false →
  e ∈ walk_entries w →
  t ∈ Live.process_directory lower upper (xse_scriptfiles s) mp e →
  ∀ line, AddIssue "cleanup" line ∈ task_effects s w (backup_folder s) t →
  line ∈ issues_get "cleanup" (Live.scan_mods_unpacked_issues lower upper sched s w).
Proof.
  intros Hfair Htest Hmp Hwalk He Ht line Hline.
  unfold Live.scan_mods_unpacked_issues.
  apply apply_effects_elem; [|rewrite keys_new_issue_lists; apply list_elem_of_here].
  rewrite (unpacked_run_in_place _ _ _ _ _ mp) by (done || by apply unpacked_run_dry).
  apply elem_of_app. right. apply elem_of_concat_map. exists t.
  split; [by eapply scheduled_tasks_complete|done].
Qed.

(** A run with moves enabled in which every move succeeds and every
    task finds its file or folder ends with the issue sets of a dry
    run. *)
Lemma dry_wet_issues lower upper (sched sched' : schedule) s w :
  fair sched → fair sched' → TEST_MODE s = true → (∀ p, try_move w p = MoveOk) →
  Live.undisturbed
    (Live.scan_mods_unpacked_run lower upper sched' (with_test_mode false s) w) = true →
  Live.scan_mods_unpacked_issues lower upper sched s w
  = Live.scan_mods_unpacked_issues lower upper sched' (with_test_mode false s) w.
Proof.
  intros Hs Hs' Htest Hmoves Hwet.
  destruct (unpacked_run_dry lower upper sched s w Htest) as [_ Hund].
  unfold Live.scan_mods_unpacked_issues.
  destruct (mod_path s) as [mp|] eqn:Hmp.
  2: { rewrite !unpacked_run_idle by (by left). by rewrite Htest. }
  destruct (walk_fails w) eqn:Hwalk.
  { rewrite !unpacked_run_idle by (by right). by rewrite Htest. }
  rewrite (unpacked_run_in_place _ _ _ _ _ mp Hmp Hwalk Hund).
  rewrite (unpacked_run_in_place lower upper sched' (with_test_mode false s) w mp Hmp Hwalk Hwet).
  rewrite Htest. cbn [TEST_MODE with_test_mode negb app].
  change (backup_folder (with_test_mode false s)) with (backup_folder s).
  rewrite (registry_ignores_fs_ops (_ :: _)).
  rewrite issue_effects_fs by done.
  rewrite issue_effects_concat, map_map.
  rewrite (map_ext _ _ (fun t => task_effects_wet s w (backup_folder s) t Htest Hmoves)).
  rewrite scheduled_tasks_test_mode.
  apply registry_order_irrelevant.
  by apply concat_map_perm_arg, scheduled_tasks_perm.
Qed.

(** C8, as stated, fails.  In the mod whose [fomod] folder holds the
    texture [a.dds] every move succeeds; the dry run reports the
    texture's odd width, and the run with moves enabled in which the
    folder is moved before the texture is opened does not. *)
Lemma dry_report_differs_from_wet :
  (∀ p, try_move fomod_texture_world p = MoveOk)
  ∧ fair sched_rev
  ∧ sorted (issues_get "tex_dims"
              (Live.scan_mods_unpacked_issues Py.lower Py.upper sched_rev
                 (Sample.settings true) fomod_texture_world))
    = ["  - ModA\fomod\a.dds (101x200)"]
  ∧ sorted (issues_get "tex_dims"
              (Live.scan_mods_unpacked_issues Py.lower Py.upper sched_rev
                 (with_test_mode false (Sample.settings true)) fomod_texture_world))
    = []
  ∧ Live.scan_mods_unpacked Py.lower Py.upper sched_rev (Sample.settings true)
      fomod_texture_world
    ≠ Live.scan_mods_unpacked Py.lower Py.upper sched_rev
        (with_test_mode false (Sample.settings true)) fomod_texture_world.
Proof.
  split; [done|]. split; [exact fair_rev|].
  split; [by vm_compute|]. split; [by vm_compute|].
  vm_compute. discriminate.
Qed.

(** C8, amended. In dry-run mode the loose-file scan makes no call that
    changes the filesystem (no directory is made, nothing is moved, so
    that every file and folder stays where the walk saw it), the move
    tasks do nothing but record the clean-up line, and the line of
    every folder named [fomod] and of every documentation file is in
    the clean-up set of the report.  The report equals the one of a run
    with moves enabled in which every move succeeds, provided every
    task of that run finds its file or folder where the walk saw it. *)
Theorem dry_run_changes_nothing (lower upper : string → string) (sched sched' : schedule)
    (s : Settings) (w : World) :
  fair sched → fair sched' → TEST_MODE s = true →
  Live.scan_mods_unpacked_fs_ops lower upper sched s w = []
  ∧ Live.moved (Live.scan_mods_unpacked_run lower upper sched s w) = []
  ∧ (∀ backup_path r rel root dirname,
       Live._move_fomod_async s w backup_path r rel root dirname
       = Live.mkRun (Live.moved r)
           (Live.effects r
            ++ [AddIssue "cleanup"
                  ("  - " +:+ path_str (relative (rel ++ [dirname])) +:+ nl)])
           (Live.undisturbed r))
  ∧ (∀ backup_path r relative_path file_path,
       Live._move_file_async s w backup_path r relative_path file_path
       = Live.mkRun (Live.moved r)
           (Live.effects r
            ++ [AddIssue "cleanup" ("  - " +:+ path_str relative_path +:+ nl)])
           (Live.undisturbed r))
  ∧ (∀ mp e name,
       mod_path s = Some mp → walk_fails w = false → e ∈ walk_entries w →
       (name ∈ e.1.2 ∧ lower name = "fomod"
        ∨ name ∈ e.2 ∧ Py.endswith ".txt" (lower name) = true
          ∧ ∃ part, part ∈ filter_names ∧ Py.contains part (lower name) = true) →
       ("  - " +:+ path_str (relative (e.1.1 ++ [name])) +:+ nl)
       ∈ issues_get "cleanup" (Live.scan_mods_unpacked_issues lower upper sched s w))
  ∧ ((∀ p, try_move w p = MoveOk) →
     Live.undisturbed
       (Live.scan_mods_unpacked_run lower upper sched' (with_test_mode false s) w) = true →
     Live.scan_mods_unpacked lower upper sched s w
     = Live.scan_mods_unpacked lower upper sched' (with_test_mode false s) w).
Proof.
  intros Hs Hs' Htest.
  destruct (unpacked_run_dry lower upper sched s w Htest) as [Hmoved Hund].
  split; [|split; [done|split; [|split; [|split]]]].
  - unfold Live.scan_mods_unpacked_fs_ops. apply fs_ops_nil_iff.
    destruct (mod_path s) as [mp|] eqn:Hmp;
      [|rewrite unpacked_run_idle by (by left); rewrite Htest; constructor].
    destruct (walk_fails w) eqn:Hwalk;
      [rewrite unpacked_run_idle by (by right); rewrite Htest; constructor|].
    rewrite (unpacked_run_in_place _ _ _ _ _ mp) by done.
    rewrite Htest. cbn [negb app].
    apply Forall_concat_map. intros t. by apply task_effects_dry.
  - intros. unfold Live._move_fomod_async. by rewrite Htest.
  - intros. unfold Live._move_file_async. by rewrite Htest.
  - intros mp e name Hmp Hwalk He Hname.
    destruct Hname as [[Hin Hfomod]|(Hin & Htxt & part & Hpart & Hcont)].
    + apply (dry_run_records lower upper sched s w mp e
               (Live.MoveFomod e.1.1 (joinrel mp (relative e.1.1)) name));
        [done..| |].
      * unfold Live.process_directory. cbn zeta.
        apply elem_of_app. right. apply elem_of_app. left.
        by apply dirs_loop_fomod.
      * cbn [task_effects]. rewrite move_fomod_dry by done. apply list_elem_of_here.
    + apply (dry_run_records lower upper sched s w mp e
               (Live.MoveFile (relative (e.1.1 ++ [name]))
                  (joinpath (joinrel mp (relative e.1.1)) name)));
        [done..| |].
      * unfold Live.process_directory. cbn zeta.
        apply elem_of_app. right. apply elem_of_app. right.
        apply elem_of_app. right. apply elem_of_app. left.
        apply files_loop_doc; [done|done|].
        apply existsb_exists. exists part. split; [by apply list_elem_of_In|done].
      * cbn [task_effects]. rewrite move_file_dry by done. apply list_elem_of_here.
  - intros Hmoves Hwet.
    unfold Live.scan_mods_unpacked, Live.scan_mods_unpacked_outcome.
    cbn [mod_path xse_acronym with_test_mode].
    by rewrite (dry_wet_issues lower upper sched sched' s w).
Qed.

Lemma dry_run_changes_nothing_witness :
  fair sched_id ∧ fair sched_rev ∧ TEST_MODE (Sample.settings true) = true
  ∧ Live.scan_mods_unpacked_fs_ops Py.lower Py.upper sched_id (Sample.settings true)
      fomod_texture_world = []
  ∧ Live.scan_mods_unpacked Py.lower Py.upper sched_id (Sample.settings true)
      fomod_texture_world
    = Live.scan_mods_unpacked Py.lower Py.upper sched_id
        (with_test_mode false (Sample.settings true)) fomod_texture_world.
Proof.
  split; [exact fair_id|]. split; [exact fair_rev|]. split; [reflexivity|].
  pose proof (dry_run_changes_nothing Py.lower Py.upper sched_id sched_id
                (Sample.settings true) fomod_texture_world fair_id fair_id eq_refl)
    as (H1 & _ & _ & _ & _ & H6).
  split; [exact H1|]. apply H6; [done|]. by vm_compute.
Defined.

(** ** The two archive scans *)

Lemma async_archived_issues_same (sched sched' : schedule) s w mp :
  fair sched → fair sched' →
  AsyncScanGame.scan_mods_archived_async_issues sched s w mp
  = ScanGameCore.scan_mods_archived_issues sched' s w mp.
Proof.
  intros H H'. unfold AsyncScanGame.scan_mods_archived_async_issues,
    ScanGameCore.scan_mods_archived_issues.
  rewrite !gather_fair by done. reflexivity.
Qed.

(** C10. The class-based archive scan and the free-function archive
    scan return the same report for the same settings, filesystem
    snapshot and tool behaviour, whatever order their tasks complete
    in, given that the [get_issue_messages] the free function imports
    from [CLASSIC_ScanGame] hands out the templates of the class method
    for the archive mode. *)
Theorem archived_variants_agree
    (imported_get_issue_messages : string → scan_mode → gmap string (list string))
    (sched sched' : schedule) (s : Settings) (w : World) :
  (∀ acronym,
     imported_get_issue_messages acronym Archived
     = ScanGameCore.get_issue_messages acronym Archived) →
  fair sched → fair sched' →
  AsyncScanGame.scan_mods_archived_async imported_get_issue_messages sched s w
  = ScanGameCore.scan_mods_archived sched' s w.
Proof.
  intros Hmsg H H'.
  unfold AsyncScanGame.scan_mods_archived_async,
    AsyncScanGame.scan_mods_archived_async_outcome,
    ScanGameCore.scan_mods_archived, ScanGameCore.scan_mods_archived_outcome.
  destruct (mod_path s) as [mp|]; [|done].
  by rewrite Hmsg, (async_archived_issues_same sched sched' s w mp H H').
Qed.

Lemma archived_variants_agree_witness :
  (∀ acronym,
     ScanGameCore.get_issue_messages acronym Archived
     = ScanGameCore.get_issue_messages acronym Archived)
  ∧ fair sched_id ∧ fair sched_rev
  ∧ AsyncScanGame.scan_mods_archived_async ScanGameCore.get_issue_messages sched_id
      (Sample.settings true) Sample.world
    = ScanGameCore.scan_mods_archived sched_rev (Sample.settings true) Sample.world.
Proof.
  split; [reflexivity|]. split; [exact fair_id|]. split; [exact fair_rev|].
  exact (archived_variants_agree ScanGameCore.get_issue_messages sched_id sched_rev
           (Sample.settings true) Sample.world (fun _ => eq_refl) fair_id fair_rev).
Defined.

(** * Further properties of the scans *)

(** ** Waves of directories *)

(** X1. Cutting the directory tasks into waves loses nothing: the waves
    put end to end are the task list again, in order, and every wave
    holds between one and [batch_size] tasks. *)
Theorem batches_cover {A} (batch_size : nat) (tasks : list A) :
  0 < batch_size →
  concat (batches batch_size tasks) = tasks
  ∧ Forall (fun batch => 0 < length batch ≤ batch_size) (batches batch_size tasks).
Proof.
  intros Hn. by apply (batches_spec batch_size Hn (length tasks)).
Qed.

Lemma batches_cover_witness :
  0 < 50
  ∧ concat (batches 50 (walk_entries Sample.world)) = walk_entries Sample.world.
Proof.
  assert (H : 0 < 50) by lia. split; [exact H|].
  exact (proj1 (batches_cover 50 (walk_entries Sample.world) H)).
Defined.

(** ** The registry is the union of the contributions *)

Lemma merge_dict_inv k line (d r : issue_dict) :
  line ∈ issues_get k (foldl (fun acc e => issues_update e.1 e.2 acc) r d) →
  line ∈ issues_get k r ∨ ∃ items, (k, items) ∈ d ∧ line ∈ items.
Proof.
  revert r. induction d as [|[k' items'] d IH]; intros r; simpl; [by left|].
  intros [H|(items & Hin & Hl)]%IH.
  - apply issues_get_update_inv in H as [H|[-> H]]; [by left|].
    right. exists items'. split; [apply list_elem_of_here|done].
  - right. exists items. split; [by apply list_elem_of_further|done].
Qed.

Lemma merge_results_inv k line results (r : issue_dict) :
  line ∈ issues_get k (foldl ScanGameCore.merge_result r results) →
  line ∈ issues_get k r
  ∨ ∃ d items, Some (Returned d) ∈ results ∧ (k, items) ∈ d ∧ line ∈ items.
Proof.
  revert r. induction results as [|x results IH]; intros r; simpl; [by left|].
  intros [H|(d & items & Hin & Hd & Hl)]%IH.
  - destruct x as [[d|]|]; simpl in H; [|by left|by left].
    apply merge_dict_inv in H as [H|(items & Hd & Hl)]; [by left|].
    right. exists d, items. split; [apply list_elem_of_here|done].
  - right. exists d, items. split; [by apply list_elem_of_further|done].
Qed.

Lemma issues_get_of_entry k items (d : issue_dict) :
  NoDup (map fst d) → (k, items) ∈ d → issues_get k d = items.
Proof.
  induction d as [|[k' items'] d IH]; simpl; intros Hnd Hin.
  { by apply elem_of_nil in Hin. }
  apply NoDup_cons in Hnd as [Hk' Hnd].
  apply elem_of_cons in Hin as [[= <- <-]|Hin].
  - by rewrite decide_True.
  - rewrite decide_False; [by apply IH|].
    intros ->. apply Hk'. apply list_elem_of_In, in_map_iff.
    exists (k, items). split; [done|by apply list_elem_of_In].
Qed.

Lemma keys_process_single_ba2 s w file_path filename d :
  (ScanGameCore.process_single_ba2 s w file_path filename).2 = Returned d →
  map fst d = ba2_keys.
Proof.
  unfold ScanGameCore.process_single_ba2.
  assert (Hnew : map fst (new_issue_lists ba2_keys) = ba2_keys)
    by apply keys_new_issue_lists.
  destruct (read_bytes w file_path) as [content|]; cbn [snd];
    [|by intros <-%Returned_inj].
  destruct (bad_ba2_header (take 12 content)); cbn [snd].
  { intros <-%Returned_inj. unfold issues_add. by rewrite keys_issues_update. }
  destruct (bool_decide (drop 8 (take 12 content) = Py.b "DX10")); cbn [snd].
  - cbn [create_subprocess_exec]. by intros <-%Returned_inj.
  - cbn [create_subprocess_exec]. by intros <-%Returned_inj.
Qed.

Lemma NoDup_ba2_keys : NoDup ba2_keys.
Proof. apply (bool_decide_unpack (NoDup ba2_keys)). vm_compute. exact I. Qed.

Lemma archived_registry_sound (sched : schedule) s w mp k line :
  fair sched →
  line ∈ issues_get k (ScanGameCore.scan_mods_archived_issues sched s w mp) →
  ∃ f d, f ∈ collect_ba2 mp (walk_entries w)
         ∧ (ScanGameCore.process_single_ba2 s w f.1 f.2).2 = Returned d
         ∧ line ∈ issues_get k d.
Proof.
  intros Hfair. unfold ScanGameCore.scan_mods_archived_issues.
  rewrite gather_fair by done.
  intros [H|(d & items & Hin & Hd & Hl)]%merge_results_inv.
  { rewrite issues_get_new in H. by apply not_elem_of_empty in H. }
  apply list_elem_of_fmap in Hin as (r & [= <-] & Hin).
  apply list_elem_of_In, in_map_iff in Hin as (f & Hf & Hin).
  exists f, d. split; [by apply list_elem_of_In|]. split; [done|].
  rewrite (issues_get_of_entry k items d); [done| |done].
  rewrite (keys_process_single_ba2 _ _ _ _ _ Hf). apply NoDup_ba2_keys.
Qed.

Lemma archived_registry_complete (sched : schedule) s w mp k line f d :
  fair sched → k ∈ ba2_keys →
  f ∈ collect_ba2 mp (walk_entries w) →
  (ScanGameCore.process_single_ba2 s w f.1 f.2).2 = Returned d →
  line ∈ issues_get k d →
  line ∈ issues_get k (ScanGameCore.scan_mods_archived_issues sched s w mp).
Proof.
  intros Hfair Hk Hf Hd Hl. unfold ScanGameCore.scan_mods_archived_issues.
  rewrite gather_fair by done.
  apply (merge_results_elem k line d); [|done|by rewrite keys_new_issue_lists].
  apply list_elem_of_fmap. exists (Returned d). split; [done|].
  rewrite <- Hd. apply list_elem_of_In, in_map_iff. exists f.
  split; [done|by apply list_elem_of_In].
Qed.

(** X2. Once all archive tasks are gathered, a category of the
    registry holds exactly the lines that some archive task returned
    under it: nothing is lost and nothing is made up by the merge. *)
Theorem archived_registry_is_union (sched : schedule) (s : Settings) (w : World)
    (mp : Path) (k line : string) :
  fair sched → k ∈ ba2_keys →
  line ∈ issues_get k (ScanGameCore.scan_mods_archived_issues sched s w mp)
  ↔ ∃ f d, f ∈ collect_ba2 mp (walk_entries w)
           ∧ (ScanGameCore.process_single_ba2 s w f.1 f.2).2 = Returned d
           ∧ line ∈ issues_get k d.
Proof.
  intros Hfair Hk. split.
  - by apply archived_registry_sound.
  - intros (f & d & Hf & Hd & Hl). by eapply archived_registry_complete.
Qed.

Lemma archived_registry_is_union_witness :
  fair sched_rev ∧ "ba2_frmt" ∈ ba2_keys
  ∧ ("  - broken.ba2 : b'BTDX\x01\x00\x00\x00GNR'" +:+ nl)
    ∈ issues_get "ba2_frmt"
        (ScanGameCore.scan_mods_archived_issues sched_rev (Sample.settings true)
           Sample.world Sample.mods).
Proof.
  assert (Hk : "ba2_frmt" ∈ ba2_keys) by (apply (bool_decide_unpack _); by vm_compute).
  split; [exact fair_rev|]. split; [exact Hk|].
  apply (archived_registry_is_union sched_rev (Sample.settings true) Sample.world
           Sample.mods "ba2_frmt" _ fair_rev Hk).
  exists (joinpath (joinpath Sample.mods "ModA") "broken.ba2", "broken.ba2").
  eexists. split; [|split; [reflexivity|]].
  - apply (bool_decide_unpack _). by vm_compute.
  - apply (bool_decide_unpack _). by vm_compute.
Defined.






(** ** What an archive can be reported for *)


Lemma texture_archive_categories s w file_path filename content d k :
  read_bytes w file_path = Some content →
  bad_ba2_header (take 12 content) = false →
  drop 8 (take 12 content) = Py.b "DX10" →
  (ScanGameCore.process_single_ba2 s w file_path filename).2 = Returned d →
  k ≠ "tex_frmt" → k ≠ "tex_dims" → issues_get k d = ∅.
Proof.
  intros Hread Hbad Hdx. unfold ScanGameCore.process_single_ba2. rewrite Hread, Hbad.
  rewrite bool_decide_eq_true_2 by done. cbn [snd create_subprocess_exec].
  intros Hd Hf Ht. apply Returned_inj in Hd as <-. apply issues_get_new.
Qed.

Lemma general_archive_categories s w file_path filename content d k :
  read_bytes w file_path = Some content →
  bad_ba2_header (take 12 content) = false →
  drop 8 (take 12 content) ≠ Py.b "DX10" →
  (ScanGameCore.process_single_ba2 s w file_path filename).2 = Returned d →
  k ≠ "snd_frmt" → k ≠ "animdata" → k ≠ "xse_file" → k ≠ "previs" →
  issues_get k d = ∅.
Proof.
  intros Hread Hbad Hg. unfold ScanGameCore.process_single_ba2. rewrite Hread, Hbad.
  rewrite bool_decide_eq_false_2 by done. cbn [snd create_subprocess_exec].
  intros Hd ? ? ? ?. apply Returned_inj in Hd as <-. apply issues_get_new.
Qed.



(** ** Runs of the tool that give nothing *)


Lemma ba2_frmt_of_archive s w file_path filename d :
  (ScanGameCore.process_single_ba2 s w file_path filename).2 = Returned d →
  issues_get "ba2_frmt" d
  = match read_bytes w file_path with
    | Some content =>
        if bad_ba2_header (take 12 content)
        then {[ ba2_frmt_line filename (take 12 content) ]} else ∅
    | None => ∅
    end.
Proof.
  intros Hd. destruct (read_bytes w file_path) as [content|] eqn:Hread.
  - destruct (bad_ba2_header (take 12 content)) eqn:Hbad.
    + unfold ScanGameCore.process_single_ba2 in Hd. rewrite Hread, Hbad in Hd.
      cbn [snd] in Hd. apply Returned_inj in Hd as <-.
      unfold issues_add. rewrite issues_get_update_eq.
      * rewrite issues_get_new. apply (left_id_L ∅ (∪)).
      * rewrite keys_new_issue_lists. apply (bool_decide_unpack _). by vm_compute.
    + destruct (decide (drop 8 (take 12 content) = Py.b "DX10")) as [Hdx|Hg].
      * by eapply texture_archive_categories.
      * by eapply general_archive_categories.
  - unfold ScanGameCore.process_single_ba2 in Hd. rewrite Hread in Hd.
    cbn [snd] in Hd. apply Returned_inj in Hd as <-. apply issues_get_new.
Qed.

(** X5. The archive-format category of the archive scan holds exactly
    the lines of the collected archives that could be read and whose
    first 12 bytes are not a known header; the tool has no part in it. *)
Theorem archive_format_lines (sched : schedule) (s : Settings) (w : World) (mp : Path)
    (line : string) :
  fair sched →
  line ∈ issues_get "ba2_frmt" (ScanGameCore.scan_mods_archived_issues sched s w mp)
  ↔ ∃ f content, f ∈ collect_ba2 mp (walk_entries w)
                 ∧ read_bytes w f.1 = Some content
                 ∧ bad_ba2_header (take 12 content) = true
                 ∧ line = ba2_frmt_line f.2 (take 12 content).
Proof.
  intros Hfair.
  split.
  - intros (f & d & Hf & Hd & Hl)%archived_registry_sound; [|done].
    rewrite (ba2_frmt_of_archive _ _ _ _ _ Hd) in Hl.
    destruct (read_bytes w f.1) as [content|] eqn:Hread;
      [|by apply not_elem_of_empty in Hl].
    destruct (bad_ba2_header (take 12 content)) eqn:Hbad;
      [|by apply not_elem_of_empty in Hl].
    apply elem_of_singleton in Hl. by exists f, content.
  - intros (f & content & Hf & Hread & Hbad & ->).
    eapply (archived_registry_complete sched s w mp _ _ f); [done| |done| |].
    { apply (bool_decide_unpack _). by vm_compute. }
    { unfold ScanGameCore.process_single_ba2. rewrite Hread, Hbad. reflexivity. }
    unfold issues_add. apply issues_get_update_elem.
    + rewrite keys_new_issue_lists. apply (bool_decide_unpack _). by vm_compute.
    + by apply elem_of_singleton.
Qed.

Lemma archive_format_lines_witness :
  fair sched_id
  ∧ ("  - broken.ba2 : b'BTDX\x01\x00\x00\x00GNR'" +:+ nl)
    ∈ issues_get "ba2_frmt"
        (ScanGameCore.scan_mods_archived_issues sched_id (Sample.settings true)
           Sample.world Sample.mods).
Proof.
  split; [exact fair_id|].
  apply (archive_format_lines sched_id (Sample.settings true) Sample.world Sample.mods
           _ fair_id).
  exists (joinpath (joinpath Sample.mods "ModA") "broken.ba2", "broken.ba2").
  eexists. split; [apply (bool_decide_unpack _); by vm_compute|].
  split; [reflexivity|]. split; reflexivity.
Defined.



(** ** Script-extender exemptions *)

Lemma xse_test_exempt s root filename :
  xse_scriptfiles s = []
  ∨ Py.contains "workshop framework" (Py.lower (path_str root)) = true →
  ScanGameCore.xse_test s root filename = false.
Proof.
  unfold ScanGameCore.xse_test. intros [->| ->]; [done|].
  cbn [negb]. by rewrite andb_false_r.
Qed.

(** X7. Script-extender files are never reported for a folder whose
    path contains "workshop framework" in any letter case, nor when no
    script-extender file names are configured: neither for the
    archives that lie in the folder nor for the folder's loose files. *)
Theorem xse_exemptions (s : Settings) (w : World) (folder : Path) :
  xse_scriptfiles s = []
  ∨ Py.contains "workshop framework" (Py.lower (path_str folder)) = true →
  (∀ file_path filename d,
     parent file_path = folder →
     (ScanGameCore.process_single_ba2 s w file_path filename).2 = Returned d →
     issues_get "xse_file" d = ∅)
  ∧ (∀ mp backup_path (e : walk_entry),
       joinrel mp (relative e.1.1) = folder →
       issue_lines "xse_file" (ScanGameCore.process_directory s w mp backup_path e) = []).
Proof.
  intros Hex. split.
  - intros file_path filename d <-.
    unfold ScanGameCore.process_single_ba2.
    destruct (read_bytes w file_path) as [content|]; cbn [snd];
      [|intros <-%Returned_inj; apply issues_get_new].
    destruct (bad_ba2_header (take 12 content)) eqn:Hbad; cbn [snd].
    { intros <-%Returned_inj. unfold issues_add.
      rewrite issues_get_update_ne by done. apply issues_get_new. }
    destruct (bool_decide (drop 8 (take 12 content) = Py.b "DX10")); cbn [snd].
    + cbn [create_subprocess_exec]. intros <-%Returned_inj. apply issues_get_new.
    + cbn [create_subprocess_exec]. intros <-%Returned_inj. apply issues_get_new.
  - intros mp backup_path e <-.
    rewrite process_directory_lines by done.
    rewrite dirs_loop_added_other by done.
    rewrite files_loop_xse.
    replace (existsb _ e.2) with false; [done|].
    symmetry. apply not_true_is_false. intros (x & _ & Hx)%existsb_exists.
    unfold xse_candidate in Hx. rewrite xse_test_exempt in Hx by done.
    by rewrite andb_false_r in Hx.
Qed.

Lemma xse_exemptions_witness :
  Py.contains "workshop framework"
    (Py.lower (path_str (mkPath "C:\" ["Mods"; "Workshop Framework"]))) = true
  ∧ issue_lines "xse_file"
      (ScanGameCore.process_directory (Sample.settings true) Sample.world Sample.mods
         (mkPath "C:\" ["Backup"])
         (["Workshop Framework"; "Scripts"], [], ["Actor.pex"])) = [].
Proof.
  assert (H : Py.contains "workshop framework"
                (Py.lower (path_str (mkPath "C:\" ["Mods"; "Workshop Framework"; "Scripts"])))
              = true) by reflexivity.
  split; [reflexivity|].
  exact (proj2 (xse_exemptions (Sample.settings true) Sample.world
                  (mkPath "C:\" ["Mods"; "Workshop Framework"; "Scripts"]) (or_intror H))
           Sample.mods (mkPath "C:\" ["Backup"])
           (["Workshop Framework"; "Scripts"], [], ["Actor.pex"]) eq_refl).
Defined.

(** ** Loose files of an unwanted format *)

Lemma files_loop_tex s w backup_path rel root root_main files hx hp :
  issue_lines "tex_frmt"
    (ScanGameCore.added
       (ScanGameCore.files_loop s w backup_path rel root root_main files hx hp))
  = map (loose_format_line rel) (List.filter (tex_frmt_file root) files).
Proof.
  revert hx hp. induction files as [|filename rest IH]; intros hx hp; [done|].
  cbn [ScanGameCore.files_loop List.filter].
  unfold tex_frmt_file at 1. unfold doc_file. cbn zeta.
  destruct (Py.endswith ".txt" (Py.lower filename)
            && existsb (fun name => Py.contains name (Py.lower filename)) filter_names).
  { cbn [negb andb ScanGameCore.added]. apply IH. }
  cbn [negb andb].
  destruct (String.eqb (Py.lower (suffix filename)) ".dds") eqn:Hdds.
  { apply String.eqb_eq in Hdds. rewrite Hdds. cbn [ScanGameCore.added]. apply IH. }
  destruct ((String.eqb (Py.lower (suffix filename)) ".tga"
             || String.eqb (Py.lower (suffix filename)) ".png")
            && negb (bool_decide ("BodySlide" ∈ parts (joinpath root filename)))).
  { cbn [ScanGameCore.added map].
    rewrite issue_lines_cons_add, decide_True by done.
    cbn [app]. f_equal. apply IH. }
  repeat match goal with
         | |- context [if ?c then _ else _] => destruct c
         end; cbn [ScanGameCore.added];
    rewrite ?issue_lines_cons_add, ?decide_False by done; apply IH.
Qed.

Lemma files_loop_snd s w backup_path rel root root_main files hx hp :
  issue_lines "snd_frmt"
    (ScanGameCore.added
       (ScanGameCore.files_loop s w backup_path rel root root_main files hx hp))
  = map (loose_format_line rel) (List.filter snd_frmt_file files).
Proof.
  revert hx hp. induction files as [|filename rest IH]; intros hx hp; [done|].
  cbn [ScanGameCore.files_loop List.filter].
  unfold snd_frmt_file at 1. unfold doc_file. cbn zeta.
  destruct (Py.endswith ".txt" (Py.lower filename)
            && existsb (fun name => Py.contains name (Py.lower filename)) filter_names).
  { cbn [negb andb ScanGameCore.added]. apply IH. }
  cbn [negb andb].
  destruct (String.eqb (Py.lower (suffix filename)) ".dds") eqn:Hdds.
  { apply String.eqb_eq in Hdds. rewrite Hdds. cbn [ScanGameCore.added]. apply IH. }
  destruct ((String.eqb (Py.lower (suffix filename)) ".tga"
             || String.eqb (Py.lower (suffix filename)) ".png")
            && negb (bool_decide ("BodySlide" ∈ parts (joinpath root filename)))) eqn:Htex.
  { apply andb_true_iff in Htex as [Hext _].
    apply orb_true_iff in Hext as [Hext|Hext]; apply String.eqb_eq in Hext;
      rewrite Hext; cbn [ScanGameCore.added];
      rewrite issue_lines_cons_add, decide_False by done; apply IH. }
  destruct (String.eqb (Py.lower (suffix filename)) ".mp3"
            || String.eqb (Py.lower (suffix filename)) ".m4a").
  { cbn [ScanGameCore.added map].
    rewrite issue_lines_cons_add, decide_True by done.
    cbn [app]. f_equal. apply IH. }
  repeat match goal with
         | |- context [if ?c then _ else _] => destruct c
         end; cbn [ScanGameCore.added];
    rewrite ?issue_lines_cons_add, ?decide_False by done; apply IH.
Qed.

(** X10. The loose-file scan records one texture-format line for each
    [.tga] or [.png] file that is not a documentation text file and has
    no [BodySlide] component in its path, and one sound-format line for
    each [.mp3] or [.m4a] file that is not a documentation text file,
    in the order of the directory listing, whatever else the directory
    holds. *)
Theorem loose_format_lines (s : Settings) (w : World) (mp backup_path : Path)
    (e : walk_entry) :
  issue_lines "tex_frmt" (ScanGameCore.process_directory s w mp backup_path e)
  = map (loose_format_line e.1.1)
      (List.filter (tex_frmt_file (joinrel mp (relative e.1.1))) e.2)
  ∧ issue_lines "snd_frmt" (ScanGameCore.process_directory s w mp backup_path e)
    = map (loose_format_line e.1.1) (List.filter snd_frmt_file e.2).
Proof.
  split.
  - rewrite process_directory_lines by done.
    rewrite dirs_loop_added_other by done. apply files_loop_tex.
  - rewrite process_directory_lines by done.
    rewrite dirs_loop_added_other by done. apply files_loop_snd.
Qed.

(** ** The bare banner *)

Lemma py_concat_empty (l : list string) :
  Py.concat l = EmptyString ↔ Forall (fun x => x = EmptyString) l.
Proof.
  induction l as [|x l IH]; [by split|].
  change (Py.concat (x :: l)) with (x +:+ Py.concat l). split.
  - intros H. destruct x as [|c r].
    + constructor; [done|]. by apply IH.
    + change (String c (r +:+ Py.concat l) = EmptyString) in H. discriminate H.
  - intros H. inversion H as [|? ? -> Hl]. by apply IH.
Qed.

Lemma render_bare issue_messages message_list (d : issue_dict) :
  (∀ e, e ∈ d → ∃ c r ts, issue_messages !! e.1 = Some (String c r :: ts)) →
  Py.concat (render issue_messages message_list d) = Py.concat message_list
  ↔ Forall (fun e => e.2 = ∅) d.
Proof.
  intros Hmsg. rewrite render_blocks, py_concat_app. split.
  - intros H%str_app_nil_inv. apply py_concat_empty in H.
    apply Forall_forall. intros e He.
    destruct (decide (e.2 = ∅)) as [|Hne]; [done|exfalso].
    destruct (Hmsg e He) as (c & r & ts & Hlook).
    rewrite Forall_forall in H. specialize (H (String c r)).
    enough (String c r = EmptyString) by done. apply H.
    apply list_elem_of_In, in_concat. exists (render_block issue_messages e).
    split; [apply in_map; by apply list_elem_of_In|].
    unfold render_block. rewrite decide_False by done. rewrite Hlook. by left.
  - intros Hall.
    replace (concat (map (render_block issue_messages) d)) with (@nil string).
    { apply str_app_nil_r. }
    symmetry. induction Hall as [|e d He Hd IH]; [done|].
    cbn. rewrite IH by (intros e' He'; apply Hmsg; by apply list_elem_of_further).
    unfold render_block. by rewrite decide_True.
Qed.

Lemma render_extends issue_messages message_list (d : issue_dict) :
  ∃ body, Py.concat (render issue_messages message_list d)
          = Py.concat message_list +:+ body.
Proof. eexists. rewrite render_blocks. apply py_concat_app. Qed.

Lemma unpacked_template_heads acronym (d : issue_dict) :
  map fst d = unpacked_keys →
  ∀ e, e ∈ d →
       ∃ c r ts, ScanGameCore.get_issue_messages acronym Unpacked !! e.1
                 = Some (String c r :: ts).
Proof.
  intros Hkeys e He.
  assert (Hk : e.1 ∈ unpacked_keys).
  { rewrite <- Hkeys. apply list_elem_of_In, in_map. by apply list_elem_of_In. }
  revert Hk. generalize e.1. intros k. unfold unpacked_keys. rewrite !elem_of_cons.
  intros [->|[->|[->|[->|[->|[->|[->|H]]]]]]]; [..|by apply elem_of_nil in H];
    unfold ScanGameCore.get_issue_messages;
    repeat (rewrite lookup_insert_ne by done); rewrite lookup_insert_eq;
    eexists _, _, _; reflexivity.
Qed.

Lemma archived_template_heads acronym (d : issue_dict) :
  map fst d = ba2_keys →
  ∀ e, e ∈ d →
       ∃ c r ts, ScanGameCore.get_issue_messages acronym Archived !! e.1
                 = Some (String c r :: ts).
Proof.
  intros Hkeys e He.
  assert (Hk : e.1 ∈ ba2_keys).
  { rewrite <- Hkeys. apply list_elem_of_In, in_map. by apply list_elem_of_In. }
  revert Hk. generalize e.1. intros k. unfold ba2_keys. rewrite !elem_of_cons.
  intros [->|[->|[->|[->|[->|[->|[->|H]]]]]]]; [..|by apply elem_of_nil in H];
    unfold ScanGameCore.get_issue_messages;
    repeat (rewrite lookup_insert_ne by done); rewrite lookup_insert_eq;
    eexists _, _, _; reflexivity.
Qed.

(** X12. A scan that is not aborted always begins with its banner, and
    its report is the banner alone exactly when every category of the
    registry is empty: a bare banner means that nothing was found. *)
Theorem bare_banner_iff_nothing_found (sched : schedule) (s : Settings) (w : World)
    (mp : Path) :
  mod_path s = Some mp → walk_fails w = false →
  ((∃ body, ScanGameCore.scan_mods_unpacked sched s w = unpacked_banner +:+ body)
   ∧ (ScanGameCore.scan_mods_unpacked sched s w = unpacked_banner
      ↔ Forall (fun e => e.2 = ∅) (ScanGameCore.scan_mods_unpacked_issues sched s w)))
  ∧ (path_exists w mp = true →
     path_exists w (joinrel (local_dir s) (relative ["CLASSIC Data"; "BSArch.exe"])) = true →
     (∃ body, ScanGameCore.scan_mods_archived sched s w = archived_banner +:+ body)
     ∧ (ScanGameCore.scan_mods_archived sched s w = archived_banner
        ↔ Forall (fun e => e.2 = ∅)
            (ScanGameCore.scan_mods_archived_issues sched s w mp))).
Proof.
  intros Hmp Hwalk. split.
  - unfold ScanGameCore.scan_mods_unpacked, ScanGameCore.scan_mods_unpacked_outcome.
    rewrite Hmp, Hwalk. cbn [outcome_str]. split.
    + apply render_extends.
    + apply (render_bare _
               [ "=================== MOD FILES SCAN ====================" +:+ nl;
                 "========= RESULTS FROM UNPACKED / LOOSE FILES =========" +:+ nl ]).
      apply unpacked_template_heads.
      unfold ScanGameCore.scan_mods_unpacked_issues.
      by rewrite keys_apply_effects, keys_new_issue_lists.
  - intros Hex Hbs.
    unfold ScanGameCore.scan_mods_archived, ScanGameCore.scan_mods_archived_outcome.
    rewrite Hmp, Hex, Hbs, Hwalk. cbn [negb outcome_str]. split.
    + apply render_extends.
    + apply (render_bare _
               [ nl +:+ "========== RESULTS FROM ARCHIVED / BA2 FILES ==========" +:+ nl ]).
      apply archived_template_heads.
      unfold ScanGameCore.scan_mods_archived_issues.
      by rewrite keys_merge_results, keys_new_issue_lists.
Qed.

Lemma bare_banner_iff_nothing_found_witness :
  mod_path (Sample.settings true) = Some Sample.mods
  ∧ walk_fails (with_entries [([], [], [])] Sample.world) = false
  ∧ ScanGameCore.scan_mods_unpacked sched_id (Sample.settings true)
      (with_entries [([], [], [])] Sample.world) = unpacked_banner
  ∧ ScanGameCore.scan_mods_archived sched_id (Sample.settings true)
      (with_entries [([], [], [])] Sample.world) = archived_banner.
Proof.
  split; [reflexivity|]. split; [reflexivity|].
  pose proof (bare_banner_iff_nothing_found sched_id (Sample.settings true)
                (with_entries [([], [], [])] Sample.world) Sample.mods eq_refl eq_refl)
    as [[_ Hu] Ha].
  split.
  - apply Hu. vm_compute. repeat constructor.
  - apply (Ha eq_refl eq_refl). vm_compute. repeat constructor.
Defined.

(** ** The log report *)

Lemma process_single_log_returns s w log_file_path :
  ∃ l, ScanGameCore.process_single_log w (normalize_list (catch_log_errors s))
         (normalize_list (exclude_log_errors s)) log_file_path = Returned l
       ∧ Py.concat l = log_text s w log_file_path.
Proof.
  unfold ScanGameCore.process_single_log, log_text.
  destruct (read_lines w log_file_path) as [log_lines|].
  - destruct (ScanGameCore.detected_errors _ _ log_lines); eexists; by split.
  - eexists. split; [done|]. cbn. apply str_app_nil_r.
Qed.

Lemma collect_log_texts s w (files : list Path) (acc : list string) :
  Py.concat
    (foldl ScanGameCore.collect_report acc
       (Some <$> map (ScanGameCore.process_single_log w
                        (normalize_list (catch_log_errors s))
                        (normalize_list (exclude_log_errors s))) files))
  = Py.concat acc +:+ Py.concat (map (log_text s w) files).
Proof.
  revert acc. induction files as [|f files IH]; intros acc.
  { cbn. by rewrite str_app_nil_r. }
  cbn [map]. rewrite fmap_cons. cbn [foldl].
  destruct (process_single_log_returns s w f) as (l & -> & Hl).
  cbn [ScanGameCore.collect_report].
  rewrite IH, py_concat_app, Hl, str_app_assoc. done.
Qed.

Lemma log_report_order (sched : schedule) (s : Settings) (w : World)
    (folder_path : Path) :
  fair sched →
  ScanGameCore.check_log_errors sched s w folder_path
  = Py.concat
      (map (log_text s w)
         (ScanGameCore.valid_log_files w (normalize_list (exclude_log_files s))
            folder_path)).
Proof.
  intros Hfair. unfold ScanGameCore.check_log_errors. cbn zeta.
  rewrite gather_fair by done. by rewrite collect_log_texts.
Qed.

(** X15. The log report is the texts of the selected log files put end
    to end in the order of the folder listing, whatever the order in
    which the reads complete: the notice for a file that cannot be read,
    nothing for a file without a kept line, the caution block
    otherwise.  A file that cannot be read does not keep the others from
    being reported. *)
Theorem log_report_in_listing_order (sched : schedule) (s : Settings) (w : World)
    (folder_path : Path) :
  fair sched →
  ScanGameCore.check_log_errors sched s w folder_path
  = Py.concat
      (map (log_text s w)
         (ScanGameCore.valid_log_files w (normalize_list (exclude_log_files s))
            folder_path)).
Proof. apply log_report_order. Qed.

Lemma log_report_in_listing_order_witness :
  fair sched_rev
  ∧ ScanGameCore.check_log_errors sched_rev (Sample.settings true) Sample.world Sample.logs
    = Py.concat
        (map (log_text (Sample.settings true) Sample.world)
           [ mkPath "C:\" ["Logs"; "a.log"]; mkPath "C:\" ["Logs"; "b.log"];
             mkPath "C:\" ["Logs"; "c.log"] ]).
Proof.
  split; [exact fair_rev|].
  exact (log_report_in_listing_order sched_rev (Sample.settings true) Sample.world
           Sample.logs fair_rev).
Defined.

(** ** Exclusion patterns and the folder *)








(** ** The custom scan path *)

Section CustomScanPath.

Variable Store : Type.
Variable classic_settings : string → Store → option string.
Variable yaml_settings : string → string → Store → Store.
Variable is_valid_custom_scan_path : string → option bool.
Variable fs : PathValidator.FileSystem.

Hypothesis read_after_write : ∀ value st,
  classic_settings "SCAN Custom Path"
    (yaml_settings "CLASSIC_Settings.SCAN Custom Path" value st) = Some value.

Lemma validate_cases st st' warnings :
  PathValidator.validate_custom_scan_path Store classic_settings yaml_settings
    is_valid_custom_scan_path fs st = Some (st', warnings) →
  (st' = st ∧ warnings = []
   ∧ match classic_settings "SCAN Custom Path" st with
     | None => True
     | Some text =>
         text = EmptyString
         ∨ acceptable_scan_path fs is_valid_custom_scan_path text
     end)
  ∨ (∃ text, classic_settings "SCAN Custom Path" st = Some text
             ∧ text ≠ EmptyString
             ∧ ¬ acceptable_scan_path fs is_valid_custom_scan_path text
             ∧ st' = yaml_settings "CLASSIC_Settings.SCAN Custom Path" EmptyString st
             ∧ (warnings = ["Removed invalid custom scan path: " +:+ text]
                ∨ warnings = ["Removed restricted custom scan path: " +:+ text])).
Proof.
  unfold PathValidator.validate_custom_scan_path, acceptable_scan_path,
    PathValidator.is_restricted_path.
  destruct (classic_settings "SCAN Custom Path" st) as [text|]; [|intros [= <- <-]; by left].
  destruct (String.eqb_spec text EmptyString) as [->|Hne].
  { intros [= <- <-]. left. by intuition. }
  cbn zeta.
  destruct (PathValidator.fs_exists fs text) as [[]|] eqn:Hex; [| |done].
  - destruct (PathValidator.fs_is_dir fs text) as [[]|] eqn:Hdir; [| |done].
    + destruct (is_valid_custom_scan_path text) as [[]|] eqn:Hval; [| |done].
      * intros [= <- <-]. left. by intuition.
      * intros [= <- <-]. right. exists text. split; [done|]. split; [done|].
        split; [intros (_ & _ & H); rewrite Hval in H; discriminate H|].
        split; [done|by right].
    + intros [= <- <-]. right. exists text. split; [done|]. split; [done|].
      split; [intros (_ & H & _); rewrite Hdir in H; discriminate H|].
      split; [done|by left].
  - intros [= <- <-]. right. exists text. split; [done|]. split; [done|].
    split; [intros (H & _ & _); rewrite Hex in H; discriminate H|].
    split; [done|by left].
Qed.

Lemma validate_settled st :
  match classic_settings "SCAN Custom Path" st with
  | None => True
  | Some text => text = EmptyString ∨ acceptable_scan_path fs is_valid_custom_scan_path text
  end →
  PathValidator.validate_custom_scan_path Store classic_settings yaml_settings
    is_valid_custom_scan_path fs st = Some (st, []).
Proof.
  unfold PathValidator.validate_custom_scan_path, acceptable_scan_path,
    PathValidator.is_restricted_path.
  destruct (classic_settings "SCAN Custom Path" st) as [text|]; [|done].
  destruct (String.eqb_spec text EmptyString) as [->|Hne]; [done|].
  intros [?|(-> & -> & Hv)]; [done|]. cbn zeta.
  destruct (is_valid_custom_scan_path text) as [[]|]; done.
Qed.

End CustomScanPath.

(** X17. Whenever [validate_custom_scan_path] returns, the custom scan
    path left in the settings is absent, empty, or the path of an
    existing folder that is not restricted; the settings are changed
    only by emptying a path that fails this, with one warning that names
    it; and a second validation changes nothing and warns of nothing.
    The settings accessors are assumed to read back what was written. *)
Theorem validation_settles_custom_path (Store : Type)
    (classic_settings : string → Store → option string)
    (yaml_settings : string → string → Store → Store)
    (is_valid_custom_scan_path : string → option bool)
    (fs : PathValidator.FileSystem) (st st' : Store) (warnings : list string) :
  (∀ value st0,
     classic_settings "SCAN Custom Path"
       (yaml_settings "CLASSIC_Settings.SCAN Custom Path" value st0) = Some value) →
  PathValidator.validate_all_settings_paths Store classic_settings yaml_settings
    is_valid_custom_scan_path fs st = Some (st', warnings) →
  match classic_settings "SCAN Custom Path" st' with
  | None => True
  | Some text => text = EmptyString ∨ acceptable_scan_path fs is_valid_custom_scan_path text
  end
  ∧ PathValidator.validate_all_settings_paths Store classic_settings yaml_settings
      is_valid_custom_scan_path fs st' = Some (st', [])
  ∧ (warnings = [] ∧ st' = st
     ∨ ∃ text, classic_settings "SCAN Custom Path" st = Some text
               ∧ text ≠ EmptyString
               ∧ ¬ acceptable_scan_path fs is_valid_custom_scan_path text
               ∧ st' = yaml_settings "CLASSIC_Settings.SCAN Custom Path" EmptyString st
               ∧ (warnings = ["Removed invalid custom scan path: " +:+ text]
                  ∨ warnings = ["Removed restricted custom scan path: " +:+ text])).
Proof.
  intros Hlaw Hrun. unfold PathValidator.validate_all_settings_paths in *.
  assert (Hsettled : match classic_settings "SCAN Custom Path" st' with
                     | None => True
                     | Some text =>
                         text = EmptyString
                         ∨ acceptable_scan_path fs is_valid_custom_scan_path text
                     end).
  { apply validate_cases in Hrun as [(-> & _ & H)|(text & _ & _ & _ & -> & _)]; [done|].
    rewrite Hlaw. by left. }
  split; [done|]. split; [by apply validate_settled|].
  apply validate_cases in Hrun as [(-> & -> & _)|H]; [by left|by right].
Qed.

Lemma validation_settles_custom_path_witness :
  (∀ (value : string) (st0 : option string),
     (fun (_ : string) (st : option string) => st) "SCAN Custom Path"
       ((fun (_ value : string) (_ : option string) => Some value)
          "CLASSIC_Settings.SCAN Custom Path" value st0) = Some value)
  ∧ PathValidator.validate_all_settings_paths (option string)
      (fun _ st => st) (fun _ value _ => Some value)
      sample_is_valid_custom_scan_path sample_fs (Some "C:\Windows")
    = Some (Some EmptyString, ["Removed restricted custom scan path: C:\Windows"])
  ∧ PathValidator.validate_all_settings_paths (option string)
      (fun _ st => st) (fun _ value _ => Some value)
      sample_is_valid_custom_scan_path sample_fs (Some EmptyString)
    = Some (Some EmptyString, []).
Proof.
  assert (Hlaw : ∀ (value : string) (st0 : option string),
            (fun (_ : string) (st : option string) => st) "SCAN Custom Path"
              ((fun (_ value : string) (_ : option string) => Some value)
                 "CLASSIC_Settings.SCAN Custom Path" value st0) = Some value)
    by reflexivity.
  assert (Hrun : PathValidator.validate_all_settings_paths (option string)
                   (fun _ st => st) (fun _ value _ => Some value)
                   sample_is_valid_custom_scan_path sample_fs (Some "C:\Windows")
                 = Some (Some EmptyString,
                         ["Removed restricted custom scan path: C:\Windows"]))
    by (vm_compute; reflexivity).
  split; [exact Hlaw|]. split; [exact Hrun|].
  exact (proj1 (proj2 (validation_settles_custom_path (option string)
                         (fun _ st => st) (fun _ value _ => Some value)
                         sample_is_valid_custom_scan_path sample_fs
                         (Some "C:\Windows") (Some EmptyString) _ Hlaw Hrun))).
Defined.

(** ** The validator's predicates and the validation *)

(** X19. For a stored custom scan path that is not blank, the
    validation leaves the settings alone and warns of nothing exactly
    when the validator's own predicates accept the path:
    [is_valid_path] holds, the path is a directory and
    [is_restricted_path] does not hold.  [blank] is the test
    [not path.strip()] of [is_valid_path]. *)
Theorem validation_agrees_with_predicates (Store : Type)
    (classic_settings : string → Store → option string)
    (yaml_settings : string → string → Store → Store)
    (is_valid_custom_scan_path : string → option bool)
    (blank : string → bool)
    (fs : PathValidator.FileSystem) (st : Store) (text : string) :
  classic_settings "SCAN Custom Path" st = Some text →
  blank text = false →
  blank EmptyString = true →
  PathValidator.validate_custom_scan_path Store classic_settings yaml_settings
    is_valid_custom_scan_path fs st = Some (st, [])
  ↔ PathValidator.is_valid_path blank fs (PathValidator.ArgStr text) = true
    ∧ PathValidator.fs_is_dir fs text = Some true
    ∧ PathValidator.is_restricted_path is_valid_custom_scan_path text = false.
Proof.
  intros Hread Hblank Hempty.
  unfold PathValidator.validate_custom_scan_path, PathValidator.is_valid_path,
    PathValidator.is_restricted_path.
  rewrite Hread, Hblank.
  destruct (String.eqb_spec text EmptyString) as [->|Hne]; [congruence|].
  cbn zeta.
  destruct (PathValidator.fs_exists fs text) as [[]|];
    [|split; [intros [= _ ?]|intros (? & _)]; done
     |split; [|intros (? & _)]; done].
  destruct (PathValidator.fs_is_dir fs text) as [[]|];
    [|split; [intros [= _ ?]|intros (_ & ? & _)]; done
     |split; [|intros (_ & ? & _)]; done].
  destruct (is_valid_custom_scan_path text) as [[]|]; cbn [negb].
  - by split.
  - split; [intros [= _ ?]|intros (_ & _ & ?)]; done.
  - split; [|intros (_ & _ & ?)]; done.
Qed.

Lemma validation_agrees_with_predicates_witness :
  ascii_blank "C:\Logs" = false
  ∧ ascii_blank EmptyString = true
  ∧ PathValidator.validate_custom_scan_path (option string)
      (fun _ st => st) (fun _ value _ => Some value)
      sample_is_valid_custom_scan_path sample_fs (Some "C:\Logs")
    = Some (Some "C:\Logs", []).
Proof.
  split; [reflexivity|]. split; [reflexivity|].
  apply (validation_agrees_with_predicates (option string)
           (fun _ st => st) (fun _ value _ => Some value)
           sample_is_valid_custom_scan_path ascii_blank sample_fs (Some "C:\Logs")
           "C:\Logs" eq_refl eq_refl eq_refl).
  split; [|split]; reflexivity.
Defined.

(** ** What the tasks of a directory are *)

Section LiveTasks.
Variables (lower upper : string → string) (xse_scriptfiles : list string)
          (rel : list string) (root root_main : Path).

Lemma live_dirs_loop_inv dirs ha t :
  t ∈ (Live.dirs_loop lower rel root root_main dirs ha).1
  ∨ t ∈ (Live.dirs_loop lower rel root root_main dirs ha).2 →
  (∃ line, t = Live.Add "animdata" line)
  ∨ ∃ dirname, dirname ∈ dirs ∧ lower dirname = "fomod"
               ∧ t = Live.MoveFomod rel root dirname.
Proof.
  revert ha. induction dirs as [|dirname rest IH]; intros ha.
  { cbn. by intros [?%elem_of_nil|?%elem_of_nil]. }
  assert (Hnext : ∀ ha',
    t ∈ (Live.dirs_loop lower rel root root_main rest ha').1
    ∨ t ∈ (Live.dirs_loop lower rel root root_main rest ha').2 →
    (∃ line, t = Live.Add "animdata" line)
    ∨ ∃ d, d ∈ dirname :: rest ∧ lower d = "fomod" ∧ t = Live.MoveFomod rel root d).
  { intros ha' H. destruct (IH _ H) as [?|(d & Hd & Hrest)]; [by left|].
    right. exists d. split; [by apply list_elem_of_further|done]. }
  cbn [Live.dirs_loop]. cbn zeta.
  destruct (negb ha && String.eqb (lower dirname) "animationfiledata").
  { cbn [fst snd]. rewrite elem_of_cons.
    intros [[->|H]|H]; [left; by eexists|apply (Hnext true); by left
                       |apply (Hnext true); by right]. }
  destruct (String.eqb (lower dirname) "fomod") eqn:Hfomod; [|apply Hnext].
  cbn [fst snd]. rewrite elem_of_cons.
  intros [H|[->|H]]; [apply (Hnext ha); by left| |apply (Hnext ha); by right].
  right. exists dirname. split; [apply list_elem_of_here|].
  split; [by apply String.eqb_eq|done].
Qed.

Lemma live_files_loop_inv files hx hp t :
  t ∈ Live.added
        (Live.files_loop lower upper xse_scriptfiles rel root root_main files hx hp)
  ∨ t ∈ Live.file_tasks
          (Live.files_loop lower upper xse_scriptfiles rel root root_main files hx hp)
  ∨ t ∈ Live.dds_files
          (Live.files_loop lower upper xse_scriptfiles rel root root_main files hx hp) →
  (∃ k line, t = Live.Add k line ∧ k ∈ ["tex_frmt"; "snd_frmt"; "xse_file"; "previs"])
  ∨ (∃ filename, filename ∈ files
       ∧ Py.endswith ".txt" (lower filename) = true
       ∧ existsb (fun name => Py.contains name (lower filename)) filter_names = true
       ∧ t = Live.MoveFile (relative (rel ++ [filename])) (joinpath root filename))
  ∨ (∃ filename, filename ∈ files
       ∧ t = Live.CheckDds (joinpath root filename) (relative (rel ++ [filename]))).
Proof.
  revert hx hp. induction files as [|filename rest IH]; intros hx hp.
  { cbn. by intros [?%elem_of_nil|[?%elem_of_nil|?%elem_of_nil]]. }
  assert (Hnext : ∀ hx' hp',
    t ∈ Live.added
          (Live.files_loop lower upper xse_scriptfiles rel root root_main rest hx' hp')
    ∨ t ∈ Live.file_tasks
            (Live.files_loop lower upper xse_scriptfiles rel root root_main rest hx' hp')
    ∨ t ∈ Live.dds_files
            (Live.files_loop lower upper xse_scriptfiles rel root root_main rest hx' hp') →
    (∃ k line, t = Live.Add k line ∧ k ∈ ["tex_frmt"; "snd_frmt"; "xse_file"; "previs"])
    ∨ (∃ f, f ∈ filename :: rest
         ∧ Py.endswith ".txt" (lower f) = true
         ∧ existsb (fun name => Py.contains name (lower f)) filter_names = true
         ∧ t = Live.MoveFile (relative (rel ++ [f])) (joinpath root f))
    ∨ (∃ f, f ∈ filename :: rest
         ∧ t = Live.CheckDds (joinpath root f) (relative (rel ++ [f])))).
  { intros hx' hp' H.
    destruct (IH _ _ H) as [?|[(f & Hf & Hrest)|(f & Hf & Hrest)]]; [by left| |].
    - right; left. exists f. split; [by apply list_elem_of_further|done].
    - right; right. exists f. split; [by apply list_elem_of_further|done]. }
  cbn [Live.files_loop]. cbn zeta.
  destruct (Py.endswith ".txt" (lower filename)
            && existsb (fun name => Py.contains name (lower filename)) filter_names)
    eqn:Hdoc.
  { cbn [Live.added Live.file_tasks Live.dds_files]. rewrite elem_of_cons.
    intros [H|[[->|H]|H]]; [apply (Hnext hx hp); by left| |apply (Hnext hx hp); by right; left
                            |apply (Hnext hx hp); by right; right].
    apply andb_true_iff in Hdoc as [Htxt Hname].
    right; left. exists filename. split; [apply list_elem_of_here|done]. }
  destruct (String.eqb (lower (suffix filename)) ".dds").
  { cbn [Live.added Live.file_tasks Live.dds_files]. rewrite elem_of_cons.
    intros [H|[H|[->|H]]]; [apply (Hnext hx hp); by left|apply (Hnext hx hp); by right; left
                            | |apply (Hnext hx hp); by right; right].
    right; right. exists filename. split; [apply list_elem_of_here|done]. }
  repeat match goal with
         | |- context [if ?c then _ else _] => destruct c
         end; cbn [Live.added Live.file_tasks Live.dds_files];
    rewrite ?elem_of_cons; try apply Hnext;
    (intros [[->|H]|H];
     [left; eexists _, _; split; [reflexivity|];
      repeat first [apply list_elem_of_here|apply list_elem_of_further]
     |eapply Hnext; left; exact H
     |eapply Hnext; right; exact H]).
Qed.

End LiveTasks.

Lemma live_process_directory_inv lower upper xse_scriptfiles mp (e : walk_entry) t :
  t ∈ Live.process_directory lower upper xse_scriptfiles mp e →
  (∃ k line, t = Live.Add k line ∧ k ∈ on_the_spot)
  ∨ (∃ dirname, dirname ∈ e.1.2 ∧ lower dirname = "fomod"
       ∧ t = Live.MoveFomod e.1.1 (joinrel mp (relative e.1.1)) dirname)
  ∨ (∃ filename, filename ∈ e.2
       ∧ Py.endswith ".txt" (lower filename) = true
       ∧ existsb (fun name => Py.contains name (lower filename)) filter_names = true
       ∧ t = Live.MoveFile (relative (e.1.1 ++ [filename]))
               (joinpath (joinrel mp (relative e.1.1)) filename))
  ∨ (∃ filename, filename ∈ e.2
       ∧ t = Live.CheckDds (joinpath (joinrel mp (relative e.1.1)) filename)
               (relative (e.1.1 ++ [filename]))).
Proof.
  unfold Live.process_directory. cbn zeta. rewrite !elem_of_app.
  intros [H|[H|H]].
  - destruct (live_dirs_loop_inv lower _ _ _ _ _ _ (or_introl H)) as [[line ->]|H'].
    + left. eexists _, _. split; [done|apply list_elem_of_here].
    + by right; left.
  - destruct (live_dirs_loop_inv lower _ _ _ _ _ _ (or_intror H)) as [[line ->]|H'].
    + left. eexists _, _. split; [done|apply list_elem_of_here].
    + by right; left.
  - destruct (live_files_loop_inv lower upper _ _ _ _ _ _ _ _ H)
      as [(k & line & -> & Hk)|[H'|H']].
    + left. eexists _, _. split; [done|]. by apply list_elem_of_further.
    + by right; right; left.
    + by right; right; right.
Qed.

Section LiveSub.
Variables (s : Settings) (w : World) (backup_path : Path).

Lemma run_task_sub r t eff :
  eff ∈ Live.effects (Live.run_task s w backup_path r t) →
  eff ∈ Live.effects r ∨ eff ∈ task_effects s w backup_path t.
Proof.
  destruct t as [k line|rel root dirname|relative_path file_path|file_path relative_path];
    cbn [Live.run_task task_effects].
  - cbn. by rewrite elem_of_app.
  - unfold Live._move_fomod_async, ScanGameCore._move_fomod_async.
    destruct (negb (TEST_MODE s)); [|cbn; by rewrite elem_of_app].
    destruct (Live.in_place _ _); [|by left].
    destruct (try_move w _); cbn [Live.effects]; rewrite ?elem_of_app; tauto.
  - unfold Live._move_file_async, ScanGameCore._move_file_async.
    destruct (negb (TEST_MODE s)); [|cbn; by rewrite elem_of_app].
    destruct (Live.in_place _ _);
      destruct (try_move w _); cbn [Live.effects]; rewrite ?elem_of_app, ?elem_of_cons;
      tauto.
  - unfold Live.check_single_dds.
    destruct (Live.in_place _ _); cbn [Live.effects]; rewrite ?elem_of_app; tauto.
Qed.

Lemma run_tasks_sub r ts eff :
  eff ∈ Live.effects (foldl (Live.run_task s w backup_path) r ts) →
  eff ∈ Live.effects r ∨ ∃ t, t ∈ ts ∧ eff ∈ task_effects s w backup_path t.
Proof.
  revert r. induction ts as [|t ts IH]; intros r; cbn [foldl]; [by left|].
  intros H. apply IH in H as [H|(t' & Ht' & H)].
  - apply run_task_sub in H as [H|H]; [by left|].
    right. exists t. split; [apply list_elem_of_here|done].
  - right. exists t'. split; [by apply list_elem_of_further|done].
Qed.

End LiveSub.

(** Whatever a run does is the making of the backup folder or belongs
    to a task of a walked directory. *)
Lemma unpacked_run_sub lower upper (sched : schedule) s w eff :
  fair sched →
  eff ∈ Live.effects (Live.scan_mods_unpacked_run lower upper sched s w) →
  (TEST_MODE s = false ∧ eff = FsMkdir (backup_folder s))
  ∨ ∃ mp e t, mod_path s = Some mp ∧ e ∈ walk_entries w
              ∧ t ∈ Live.process_directory lower upper (xse_scriptfiles s) mp e
              ∧ eff ∈ task_effects s w (backup_folder s) t.
Proof.
  intros Hfair.
  assert (Hstart : eff ∈ (if negb (TEST_MODE s) then [FsMkdir (backup_folder s)] else []) →
                   TEST_MODE s = false ∧ eff = FsMkdir (backup_folder s)).
  { destruct (TEST_MODE s); cbn [negb]; [by intros ?%elem_of_nil|].
    by intros ->%list_elem_of_singleton. }
  destruct (mod_path s) as [mp|] eqn:Hmp;
    [|rewrite unpacked_run_idle by (by left); intros H; left; by apply Hstart].
  destruct (walk_fails w) eqn:Hwalk;
    [rewrite unpacked_run_idle by (by right); intros H; left; by apply Hstart|].
  rewrite (unpacked_run_tasks _ _ _ _ _ mp) by done.
  intros [H|(t & Ht & H)]%run_tasks_sub; [left; by apply Hstart|].
  right. unfold scheduled_tasks in Ht.
  apply elem_of_concat_map in Ht as (b & Hb & Ht).
  rewrite (Hfair Live.task _) in Ht.
  apply elem_of_concat_map in Ht as (e & He & Ht).
  exists mp, e, t. split; [done|]. split; [|done].
  by apply (elem_of_batches_inv 50 _ b); [lia| |].
Qed.

Lemma live_issues_idle lower upper (sched : schedule) s w k :
  mod_path s = None ∨ walk_fails w = true →
  issues_get k (Live.scan_mods_unpacked_issues lower upper sched s w) = ∅.
Proof.
  intros H. unfold Live.scan_mods_unpacked_issues. rewrite unpacked_run_idle by done.
  cbn [Live.effects].
  destruct (negb (TEST_MODE s)); cbn [foldl apply_effect]; apply issues_get_new.
Qed.

Lemma on_the_spot_keys k :
  k ∈ on_the_spot → k ∈ unpacked_keys ∧ k ≠ "cleanup" ∧ k ≠ "tex_dims".
Proof.
  unfold on_the_spot. rewrite !elem_of_cons, elem_of_nil.
  intros [->|[->|[->|[->|[->|[]]]]]];
    (split; [apply (bool_decide_unpack _); by vm_compute|by split]).
Qed.

(** ** Moves and the other findings *)

(** X11. The lines of the categories that a directory fills on the
    spot (animation data, texture format, sound format, script-extender
    copies, previs) are the same in a dry run and in a real run, however
    the moves end and in whatever order the tasks are carried out; and
    in a real run in which every move fails, the clean-up category stays
    empty. *)
Theorem on_the_spot_lines_ignore_moves (lower upper : string → string)
    (sched sched' : schedule) (s : Settings) (w : World) (test_mode : bool)
    (moves : Path → move_outcome) :
  fair sched → fair sched' →
  (∀ k, k ∈ on_the_spot →
        issues_get k (Live.scan_mods_unpacked_issues lower upper sched s w)
        = issues_get k
            (Live.scan_mods_unpacked_issues lower upper sched'
               (with_test_mode test_mode s) (with_moves moves w)))
  ∧ (TEST_MODE s = false → (∀ p, try_move w p ≠ MoveOk) →
     issues_get "cleanup" (Live.scan_mods_unpacked_issues lower upper sched s w) = ∅).
Proof.
  intros Hfair Hfair'. split.
  - intros k (Hk & Hc & Ht)%on_the_spot_keys.
    destruct (mod_path s) as [mp|] eqn:Hmp;
      [|rewrite !live_issues_idle by (by left); done].
    destruct (walk_fails w) eqn:Hwalk;
      [rewrite !live_issues_idle by (by right); done|].
    apply set_eq. intros line.
    rewrite (live_registry_on_the_spot lower upper sched s w mp) by done.
    by rewrite (live_registry_on_the_spot lower upper sched' (with_test_mode test_mode s)
                  (with_moves moves w) mp) by done.
  - intros Hwet Hm. apply set_eq. intros line.
    split; [|by intros ?%not_elem_of_empty].
    unfold Live.scan_mods_unpacked_issues.
    intros [H|H]%apply_effects_inv.
    { rewrite issues_get_new in H. by apply not_elem_of_empty in H. }
    exfalso.
    apply unpacked_run_sub in H as [[_ [=]]|(mp & e & t & Hmp & He & Ht & H)]; [|done].
    apply live_process_directory_inv in Ht
      as [(k & line' & -> & Hk)|[(d & _ & _ & ->)|[(f & _ & _ & _ & ->)|(f & _ & ->)]]];
      cbn [task_effects] in H.
    + apply list_elem_of_singleton in H as [= <- _].
      by apply on_the_spot_keys in Hk as (_ & Hc & _).
    + unfold ScanGameCore._move_fomod_async in H. rewrite Hwet in H. cbn [negb] in H.
      specialize (Hm (joinpath (joinrel mp (relative e.1.1)) d)).
      destruct (try_move w _); [done|by apply elem_of_nil in H..].
    + unfold ScanGameCore._move_file_async in H. rewrite Hwet in H. cbn [negb] in H.
      specialize (Hm (joinpath (joinrel mp (relative e.1.1)) f)).
      destruct (try_move w _); [done|by apply list_elem_of_singleton in H..].
    + by apply check_single_dds_adds in H.
Qed.

Lemma on_the_spot_lines_ignore_moves_witness :
  fair sched_id ∧ fair sched_rev
  ∧ issues_get "tex_frmt"
      (Live.scan_mods_unpacked_issues Py.lower Py.upper sched_id (Sample.settings true)
         Sample.world)
    = issues_get "tex_frmt"
        (Live.scan_mods_unpacked_issues Py.lower Py.upper sched_rev
           (with_test_mode false (Sample.settings true))
           (with_moves (fun _ => MovePermissionError) Sample.world))
  ∧ issues_get "cleanup"
      (Live.scan_mods_unpacked_issues Py.lower Py.upper sched_id
         (with_test_mode false (Sample.settings true))
         (with_moves (fun _ => MovePermissionError) Sample.world)) = ∅.
Proof.
  split; [exact fair_id|]. split; [exact fair_rev|]. split.
  - refine (proj1 (on_the_spot_lines_ignore_moves Py.lower Py.upper sched_id sched_rev
                     (Sample.settings true) Sample.world false
                     (fun _ => MovePermissionError) fair_id fair_rev)
              "tex_frmt" _).
    apply list_elem_of_further, list_elem_of_here.
  - refine (proj2 (on_the_spot_lines_ignore_moves Py.lower Py.upper sched_id sched_id
                     (with_test_mode false (Sample.settings true))
                     (with_moves (fun _ => MovePermissionError) Sample.world)
                     false (fun _ => MovePermissionError) fair_id fair_id) eq_refl _).
    intros p. discriminate.
Defined.

(** ** Where files are moved *)

Lemma joinpath_joinrel mp rel name :
  joinpath (joinrel mp (relative rel)) name = joinrel mp (relative (rel ++ [name])).
Proof. unfold joinpath, joinrel, relative. cbn. by rewrite app_assoc. Qed.

(** X13. The loose-file scan makes a call that changes the filesystem
    only when the dry-run switch is off.  It then makes the backup
    folder, and every other call belongs to a folder named [fomod] or to
    a documentation text file of a walked directory: it is a call of
    [shutil.move] that returned, with the folder or file as source and
    the same relative path below the backup folder as destination, or,
    for a file, the making of the parent folder of that destination. *)
Theorem moves_are_confined (lower upper : string → string) (sched : schedule)
    (s : Settings) (w : World) (eff : effect) :
  fair sched →
  eff ∈ Live.scan_mods_unpacked_fs_ops lower upper sched s w →
  TEST_MODE s = false
  ∧ (eff = FsMkdir (backup_folder s)
     ∨ ∃ mp (e : walk_entry) name,
         mod_path s = Some mp ∧ e ∈ walk_entries w
         ∧ (name ∈ e.1.2 ∧ lower name = "fomod"
            ∧ eff = FsMove (joinrel mp (relative (e.1.1 ++ [name])))
                      (joinrel (backup_folder s) (relative (e.1.1 ++ [name])))
            ∧ try_move w (joinrel mp (relative (e.1.1 ++ [name]))) = MoveOk
            ∨ name ∈ e.2 ∧ Py.endswith ".txt" (lower name) = true
              ∧ (∃ part, part ∈ filter_names ∧ Py.contains part (lower name) = true)
              ∧ (eff = FsMove (joinrel mp (relative (e.1.1 ++ [name])))
                         (joinrel (backup_folder s) (relative (e.1.1 ++ [name])))
                 ∧ try_move w (joinrel mp (relative (e.1.1 ++ [name]))) = MoveOk
                 ∨ eff = FsMkdir
                           (parent (joinrel (backup_folder s)
                                      (relative (e.1.1 ++ [name]))))))).
Proof.
  intros Hfair H. unfold Live.scan_mods_unpacked_fs_ops in H.
  apply list_elem_of_filter in H as [Hfs H].
  apply unpacked_run_sub in H as [[Ht ->]|(mp & e & t & Hmp & He & Ht & H)]; [| |done].
  { split; [done|by left]. }
  apply live_process_directory_inv in Ht
    as [(k & line' & -> & Hk)
       |[(d & Hd & Hfomod & ->)|[(f & Hf & Htxt & Hname & ->)|(f & _ & ->)]]];
    cbn [task_effects] in H.
  - apply list_elem_of_singleton in H as ->. discriminate Hfs.
  - unfold ScanGameCore._move_fomod_async in H.
    destruct (TEST_MODE s); cbn [negb] in H.
    { apply list_elem_of_singleton in H as ->. discriminate Hfs. }
    split; [done|]. right. exists mp, e, d. split; [done|]. split; [done|]. left.
    rewrite joinpath_joinrel in H.
    destruct (try_move w _) eqn:Hm; [|by apply elem_of_nil in H..].
    apply elem_of_cons in H as [->|H]; [done|].
    apply list_elem_of_singleton in H as ->. discriminate Hfs.
  - unfold ScanGameCore._move_file_async in H.
    destruct (TEST_MODE s); cbn [negb] in H.
    { apply list_elem_of_singleton in H as ->. discriminate Hfs. }
    split; [done|]. right. exists mp, e, f. split; [done|]. split; [done|]. right.
    split; [done|]. split; [done|]. split.
    { apply existsb_exists in Hname as (part & Hin & Hc). exists part.
      split; [by apply list_elem_of_In|done]. }
    rewrite joinpath_joinrel in H.
    destruct (try_move w _) eqn:Hm.
    + apply elem_of_cons in H as [->|H]; [by right|].
      apply elem_of_cons in H as [->|H]; [by left|].
      apply list_elem_of_singleton in H as ->. discriminate Hfs.
    + apply list_elem_of_singleton in H as ->. by right.
    + apply list_elem_of_singleton in H as ->. by right.
  - pose proof (check_single_dds_no_fs w (joinpath (joinrel mp (relative e.1.1)) f)
                  (relative (e.1.1 ++ [f]))) as Hall.
    rewrite Forall_forall in Hall. apply Hall in H. congruence.
Qed.

Lemma moves_are_confined_witness :
  fair sched_rev
  ∧ FsMove (mkPath "C:\" ["Mods"; "ModA"; "Readme.TXT"])
      (mkPath "C:\" ["CLASSIC"; "CLASSIC Backup"; "Cleaned Files"; "ModA"; "Readme.TXT"])
    ∈ Live.scan_mods_unpacked_fs_ops Py.lower Py.upper sched_rev
        (with_test_mode false (Sample.settings true)) Sample.world
  ∧ TEST_MODE (with_test_mode false (Sample.settings true)) = false.
Proof.
  assert (H : FsMove (mkPath "C:\" ["Mods"; "ModA"; "Readme.TXT"])
                (mkPath "C:\" ["CLASSIC"; "CLASSIC Backup"; "Cleaned Files"; "ModA";
                               "Readme.TXT"])
              ∈ Live.scan_mods_unpacked_fs_ops Py.lower Py.upper sched_rev
                  (with_test_mode false (Sample.settings true)) Sample.world).
  { vm_compute. repeat first [apply list_elem_of_here | apply list_elem_of_further]. }
  split; [exact fair_rev|]. split; [exact H|].
  exact (proj1 (moves_are_confined Py.lower Py.upper sched_rev
                  (with_test_mode false (Sample.settings true)) Sample.world _
                  fair_rev H)).
Defined.

(** ** Runs in which every task finds its file *)

Section Resolved.
Variables (s : Settings) (w : World) (backup_path : Path) (rel : list string)
          (root root_main : Path).

Lemma live_dirs_loop_resolved dirs ha :
  concat (map (task_effects s w backup_path)
            (Live.dirs_loop Py.lower rel root root_main dirs ha).1)
  = (ScanGameCore.dirs_loop s w backup_path rel root root_main dirs ha).1
  ∧ map (task_effects s w backup_path)
      (Live.dirs_loop Py.lower rel root root_main dirs ha).2
    = (ScanGameCore.dirs_loop s w backup_path rel root root_main dirs ha).2.
Proof.
  revert ha. induction dirs as [|dirname rest IH]; intros ha; [done|].
  cbn [Live.dirs_loop ScanGameCore.dirs_loop]. cbn zeta.
  destruct (negb ha && String.eqb (Py.lower dirname) "animationfiledata").
  { destruct (IH true) as [H1 H2]. cbn [fst snd map concat task_effects app].
    by rewrite H1, H2. }
  destruct (String.eqb (Py.lower dirname) "fomod"); [|apply IH].
  destruct (IH ha) as [H1 H2]. cbn [fst snd map task_effects]. by rewrite H1, H2.
Qed.

Lemma live_files_loop_resolved files hx hp :
  concat (map (task_effects s w backup_path)
            (Live.added
               (Live.files_loop Py.lower Py.upper (xse_scriptfiles s) rel root root_main
                  files hx hp)))
  = ScanGameCore.added
      (ScanGameCore.files_loop s w backup_path rel root root_main files hx hp)
  ∧ map (task_effects s w backup_path)
      (Live.file_tasks
         (Live.files_loop Py.lower Py.upper (xse_scriptfiles s) rel root root_main
            files hx hp))
    = ScanGameCore.file_tasks
        (ScanGameCore.files_loop s w backup_path rel root root_main files hx hp)
  ∧ concat (map (task_effects s w backup_path)
              (Live.dds_files
                 (Live.files_loop Py.lower Py.upper (xse_scriptfiles s) rel root
                    root_main files hx hp)))
    = ScanGameCore._check_dds_batch_async w
        (ScanGameCore.dds_files
           (ScanGameCore.files_loop s w backup_path rel root root_main files hx hp)).
Proof.
  revert hx hp. induction files as [|filename rest IH]; intros hx hp; [done|].
  cbn [Live.files_loop ScanGameCore.files_loop]. cbn zeta.
  change (Live.xse_test Py.lower (xse_scriptfiles s) root filename)
    with (ScanGameCore.xse_test s root filename).
  repeat match goal with
         | |- context [if ?c then _ else _] => destruct c
         end;
    match goal with
    | |- context [ScanGameCore.files_loop s _ _ _ _ _ _ ?x ?p] =>
        destruct (IH x p) as (Ha & Ht & Hd)
    end;
    cbn [Live.added Live.file_tasks Live.dds_files ScanGameCore.added
         ScanGameCore.file_tasks ScanGameCore.dds_files map concat task_effects app];
    unfold ScanGameCore._check_dds_batch_async in *; cbn [map concat fst snd];
    rewrite ?Ha, ?Ht, ?Hd; done.
Qed.

End Resolved.

Lemma live_process_directory_resolved s w mp backup_path (e : walk_entry) :
  concat (map (task_effects s w backup_path)
            (Live.process_directory Py.lower Py.upper (xse_scriptfiles s) mp e))
  = ScanGameCore.process_directory s w mp backup_path e.
Proof.
  unfold Live.process_directory, ScanGameCore.process_directory. cbn zeta.
  destruct (live_dirs_loop_resolved s w backup_path e.1.1 (joinrel mp (relative e.1.1))
              (parent (relative e.1.1)) e.1.2 false) as [Hd1 Hd2].
  destruct (live_files_loop_resolved s w backup_path e.1.1 (joinrel mp (relative e.1.1))
              (parent (relative e.1.1)) e.2 false false) as (Hf1 & Hf2 & Hf3).
  rewrite !map_app, !concat_app. rewrite Hd1, Hd2, Hf1, Hf2, Hf3.
  by destruct (ScanGameCore.dds_files _).
Qed.

Lemma resolved_effects_perm (sched sched' : schedule) s w mp :
  fair sched → fair sched' →
  concat (map (task_effects s w (backup_folder s))
            (scheduled_tasks Py.lower Py.upper sched s w mp))
  ≡ₚ concat (map (fun batch =>
                    sched' effect
                      (concat (map (ScanGameCore.process_directory s w mp (backup_folder s))
                                 batch)))
               (batches 50 (walk_entries w))).
Proof.
  intros Hs Hs'. unfold scheduled_tasks.
  induction (batches 50 (walk_entries w)) as [|batch bs IH]; [done|].
  cbn [map concat]. rewrite map_app, concat_app, IH.
  apply Permutation_app_tail.
  rewrite (Hs' effect _).
  rewrite (concat_map_perm_arg _ _ _ (Hs Live.task _)).
  clear IH. induction batch as [|e batch IH]; [done|].
  cbn [map concat]. rewrite map_app, concat_app, IH.
  by rewrite live_process_directory_resolved.
Qed.

Lemma undisturbed_effects_perm (sched sched' : schedule) s w :
  fair sched → fair sched' →
  Live.undisturbed (Live.scan_mods_unpacked_run Py.lower Py.upper sched s w) = true →
  Live.effects (Live.scan_mods_unpacked_run Py.lower Py.upper sched s w)
  ≡ₚ ScanGameCore.scan_mods_unpacked_effects sched' s w.
Proof.
  intros Hs Hs' Hu. unfold ScanGameCore.scan_mods_unpacked_effects. cbn zeta.
  fold (backup_folder s).
  destruct (mod_path s) as [mp|] eqn:Hmp;
    [|rewrite unpacked_run_idle by (by left); cbn [Live.effects]; by rewrite app_nil_r].
  destruct (walk_fails w) eqn:Hwalk;
    [rewrite unpacked_run_idle by (by right); cbn [Live.effects]; by rewrite app_nil_r|].
  rewrite (unpacked_run_in_place _ _ _ _ _ mp) by done.
  apply Permutation_app_head. by apply resolved_effects_perm.
Qed.

(** X21. The scan in which every read and every move is answered by
    the filesystem as the walk saw it is the scan of a run in which
    every task finds its file or folder in place: such a run returns
    the same report and makes the same calls that change the
    filesystem, up to their order.  Every dry run is such a run. *)
Theorem undisturbed_run_is_resolved_scan (sched sched' : schedule) (s : Settings)
    (w : World) :
  fair sched → fair sched' →
  (TEST_MODE s = true →
   Live.undisturbed (Live.scan_mods_unpacked_run Py.lower Py.upper sched s w) = true)
  ∧ (Live.undisturbed (Live.scan_mods_unpacked_run Py.lower Py.upper sched s w) = true →
     Live.scan_mods_unpacked Py.lower Py.upper sched s w
     = ScanGameCore.scan_mods_unpacked sched' s w
     ∧ Live.scan_mods_unpacked_fs_ops Py.lower Py.upper sched s w
       ≡ₚ ScanGameCore.scan_mods_unpacked_fs_ops sched' s w).
Proof.
  intros Hs Hs'. split; [intros Ht; by apply unpacked_run_dry|].
  intros Hu. pose proof (undisturbed_effects_perm sched sched' s w Hs Hs' Hu) as Hperm.
  split.
  - unfold Live.scan_mods_unpacked, Live.scan_mods_unpacked_outcome,
      Live.scan_mods_unpacked_issues, ScanGameCore.scan_mods_unpacked,
      ScanGameCore.scan_mods_unpacked_outcome, ScanGameCore.scan_mods_unpacked_issues.
    by rewrite (registry_order_irrelevant _ _ _ Hperm).
  - unfold Live.scan_mods_unpacked_fs_ops, ScanGameCore.scan_mods_unpacked_fs_ops.
    by rewrite Hperm.
Qed.

Lemma undisturbed_run_is_resolved_scan_witness :
  fair sched_rev ∧ fair sched_id
  ∧ Live.scan_mods_unpacked Py.lower Py.upper sched_rev (Sample.settings true) Sample.world
    = ScanGameCore.scan_mods_unpacked sched_id (Sample.settings true) Sample.world.
Proof.
  split; [exact fair_rev|]. split; [exact fair_id|].
  destruct (undisturbed_run_is_resolved_scan sched_rev sched_id (Sample.settings true)
              Sample.world fair_rev fair_id) as [Hdry Hsame].
  exact (proj1 (Hsame (Hdry eq_refl))).
Defined.
